(** * ESP32 plant monitor: provisioning and session core of [sketch_github.ino]

    A shallow embedding of the device-side functions of the firmware sketch
    (URL encoding, SAS token signing, the response field extractors, the DPS
    registration handshake, the IoT Hub session keeper and the soil
    conversion), and the properties of the design document that concern them.

    Arduino [String]s are byte strings: they are modelled by [string], whose
    characters ([ascii]) are exactly the 256 byte values.  C [int]s that serve
    as positions or status codes are modelled by [Z], so that the sketch's
    [-1] results and [p < 0] tests read as in the source. *)

From Stdlib Require Import ZArith Lia List String Ascii Bool Arith QArith Qabs.
From Stdlib Require Import Floats.SpecFloat.
Import ListNotations.

Local Open Scope string_scope.
Local Open Scope Z_scope.

(* ================================================================== *)
(** ** The Arduino [String] operations the sketch relies on           *)
(* ================================================================== *)

Module WString.

(** [String::length()]. *)
Definition len (s : string) : Z := Z.of_nat (String.length s).

(** [String::charAt(i)]: the byte at [i], or NUL past the end. *)
Definition charAt (s : string) (i : nat) : ascii :=
  match String.get i s with
  | Some c => c
  | None => Ascii.zero
  end.

(** Conversion of an [int] argument to the [unsigned int] parameter of
    [indexOf] and [substring]. *)
Definition to_unsigned (x : Z) : Z := if x <? 0 then x + 2 ^ 32 else x.

(** [String::indexOf(pat, from)]: [-1] when [from] is not a position of the
    string, otherwise the first occurrence of [pat] at or after [from]
    ([strstr] on the tail), or [-1]. *)
Definition indexOf (s pat : string) (from : Z) : Z :=
  let from := to_unsigned from in
  if len s <=? from then -1
  else match String.index (Z.to_nat from) pat s with
       | Some n => Z.of_nat n
       | None => -1
       end.

(** [String::substring(left, right)]: the bytes in [left, right), with the
    bounds swapped when reversed and [right] clipped to the length. *)
Definition substring (s : string) (left right : Z) : string :=
  let left := to_unsigned left in
  let right := to_unsigned right in
  let (left, right) := if right <? left then (right, left) else (left, right) in
  if len s <=? left then EmptyString
  else
    let right := if len s <? right then len s else right in
    String.substring (Z.to_nat left) (Z.to_nat (right - left)) s.

(** [tolower] in the C locale. *)
Definition tolower (c : ascii) : ascii :=
  let n := nat_of_ascii c in
  if ((65 <=? n) && (n <=? 90))%nat then ascii_of_nat (n + 32) else c.

(** [String::toLowerCase()]. *)
Fixpoint toLowerCase (s : string) : string :=
  match s with
  | EmptyString => EmptyString
  | String c r => String (tolower c) (toLowerCase r)
  end.

(** [isspace] in the C locale. *)
Definition isspace (c : ascii) : bool :=
  let n := nat_of_ascii c in
  ((n =? 32) || ((9 <=? n) && (n <=? 13)))%nat.

Definition digit_of (c : ascii) : option Z :=
  let n := nat_of_ascii c in
  if ((48 <=? n) && (n <=? 57))%nat then Some (Z.of_nat (n - 48)) else None.

(** The digit run of [atol]: accumulate decimal digits until the first
    byte that is not one. *)
Fixpoint atol_digits (s : string) (acc : Z) : Z :=
  match s with
  | EmptyString => acc
  | String c r =>
      match digit_of c with
      | Some d => atol_digits r (10 * acc + d)
      | None => acc
      end
  end.

Fixpoint skip_spaces (s : string) : string :=
  match s with
  | EmptyString => EmptyString
  | String c r => if isspace c then skip_spaces r else s
  end.

(** [String::toInt()], which is [atol] on the buffer: leading white space,
    an optional sign, then decimal digits; [0] when there is no digit.  The
    sketch converts three characters, so the range of [long] is not at
    stake. *)
Definition toInt (s : string) : Z :=
  match skip_spaces s with
  | String "-" r => - atol_digits r 0
  | String "+" r => atol_digits r 0
  | r => atol_digits r 0
  end.

(** The digit loop of [ultoa] in base ten: the low digit is produced
    first and ends up last. *)
Fixpoint ultoa_digits (fuel : nat) (n : Z) (acc : string) : string :=
  match fuel with
  | O => acc
  | S fuel' =>
      let acc := String (ascii_of_nat (48 + Z.to_nat (n mod 10))) acc in
      if n / 10 =? 0 then acc else ultoa_digits fuel' (n / 10) acc
  end.

(** The cast [(unsigned long)x] of the 32-bit target. *)
Definition to_ulong (x : Z) : Z := x mod 2 ^ 32.

(** [String(unsigned long)] and [String(unsigned int)]: decimal digits, no
    sign, no padding; ten digits are enough below [2^32]. *)
Definition of_ulong (n : Z) : string :=
  ultoa_digits 10 n EmptyString.

(** One-character string, as built by [encoded += c]. *)
Definition of_char (c : ascii) : string := String c EmptyString.

End WString.

(* ================================================================== *)
(** ** URL encoding (sketch lines 55-72)                               *)
(* ================================================================== *)

(** The value of a plain [char] holding byte [a], promoted to [int].  Plain
    [char] is unsigned on the ESP32 tool chains; the signed reading is kept
    as well, to show that [urlEncode] does not depend on it. *)
Definition char_to_int (is_signed : bool) (a : ascii) : Z :=
  let n := Z.of_nat (nat_of_ascii a) in
  if is_signed && (128 <=? n) then n - 256 else n.

Definition chr (a : ascii) : Z := Z.of_nat (nat_of_ascii a).

(** [const char *hex = "0123456789ABCDEF"]. *)
Definition hex : string := "0123456789ABCDEF".

(** The test of the sketch's [if]: the three ranges and the four marks. *)
Definition is_unreserved_char (c : Z) : bool :=
  ((chr "a" <=? c) && (c <=? chr "z")) ||
  ((chr "A" <=? c) && (c <=? chr "Z")) ||
  ((chr "0" <=? c) && (c <=? chr "9")) ||
  (c =? chr "-") || (c =? chr "_") || (c =? chr ".") || (c =? chr "~").

(** The body of the [for] loop at index [i]: append to [encoded]. *)
Definition urlEncode_body (is_signed : bool) (value : string) (i : nat)
    (encoded : string) : string :=
  let a := WString.charAt value i in
  let c := char_to_int is_signed a in
  if is_unreserved_char c then
    encoded ++ WString.of_char a
  else
    let encoded := encoded ++ WString.of_char "%" in
    let encoded :=
      encoded ++ WString.of_char
        (WString.charAt hex (Z.to_nat (Z.land (Z.shiftr c 4) 15))) in
    encoded ++ WString.of_char (WString.charAt hex (Z.to_nat (Z.land c 15))).

(** [for (size_t i = 0; i < value.length(); i++)], with [todo] the number of
    iterations still to run. *)
Fixpoint urlEncode_loop (is_signed : bool) (todo : nat) (value : string)
    (i : nat) (encoded : string) : string :=
  match todo with
  | O => encoded
  | S todo' =>
      urlEncode_loop is_signed todo' value (S i)
        (urlEncode_body is_signed value i encoded)
  end.

Definition urlEncode_as (is_signed : bool) (value : string) : string :=
  urlEncode_loop is_signed (String.length value) value 0 EmptyString.

Definition urlEncode (value : string) : string := urlEncode_as false value.

(** *** The encoding rule as the design document words it *)

(** The unreserved set [[A-Za-z0-9-_.~]], written out. *)
Definition unreserved_set : string :=
  "ABCDEFGHIJKLMNOPQRSTUVWXYZabcdefghijklmnopqrstuvwxyz0123456789-_.~".

Definition in_unreserved_set (a : ascii) : bool :=
  existsb (Ascii.eqb a) (list_ascii_of_string unreserved_set).

(** Upper-case hexadecimal digit of a value below sixteen. *)
Definition upper_hex_digit (d : nat) : ascii :=
  if (d <? 10)%nat then ascii_of_nat (48 + d) else ascii_of_nat (55 + d).

(** ['%'] followed by the two upper-case hexadecimal digits of the byte. *)
Definition percent_escape (a : ascii) : string :=
  let n := nat_of_ascii a in
  String "%" (String (upper_hex_digit (n / 16)%nat)
                (String (upper_hex_digit (n mod 16)%nat) EmptyString)).

Definition encode_byte (a : ascii) : string :=
  if in_unreserved_set a then WString.of_char a else percent_escape a.

Fixpoint urlEncode_rule (s : string) : string :=
  match s with
  | EmptyString => EmptyString
  | String a r => encode_byte a ++ urlEncode_rule r
  end.

(** Percent-decoding, which the sketch leaves to the service: the inverse
    that the design document's round-trip property names.  Each ['%']
    followed by two hexadecimal digits becomes the byte they denote, every
    other character passes through. *)
Definition hex_value (a : ascii) : option nat :=
  let n := nat_of_ascii a in
  if ((48 <=? n) && (n <=? 57))%nat then Some (n - 48)%nat
  else if ((65 <=? n) && (n <=? 70))%nat then Some (n - 55)%nat
  else if ((97 <=? n) && (n <=? 102))%nat then Some (n - 87)%nat
  else None.

Fixpoint percentDecode (s : string) : string :=
  match s with
  | EmptyString => EmptyString
  | String c r =>
      if Ascii.eqb c "%" then
        match r with
        | String h (String l r') =>
            match hex_value h, hex_value l with
            | Some x, Some y => String (ascii_of_nat (16 * x + y)%nat) (percentDecode r')
            | _, _ => String c (percentDecode r)
            end
        | _ => String c (percentDecode r)
        end
      else String c (percentDecode r)
  end.

(* ================================================================== *)
(** ** The mbedTLS primitives behind the signature                     *)
(* ================================================================== *)

(** Byte buffers ([uint8_t] arrays) are lists of integers in [0, 255]. *)
Definition bytes := list Z.

Definition bytes_of_string (s : string) : bytes :=
  map chr (list_ascii_of_string s).

(** SHA-256 (FIPS 180-4) on byte buffers, words as integers below [2^32]
    with the wrap-around of the 32-bit addition written out. *)
Module SHA256.

Definition mask32 : Z := 0xFFFFFFFF.
Definition add32 (x y : Z) : Z := Z.land (x + y) mask32.
Definition rotr (n x : Z) : Z :=
  Z.lor (Z.shiftr x n) (Z.land (Z.shiftl x (32 - n)) mask32).

Definition Ch (x y z : Z) : Z :=
  Z.lxor (Z.land x y) (Z.land (Z.lxor x mask32) z).
Definition Maj (x y z : Z) : Z :=
  Z.lxor (Z.lxor (Z.land x y) (Z.land x z)) (Z.land y z).
Definition bsig0 (x : Z) : Z := Z.lxor (Z.lxor (rotr 2 x) (rotr 13 x)) (rotr 22 x).
Definition bsig1 (x : Z) : Z := Z.lxor (Z.lxor (rotr 6 x) (rotr 11 x)) (rotr 25 x).
Definition ssig0 (x : Z) : Z := Z.lxor (Z.lxor (rotr 7 x) (rotr 18 x)) (Z.shiftr x 3).
Definition ssig1 (x : Z) : Z := Z.lxor (Z.lxor (rotr 17 x) (rotr 19 x)) (Z.shiftr x 10).

(** The sixty-four round constants (fractional parts of the cube roots of
    the first primes), in decimal. *)
Definition K : list Z :=
  [
    1116352408; 1899447441; 3049323471; 3921009573;
     961987163; 1508970993; 2453635748; 2870763221;
    3624381080;  310598401;  607225278; 1426881987;
    1925078388; 2162078206; 2614888103; 3248222580;
    3835390401; 4022224774;  264347078;  604807628;
     770255983; 1249150122; 1555081692; 1996064986;
    2554220882; 2821834349; 2952996808; 3210313671;
    3336571891; 3584528711;  113926993;  338241895;
     666307205;  773529912; 1294757372; 1396182291;
    1695183700; 1986661051; 2177026350; 2456956037;
    2730485921; 2820302411; 3259730800; 3345764771;
    3516065817; 3600352804; 4094571909;  275423344;
     430227734;  506948616;  659060556;  883997877;
     958139571; 1322822218; 1537002063; 1747873779;
    1955562222; 2024104815; 2227730452; 2361852424;
    2428436474; 2756734187; 3204031479; 3329325298 ].

(** The eight working variables, and the chaining value. *)
Record regs : Type := Regs {
  ra : Z; rb : Z; rc : Z; rd : Z; re : Z; rf : Z; rg : Z; rh : Z }.

Definition H0 : regs :=
  Regs 1779033703 3144134277 1013904242 2773480762
       1359893119 2600822924 528734635 1541459225.

Fixpoint words_of_bytes (bs : bytes) : list Z :=
  match bs with
  | b0 :: b1 :: b2 :: b3 :: r =>
      Z.lor (Z.lor (Z.shiftl b0 24) (Z.shiftl b1 16)) (Z.lor (Z.shiftl b2 8) b3)
      :: words_of_bytes r
  | _ => []
  end.

Definition bytes_of_word (x : Z) : bytes :=
  [ Z.land (Z.shiftr x 24) 255; Z.land (Z.shiftr x 16) 255;
    Z.land (Z.shiftr x 8) 255; Z.land x 255 ].

(** Message schedule, newest word first: [W_t] from [W_(t-2)], [W_(t-7)],
    [W_(t-15)] and [W_(t-16)]. *)
Fixpoint extend (n : nat) (rev_w : list Z) : list Z :=
  match n with
  | O => rev_w
  | S n' =>
      let wt :=
        add32 (add32 (ssig1 (nth 1 rev_w 0)) (nth 6 rev_w 0))
              (add32 (ssig0 (nth 14 rev_w 0)) (nth 15 rev_w 0)) in
      extend n' (wt :: rev_w)
  end.

Definition schedule (block : list Z) : list Z := rev (extend 48 (rev block)).

Definition round (s : regs) (kw : Z * Z) : regs :=
  let t1 :=
    add32 (add32 (add32 (rh s) (bsig1 (re s))) (Ch (re s) (rf s) (rg s)))
          (add32 (fst kw) (snd kw)) in
  let t2 := add32 (bsig0 (ra s)) (Maj (ra s) (rb s) (rc s)) in
  Regs (add32 t1 t2) (ra s) (rb s) (rc s) (add32 (rd s) t1) (re s) (rf s) (rg s).

Definition compress (h : regs) (block : list Z) : regs :=
  let s := fold_left round (combine K (schedule block)) h in
  Regs (add32 (ra h) (ra s)) (add32 (rb h) (rb s))
       (add32 (rc h) (rc s)) (add32 (rd h) (rd s))
       (add32 (re h) (re s)) (add32 (rf h) (rf s))
       (add32 (rg h) (rg s)) (add32 (rh h) (rh s)).

(** Padding: the byte [0x80], zeros up to 56 modulo 64, and the bit length
    as eight big-endian bytes. *)
Definition pad (msg : bytes) : bytes :=
  let n := Z.of_nat (List.length msg) in
  let zeros := Z.to_nat ((55 - n) mod 64) in
  let bits := 8 * n in
  (msg ++ [128] ++ repeat 0 zeros ++
   bytes_of_word (Z.land (Z.shiftr bits 32) mask32) ++
   bytes_of_word (Z.land bits mask32))%list.

Fixpoint absorb (nblocks : nat) (ws : list Z) (h : regs) : regs :=
  match nblocks with
  | O => h
  | S n' => absorb n' (skipn 16 ws) (compress h (firstn 16 ws))
  end.

Definition digest_of (h : regs) : bytes :=
  (bytes_of_word (ra h) ++ bytes_of_word (rb h) ++
   bytes_of_word (rc h) ++ bytes_of_word (rd h) ++
   bytes_of_word (re h) ++ bytes_of_word (rf h) ++
   bytes_of_word (rg h) ++ bytes_of_word (rh h))%list.

Definition hash (msg : bytes) : bytes :=
  let ws := words_of_bytes (pad msg) in
  digest_of (absorb (List.length ws / 16) ws H0).

End SHA256.

(** [mbedtls_md_hmac_starts] / [_update] / [_finish] with the SHA-256 digest:
    HMAC (RFC 2104) with a 64-byte block. *)
Definition hmac_sha256 (key msg : bytes) : bytes :=
  let k0 := if (64 <? List.length key)%nat then SHA256.hash key else key in
  let k0 := (k0 ++ repeat 0 (64 - List.length k0))%list in
  let ipad := map (Z.lxor 0x36) k0 in
  let opad := map (Z.lxor 0x5c) k0 in
  SHA256.hash (opad ++ SHA256.hash (ipad ++ msg))%list.

(** The base64 alphabet of RFC 4648. *)
Definition base64_alphabet : string :=
  "ABCDEFGHIJKLMNOPQRSTUVWXYZabcdefghijklmnopqrstuvwxyz0123456789+/".

Definition base64_digit (v : Z) : ascii :=
  WString.charAt base64_alphabet (Z.to_nat (Z.land v 63)).

(** Value of a base64 digit, [None] for any other byte. *)
Definition base64_value (c : ascii) : option Z :=
  match String.index 0 (WString.of_char c) base64_alphabet with
  | Some n => Some (Z.of_nat n)
  | None => None
  end.

(** [mbedtls_base64_encode]: three bytes to four digits, the last group padded
    with ['=']. *)
Fixpoint mbedtls_base64_encode (src : bytes) : string :=
  match src with
  | [] => EmptyString
  | [b0] =>
      String (base64_digit (Z.shiftr b0 2))
        (String (base64_digit (Z.shiftl (Z.land b0 3) 4)) "==")
  | [b0; b1] =>
      String (base64_digit (Z.shiftr b0 2))
        (String (base64_digit (Z.lor (Z.shiftl (Z.land b0 3) 4) (Z.shiftr b1 4)))
           (String (base64_digit (Z.shiftl (Z.land b1 15) 2)) "="))
  | b0 :: b1 :: b2 :: r =>
      String (base64_digit (Z.shiftr b0 2))
        (String (base64_digit (Z.lor (Z.shiftl (Z.land b0 3) 4) (Z.shiftr b1 4)))
           (String (base64_digit (Z.lor (Z.shiftl (Z.land b1 15) 2) (Z.shiftr b2 6)))
              (String (base64_digit b2) (mbedtls_base64_encode r))))
  end.

(** First pass of [mbedtls_base64_decode]: validity, and the count of digits
    and of trailing ['='].  Blanks are accepted before a line break or at the
    end, line breaks anywhere; at most two ['='], and no digit after one. *)
Fixpoint base64_scan (src : string) (n equals : nat) (blanks : bool)
  : option (nat * nat) :=
  match src with
  | EmptyString => Some (n, equals)
  | String c r =>
      if Ascii.eqb c " " then base64_scan r n equals true
      else if Ascii.eqb c "010" then base64_scan r n equals false
      else if Ascii.eqb c "013" &&
              match r with String d _ => Ascii.eqb d "010" | _ => false end
      then base64_scan r n equals false
      else if blanks then None
      else if Ascii.eqb c "=" then
        if (2 <? S equals)%nat then None
        else base64_scan r (S n) (S equals) false
      else if negb (equals =? 0)%nat then None
      else match base64_value c with
           | Some _ => base64_scan r (S n) equals false
           | None => None
           end
  end.

(** Second pass: accumulate six bits per digit in [x], and write up to three
    bytes for every four digits, fewer when the group holds ['=']. *)
Fixpoint base64_emit (src : string) (x : Z) (digits equals : nat) : bytes :=
  match src with
  | EmptyString => []
  | String c r =>
      if Ascii.eqb c "013" || Ascii.eqb c "010" || Ascii.eqb c " "
      then base64_emit r x digits equals
      else
        let x := Z.land (Z.shiftl x 6) 0xFFFFFFFF in
        let equals := if Ascii.eqb c "=" then S equals else equals in
        let x := match base64_value c with
                 | Some v => Z.lor x v
                 | None => x
                 end in
        if (S digits =? 4)%nat then
          ((Z.land (Z.shiftr x 16) 255 ::
            (if (equals <=? 1)%nat then [Z.land (Z.shiftr x 8) 255] else []) ++
            (if (equals <=? 0)%nat then [Z.land x 255] else [])) ++
           base64_emit r x 0 equals)%list
        else base64_emit r x (S digits) equals
  end.

(** [mbedtls_base64_decode(dst, dlen, &olen, src, slen)]: [None] stands for a
    non-zero return code (invalid character, or a [dlen] smaller than the
    decoded length), [Some out] for success with [olen] bytes written. *)
Definition mbedtls_base64_decode (dlen : nat) (src : string) : option bytes :=
  match base64_scan src 0 0 false with
  | None => None
  | Some (O, _) => Some []
  | Some (n, equals) =>
      let need := (6 * (n / 8) + (6 * (n mod 8) + 7) / 8 - equals)%nat in
      if (dlen <? need)%nat then None else Some (base64_emit src 0 0 0)
  end.

(** Sketch lines 75-80. *)
Definition base64Decode (input : string) (outLen : nat) : option bytes :=
  mbedtls_base64_decode outLen input.

(** Sketch lines 82-96; the allocation of the output buffer is taken to
    succeed. *)
Definition base64Encode (input : bytes) : string :=
  mbedtls_base64_encode input.

(* ================================================================== *)
(** ** SAS token (sketch lines 101-130)                                *)
(* ================================================================== *)

(** The line feed and the double quote, which the sketch writes escaped. *)
Definition LF : string := String "010" EmptyString.
Definition DQ : string := String "034" EmptyString.

(** [sizeof(key)] of [uint8_t key[64]]. *)
Definition KEY_BUFFER_SIZE : nat := 64.

Definition buildSasToken (resourceUri keyBase64 : string) (expiry : Z) : string :=
  match base64Decode keyBase64 KEY_BUFFER_SIZE with
  | None => EmptyString
  | Some key =>
      let sr := WString.toLowerCase resourceUri in
      let toSign :=
        urlEncode sr ++ LF ++ WString.of_ulong (WString.to_ulong expiry) in
      let hmac := hmac_sha256 key (bytes_of_string toSign) in
      let sig := urlEncode (base64Encode hmac) in
      "SharedAccessSignature sr=" ++ urlEncode sr ++
      "&sig=" ++ sig ++
      "&se=" ++ WString.of_ulong (WString.to_ulong expiry)
  end.

(* ================================================================== *)
(** ** Topic and payload helpers (sketch lines 164-193)                *)
(* ================================================================== *)

Definition topicStatusCode (topic : string) : Z :=
  let p := WString.indexOf topic "/res/" 0 in
  if p <? 0 then -1
  else if WString.len topic <? p + 9 then -1
  else WString.toInt (WString.substring topic (p + 5) (p + 8)).

(** The pattern that [jsonGet] searches for: the quoted key, a colon and
    the opening quote of the value. *)
Definition field_pattern (key : string) : string :=
  DQ ++ key ++ DQ ++ ":" ++ DQ.

Definition jsonGet (s key : string) : string :=
  let patt := field_pattern key in
  let p := WString.indexOf s patt 0 in
  if p <? 0 then EmptyString
  else
    let p := p + WString.len patt in
    let q := WString.indexOf s DQ p in
    if q <? 0 then EmptyString
    else WString.substring s p q.

(** The pattern that opens the parent object: the quoted key, a colon and
    an opening brace. *)
Definition parent_pattern (parentKey : string) : string :=
  DQ ++ parentKey ++ DQ ++ ":{".

Definition jsonGetNested (s parentKey childKey : string) : string :=
  let parent := parent_pattern parentKey in
  let p := WString.indexOf s parent 0 in
  if p <? 0 then EmptyString
  else
    let p := p + WString.len parent in
    let e := WString.indexOf s "}" p in
    let e := if e <? 0 then WString.len s else e in
    let sub := WString.substring s p (e + 1) in
    jsonGet sub childKey.

(** Payloads in the examples are written with apostrophes for the double
    quotes of the wire format. *)
Fixpoint json (s : string) : string :=
  match s with
  | EmptyString => EmptyString
  | String c r => String (if Ascii.eqb c "'" then "034"%char else c) (json r)
  end.

(** [occurs pat s]: some suffix of [s] starts with [pat]. *)
Fixpoint occurs (pat s : string) : bool :=
  String.prefix pat s ||
  match s with
  | EmptyString => false
  | String _ r => occurs pat r
  end.

(* ================================================================== *)
(** ** Globals of the sketch and the MQTT client                       *)
(* ================================================================== *)

(** The identity the sketch is configured with (lines 18-20). *)
Record config : Type := Config {
  DPS_ID_SCOPE : string;
  DPS_REGISTRATION_ID : string;
  DPS_DEVICE_KEY_BASE64 : string }.

Definition DPS_HOST : string := "global.azure-devices-provisioning.net".
Definition DPS_API_VERSION : string := "2019-03-31".
Definition IOTHUB_API_VERSION : string := "2021-04-12".

(** [SAS_TTL_SECS = 60 * 60]. *)
Definition SAS_TTL_SECS : Z := 60 * 60.

(** What the sketch asks of the MQTT client, in the order it asks. *)
Inductive request : Type :=
| Connect (host clientId user pass : string)
| Subscribe (topic : string)
| Publish (topic payload : string)
| Disconnect.

(** The sketch's global variables, the [static] request counter, the
    millisecond clock behind [millis()], the state of the MQTT link and the
    requests issued so far (newest first). *)
Record sketch : Type := Sketch {
  assignedHub : string;
  deviceId : string;
  iothubPublishTopic : string;
  sasExpiry : Z;
  dpsMsgArrived : bool;
  dpsLastTopic : string;
  dpsLastPayload : string;
  rid : Z;
  lastSend : Z;
  clock : Z;
  connected : bool;
  callback_set : bool;
  requests : list request }.

Definition set_assignment (hub dev : string) (st : sketch) : sketch :=
  Sketch hub dev (iothubPublishTopic st) (sasExpiry st) (dpsMsgArrived st)
    (dpsLastTopic st) (dpsLastPayload st) (rid st) (lastSend st) (clock st)
    (connected st) (callback_set st) (requests st).

Definition set_publish_topic (t : string) (st : sketch) : sketch :=
  Sketch (assignedHub st) (deviceId st) t (sasExpiry st) (dpsMsgArrived st)
    (dpsLastTopic st) (dpsLastPayload st) (rid st) (lastSend st) (clock st)
    (connected st) (callback_set st) (requests st).

Definition set_sasExpiry (e : Z) (st : sketch) : sketch :=
  Sketch (assignedHub st) (deviceId st) (iothubPublishTopic st) e
    (dpsMsgArrived st) (dpsLastTopic st) (dpsLastPayload st) (rid st)
    (lastSend st) (clock st) (connected st) (callback_set st) (requests st).

Definition set_inbox (arrived : bool) (topic payload : string) (st : sketch)
  : sketch :=
  Sketch (assignedHub st) (deviceId st) (iothubPublishTopic st) (sasExpiry st)
    arrived topic payload (rid st) (lastSend st) (clock st) (connected st)
    (callback_set st) (requests st).

Definition set_rid (r : Z) (st : sketch) : sketch :=
  Sketch (assignedHub st) (deviceId st) (iothubPublishTopic st) (sasExpiry st)
    (dpsMsgArrived st) (dpsLastTopic st) (dpsLastPayload st) r (lastSend st)
    (clock st) (connected st) (callback_set st) (requests st).

Definition set_lastSend (t : Z) (st : sketch) : sketch :=
  Sketch (assignedHub st) (deviceId st) (iothubPublishTopic st) (sasExpiry st)
    (dpsMsgArrived st) (dpsLastTopic st) (dpsLastPayload st) (rid st) t
    (clock st) (connected st) (callback_set st) (requests st).

Definition set_clock (t : Z) (st : sketch) : sketch :=
  Sketch (assignedHub st) (deviceId st) (iothubPublishTopic st) (sasExpiry st)
    (dpsMsgArrived st) (dpsLastTopic st) (dpsLastPayload st) (rid st)
    (lastSend st) t (connected st) (callback_set st) (requests st).

Definition set_link (up callback : bool) (st : sketch) : sketch :=
  Sketch (assignedHub st) (deviceId st) (iothubPublishTopic st) (sasExpiry st)
    (dpsMsgArrived st) (dpsLastTopic st) (dpsLastPayload st) (rid st)
    (lastSend st) (clock st) up callback (requests st).

Definition issue (r : request) (st : sketch) : sketch :=
  Sketch (assignedHub st) (deviceId st) (iothubPublishTopic st) (sasExpiry st)
    (dpsMsgArrived st) (dpsLastTopic st) (dpsLastPayload st) (rid st)
    (lastSend st) (clock st) (connected st) (callback_set st)
    (r :: requests st).

(** The globals as initialised, with the board [ms] milliseconds after
    boot. *)
Definition boot (ms : Z) : sketch :=
  Sketch EmptyString EmptyString EmptyString 0 false EmptyString EmptyString
    1 0 ms false false [].

(** [millis()] is a 32-bit counter; [millis() - t0] is formed in unsigned
    arithmetic. *)
Definition millis (st : sketch) : Z := clock st mod 2 ^ 32.
Definition elapsed_since (t0 : Z) (st : sketch) : Z := (millis st - t0) mod 2 ^ 32.

(** [delay(ms)]. *)
Definition delay (ms : Z) (st : sketch) : sketch := set_clock (clock st + ms) st.

(** [rid++] on the [static unsigned rid]. *)
Definition next_rid (st : sketch) : sketch := set_rid ((rid st + 1) mod 2 ^ 32) st.

(** A message handed to the callback. *)
Record message : Type := Message { msg_topic : string; msg_payload : string }.

(** [String(buf)] of a NUL-terminated buffer: the bytes before the first
    NUL. *)
Fixpoint c_string (s : string) : string :=
  match s with
  | EmptyString => EmptyString
  | String c r => if Ascii.eqb c Ascii.zero then EmptyString else String c (c_string r)
  end.

(** Sketch lines 196-205: keep at most 2000 payload bytes, store topic and
    payload, raise the flag. *)
Definition mqttCallback (m : message) (st : sketch) : sketch :=
  let n := if (2000 <? String.length (msg_payload m))%nat
           then 2000%nat else String.length (msg_payload m) in
  let buf := String.substring 0 n (msg_payload m) in
  set_inbox true (c_string (msg_topic m)) (c_string buf) st.

(** One call of [mqtt.loop()]: it lasts [took] milliseconds and hands at
    most one incoming message to the callback. *)
Record event : Type := Event { took : Z; incoming : option message }.

Definition mqtt_loop (ev : event) (st : sketch) : sketch :=
  let st := set_clock (clock st + took ev) st in
  match incoming ev with
  | Some m => if callback_set st then mqttCallback m st else st
  | None => st
  end.

(* ================================================================== *)
(** ** DPS registration (sketch lines 208-311)                         *)
(* ================================================================== *)

Definition nonempty (s : string) : bool := negb (String.length s =? 0)%nat.

(** How the first wait loop is left. *)
Inductive register_exit : Type :=
| RegisterReturnsTrue
| RegisterLeaves (operationId : string).

(** The body of the first wait after [mqtt.loop()] has returned:
    [if (dpsMsgArrived) { ... }].  [Some x] leaves the loop or the function,
    [None] goes round again. *)
Definition register_reply (st : sketch) : option register_exit * sketch :=
  if dpsMsgArrived st then
    let st := set_inbox false (dpsLastTopic st) (dpsLastPayload st) st in
    let code := topicStatusCode (dpsLastTopic st) in
    if code =? 202 then
      (Some (RegisterLeaves (jsonGet (dpsLastPayload st) "operationId")), st)
    else if code =? 200 then
      let st :=
        set_assignment
          (jsonGetNested (dpsLastPayload st) "registrationState" "assignedHub")
          (jsonGetNested (dpsLastPayload st) "registrationState" "deviceId")
          st in
      if nonempty (assignedHub st) && nonempty (deviceId st) then
        (Some RegisterReturnsTrue,
         set_link false (callback_set st) (issue Disconnect st))
      else (None, st)
    else (None, st)
  else (None, st).

(** [while (millis() - t0 < 20000) { mqtt.loop(); if (dpsMsgArrived) ... }].
    The script lists the calls of [mqtt.loop()] to come.  Once it is used
    up nothing more arrives: the rest of the wait passes in one last call,
    after which the flag is tested like after any other. *)
Fixpoint register_wait (script : list event) (t0 : Z) (st : sketch)
  : register_exit * list event * sketch :=
  if negb (elapsed_since t0 st <? 20000) then
    (RegisterLeaves EmptyString, script, st)
  else
    match script with
    | [] =>
        match register_reply (delay (20000 - elapsed_since t0 st) st) with
        | (Some x, st) => (x, [], st)
        | (None, st) => (RegisterLeaves EmptyString, [], st)
        end
    | ev :: script' =>
        match register_reply (mqtt_loop ev st) with
        | (Some x, st) => (x, script', st)
        | (None, st) => register_wait script' t0 st
        end
    end.

(** How the wait of one poll attempt is left. *)
Inductive poll_exit : Type :=
| PollReturns (result : bool)
| PollGoesOn.

(** The body of the wait of one poll attempt after [mqtt.loop()] has
    returned.  [Some x] leaves the loop ([break]) or the function, [None]
    goes round again. *)
Definition poll_reply (st : sketch) : option poll_exit * sketch :=
  if dpsMsgArrived st then
    let st := set_inbox false (dpsLastTopic st) (dpsLastPayload st) st in
    let code := topicStatusCode (dpsLastTopic st) in
    if code =? 200 then
      let status := jsonGet (dpsLastPayload st) "status" in
      if String.eqb status "assigned" then
        let st :=
          set_assignment
            (jsonGetNested (dpsLastPayload st) "registrationState" "assignedHub")
            (jsonGetNested (dpsLastPayload st) "registrationState" "deviceId")
            st in
        let st := set_link false (callback_set st) (issue Disconnect st) in
        (Some (PollReturns (nonempty (assignedHub st) && nonempty (deviceId st))),
         st)
      else (Some PollGoesOn, st)
    else (Some PollGoesOn, st)
  else (None, st).

(** [while (millis() - t1 < 5000) { mqtt.loop(); if (dpsMsgArrived) ... }],
    with the same reading of a script that is used up. *)
Fixpoint poll_wait (script : list event) (t1 : Z) (st : sketch)
  : poll_exit * list event * sketch :=
  if negb (elapsed_since t1 st <? 5000) then (PollGoesOn, script, st)
  else
    match script with
    | [] =>
        match poll_reply (delay (5000 - elapsed_since t1 st) st) with
        | (Some x, st) => (x, [], st)
        | (None, st) => (PollGoesOn, [], st)
        end
    | ev :: script' =>
        match poll_reply (mqtt_loop ev st) with
        | (Some x, st) => (x, script', st)
        | (None, st) => poll_wait script' t1 st
        end
    end.

Definition poll_topic (r : Z) (operationId : string) : string :=
  "$dps/registrations/GET/iotdps-get-operationstatus/?$rid=" ++
  WString.of_ulong r ++ "&operationId=" ++ operationId.

(** [for (int tries = 0; tries < 20; tries++)], with [todo] the attempts
    still allowed. *)
Fixpoint poll_loop (todo : nat) (operationId : string) (script : list event)
    (st : sketch) : bool * list event * sketch :=
  match todo with
  | O => (false, script, st)
  | S todo' =>
      let st := next_rid (issue (Publish (poll_topic (rid st) operationId) EmptyString) st) in
      let t1 := millis st in
      match poll_wait script t1 st with
      | (PollReturns b, script', st) => (b, script', st)
      | (PollGoesOn, script', st) =>
          poll_loop todo' operationId script' (delay 1500 st)
      end
  end.

Definition POLL_TRIES : nat := 20.

(** [dpsRegisterAndGetHub()].  [now] is what [time(nullptr)] returns,
    [connect_ok] whether [mqtt.connect] succeeds, [script] the calls of
    [mqtt.loop()] to come.  The result carries the unused part of the
    script. *)
Definition dpsRegisterAndGetHub (cfg : config) (now : Z) (connect_ok : bool)
    (script : list event) (st : sketch) : bool * list event * sketch :=
  let st := set_link (connected st) true st in
  let st := set_sasExpiry (now + SAS_TTL_SECS) st in
  let dpsResource :=
    DPS_ID_SCOPE cfg ++ "/registrations/" ++ DPS_REGISTRATION_ID cfg in
  let dpsSas := buildSasToken dpsResource (DPS_DEVICE_KEY_BASE64 cfg) (sasExpiry st) in
  if String.eqb dpsSas EmptyString then (false, script, st)
  else
    let dpsUsername :=
      DPS_ID_SCOPE cfg ++ "/registrations/" ++ DPS_REGISTRATION_ID cfg ++
      "/api-version=" ++ DPS_API_VERSION in
    let st := issue (Connect DPS_HOST (DPS_REGISTRATION_ID cfg) dpsUsername dpsSas) st in
    if negb connect_ok then (false, script, set_link false (callback_set st) st)
    else
      let st := set_link true (callback_set st) st in
      let st := issue (Subscribe "$dps/registrations/res/#") st in
      let registerTopic :=
        "$dps/registrations/PUT/iotdps-register/?$rid=" ++ WString.of_ulong (rid st) in
      let regPayload :=
        "{" ++ DQ ++ "registrationId" ++ DQ ++ ":" ++ DQ ++
        DPS_REGISTRATION_ID cfg ++ DQ ++ "}" in
      let st := next_rid (issue (Publish registerTopic regPayload) st) in
      let t0 := millis st in
      match register_wait script t0 st with
      | (RegisterReturnsTrue, script', st) => (true, script', st)
      | (RegisterLeaves operationId, script', st) =>
          if String.eqb operationId EmptyString then (false, script', st)
          else poll_loop POLL_TRIES operationId script' st
      end.

(** The states of the provisioning client in the design document. *)
Inductive ProvisioningState : Type :=
| Idle
| Registering
| Assigning (operationId : string)
| Assigned (hub deviceId : string)
| Failed.

(** The terminal state a call of [dpsRegisterAndGetHub] stands for: [true]
    with the two globals filled is Assigned, [false] is Failed. *)
Definition provisioning_result (r : bool * list event * sketch)
  : ProvisioningState :=
  let '(ok, _, st) := r in
  if ok then Assigned (assignedHub st) (deviceId st) else Failed.

(** Number of status polls among the issued requests. *)
Definition is_poll (r : request) : bool :=
  match r with
  | Publish t _ => String.prefix "$dps/registrations/GET/" t
  | _ => false
  end.

Definition polls_issued (st : sketch) : nat :=
  List.length (filter is_poll (requests st)).

(* ================================================================== *)
(** ** Single-precision arithmetic of the soil conversion              *)
(* ================================================================== *)

(** [float] is IEEE 754 binary32: 24 bits of precision, exponents up to
    128, operations rounded to nearest even. *)
Definition float32 : Type := spec_float.
Definition prec32 : Z := 24.
Definition emax32 : Z := 128.

Definition f32_of_int (n : Z) : float32 := binary_normalize prec32 emax32 n 0 false.
Definition f32_mul (x y : float32) : float32 := SFmul prec32 emax32 x y.
Definition f32_div (x y : float32) : float32 := SFdiv prec32 emax32 x y.
Definition f32_isnan (x : float32) : bool :=
  match x with
  | S754_nan => true
  | _ => false
  end.

(** The rational a finite [float] stands for. *)
Definition f32_value (x : float32) : option Q :=
  match x with
  | S754_zero _ => Some 0%Q
  | S754_finite s m e =>
      let mag := (inject_Z (Zpos m) * (2 ^ e))%Q in
      Some (if s then (- mag)%Q else mag)
  | _ => None
  end.

(* ================================================================== *)
(** ** Soil reading to percent (sketch lines 28-31 and 352-357)        *)
(* ================================================================== *)

Definition SOIL_RAW_DRY : Z := 3000.
Definition SOIL_RAW_WET : Z := 1200.

(** Arduino's [constrain(amt, low, high)] macro. *)
Definition constrain (amt low high : Z) : Z :=
  if amt <? low then low else if amt >? high then high else amt.

(** The body of [soilRawToPercent] for calibration bounds [dry] and [wet]:
    the difference of [int]s is converted to [float], multiplied by
    [100.0f], and divided by the converted calibration span. *)
Definition soilRawToPercent_with (dry wet raw : Z) : float32 :=
  let raw := constrain raw wet dry in
  f32_div (f32_mul (f32_of_int 100) (f32_of_int (dry - raw)))
          (f32_of_int (dry - wet)).

Definition soilRawToPercent (raw : Z) : float32 :=
  soilRawToPercent_with SOIL_RAW_DRY SOIL_RAW_WET raw.

(** The design document's formula, in exact rational arithmetic. *)
Definition soil_percent_exact (dry wet raw : Z) : Q :=
  (100 * inject_Z (dry - constrain raw wet dry) / inject_Z (dry - wet))%Q.

(* ================================================================== *)
(** ** IoT Hub session and the main loop (sketch lines 314-344, 360-429) *)
(* ================================================================== *)

Definition buildIoTHubUsername (hub devId : string) : string :=
  hub ++ "/" ++ devId ++ "/?api-version=" ++ IOTHUB_API_VERSION.

(** [buildIoTHubSas]: stores the new expiry in [sasExpiry] and signs for
    the device's resource with the same key. *)
Definition buildIoTHubSas (cfg : config) (now : Z) (hub devId : string)
    (st : sketch) : string * sketch :=
  let st := set_sasExpiry (now + SAS_TTL_SECS) st in
  let res := hub ++ "/devices/" ++ devId in
  (buildSasToken res (DPS_DEVICE_KEY_BASE64 cfg) (sasExpiry st), st).

(** [ensureIoTHubMqtt()]: [now] is what [time(nullptr)] returns and
    [connect_ok] whether [mqtt.connect] succeeds, should it be called. *)
Definition ensureIoTHubMqtt (cfg : config) (now : Z) (connect_ok : bool)
    (st : sketch) : bool * sketch :=
  if connected st then (true, st)
  else
    let st := set_link (connected st) false st in
    let user := buildIoTHubUsername (assignedHub st) (deviceId st) in
    let '(pass, st) := buildIoTHubSas cfg now (assignedHub st) (deviceId st) st in
    let st := issue (Connect (assignedHub st) (deviceId st) user pass) st in
    (connect_ok, set_link connect_ok (callback_set st) st).

(** [SEND_INTERVAL_MS = 5000]. *)
Definition SEND_INTERVAL_MS : Z := 5000.

(** What one pass of [loop()] meets: the epoch time, whether the broker or
    the network dropped the link since the last pass, whether a connection
    attempt would succeed, the call of [mqtt.loop()], and the sensors. *)
Record tick : Type := Tick {
  tick_time : Z;
  tick_link_lost : bool;
  tick_connect_ok : bool;
  tick_service : event;
  tick_humidity : float32;
  tick_temperature : float32;
  tick_soil_raw : Z }.

(** What one pass of [loop()] did. *)
Inductive tick_result : Type :=
| BackedOff
| Serviced
| ServicedSkipped
| ServicedPublished.

Section Telemetry.

(** The [snprintf] of [publishTelemetry], with its [%.2f] and [%lu]
    conversions, is left to the C library. *)
Variable snprintf_telemetry : float32 -> float32 -> float32 -> Z -> string.

Definition publishTelemetry (now : Z) (tC h soilPct : float32) (soilRaw : Z)
    (st : sketch) : sketch :=
  let st :=
    if (String.length (iothubPublishTopic st) =? 0)%nat then
      set_publish_topic ("devices/" ++ deviceId st ++ "/messages/events/") st
    else st in
  let payload := snprintf_telemetry tC h soilPct (WString.to_ulong now) in
  issue (Publish (iothubPublishTopic st) payload) st.

(** One pass of [loop()]. *)
Definition loop (cfg : config) (t : tick) (st : sketch) : tick_result * sketch :=
  let st := if tick_link_lost t then set_link false (callback_set st) st else st in
  let '(ok, st) := ensureIoTHubMqtt cfg (tick_time t) (tick_connect_ok t) st in
  if negb ok then (BackedOff, delay 2000 st)
  else
    let st := mqtt_loop (tick_service t) st in
    let nowMs := millis st in
    if SEND_INTERVAL_MS <=? (nowMs - lastSend st) mod 2 ^ 32 then
      let st := set_lastSend nowMs st in
      let h := tick_humidity t in
      let tC := tick_temperature t in
      let soilRaw := tick_soil_raw t in
      let soilPct := soilRawToPercent soilRaw in
      if f32_isnan h || f32_isnan tC then (ServicedSkipped, st)
      else (ServicedPublished, publishTelemetry (tick_time t) tC h soilPct soilRaw st)
    else (Serviced, st).

(** A run of the main loop; for every pass, the epoch time, whether the
    session was serviced, and the expiry of the token in use after it. *)
Fixpoint run_loop (cfg : config) (ticks : list tick) (st : sketch)
  : list (Z * bool * Z) * sketch :=
  match ticks with
  | [] => ([], st)
  | t :: ticks' =>
      let '(r, st) := loop cfg t st in
      let serviced := match r with BackedOff => false | _ => true end in
      let '(obs, st') := run_loop cfg ticks' st in
      ((tick_time t, serviced, sasExpiry st) :: obs, st')
  end.

End Telemetry.

(** The property the design document asks of the session keeper: whenever a
    pass services the session, the token in use has not expired. *)
Definition never_serviced_past_expiry (obs : list (Z * bool * Z)) : Prop :=
  Forall (fun o => let '(now, serviced, expiry) := o in
                   serviced = true -> now <= expiry) obs.

(* ================================================================== *)
(** ** Wording of the properties                                       *)
(* ================================================================== *)

(** The topic contains ["/res/"] with at least four characters after it:
    some suffix starts with ["/res/"] and is at least nine characters
    long. *)
Fixpoint res_with_room (topic : string) : bool :=
  (String.prefix "/res/" topic && (9 <=? String.length topic)%nat) ||
  match topic with
  | EmptyString => false
  | String _ r => res_with_room r
  end.

(** What the sketch reads from a response once the callback has stored it:
    topic and payload up to the first NUL, the payload cut at 2000 bytes. *)
Definition seen_topic (m : message) : string := c_string (msg_topic m).

Definition seen_payload (m : message) : string :=
  let n := if (2000 <? String.length (msg_payload m))%nat
           then 2000%nat else String.length (msg_payload m) in
  c_string (String.substring 0 n (msg_payload m)).

Definition response_code (m : message) : Z := topicStatusCode (seen_topic m).
Definition response_operationId (m : message) : string :=
  jsonGet (seen_payload m) "operationId".
Definition response_status (m : message) : string :=
  jsonGet (seen_payload m) "status".
Definition response_hub (m : message) : string :=
  jsonGetNested (seen_payload m) "registrationState" "assignedHub".
Definition response_deviceId (m : message) : string :=
  jsonGetNested (seen_payload m) "registrationState" "deviceId".

(** A poll reply that announces the assignment: status code 200 and body
    status [assigned]. *)
Definition is_assigned_reply (m : message) : bool :=
  (response_code m =? 200) && String.eqb (response_status m) "assigned".

(** A scripted response: [mqtt.loop()] returns without a message for the
    durations [quiet], then one call, lasting [carrier], delivers [what]. *)
Record arrival : Type := Arrival {
  quiet : list Z;
  carrier : Z;
  what : message }.

Definition silent (d : Z) : event := Event d None.

Definition arrival_events (a : arrival) : list event :=
  (map silent (quiet a) ++ [Event (carrier a) (Some (what a))])%list.

Definition total (ds : list Z) : Z := fold_right Z.add 0 ds.

(** The response arrives while the wait of [bound] milliseconds is still
    running: the quiet calls before it last less than [bound] in all. *)
Definition timely (bound : Z) (a : arrival) : bool :=
  forallb (fun d => 0 <=? d) (quiet a) && (total (quiet a) <? bound).

Definition is_silent (ev : event) : bool :=
  match incoming ev with
  | None => true
  | Some _ => false
  end.

(** The events whose message, if any, carries a status code other than 200
    and 202. *)
Definition no_200_202 (ev : event) : bool :=
  match incoming ev with
  | None => true
  | Some m => negb (response_code m =? 200) && negb (response_code m =? 202)
  end.

(** The [getNestedField] of the design document, for comparison with
    [jsonGetNested]: it isolates the parent object up to the brace that
    matches its opening brace (or the end of the text) before it applies
    [getField].  [depth] counts the objects opened inside the parent and not
    yet closed. *)
Fixpoint up_to_matching_brace (depth : nat) (s : string) : string :=
  match s with
  | EmptyString => EmptyString
  | String c r =>
      if Ascii.eqb c "}" then
        match depth with
        | O => String c EmptyString
        | S d => String c (up_to_matching_brace d r)
        end
      else if Ascii.eqb c "{" then String c (up_to_matching_brace (S depth) r)
      else String c (up_to_matching_brace depth r)
  end.

Definition getNestedField_matching (text parentKey childKey : string) : string :=
  match String.index 0 (parent_pattern parentKey) text with
  | None => EmptyString
  | Some n =>
      let from := (n + String.length (parent_pattern parentKey))%nat in
      jsonGet
        (up_to_matching_brace 0
           (String.substring from (String.length text - from) text))
        childKey
  end.

(** A registration state whose attestation sub-object precedes the fields
    the sketch reads. *)
Definition nested_payload : string :=
  json "{'status':'assigned','registrationState':{'x509':{'enrollmentGroupId':'g1'},'assignedHub':'hub1.azure-devices.net','deviceId':'dev-1'}}".

(** The state in which [dpsRegisterAndGetHub] enters its first wait, when
    the token could be built and the connection succeeded: callback set,
    expiry stored, connected and subscribed, registration published. *)
Definition registering (cfg : config) (now : Z) (st : sketch) : sketch :=
  let st := set_link (connected st) true st in
  let st := set_sasExpiry (now + SAS_TTL_SECS) st in
  let dpsResource :=
    DPS_ID_SCOPE cfg ++ "/registrations/" ++ DPS_REGISTRATION_ID cfg in
  let dpsSas := buildSasToken dpsResource (DPS_DEVICE_KEY_BASE64 cfg) (sasExpiry st) in
  let dpsUsername :=
    DPS_ID_SCOPE cfg ++ "/registrations/" ++ DPS_REGISTRATION_ID cfg ++
    "/api-version=" ++ DPS_API_VERSION in
  let st := issue (Connect DPS_HOST (DPS_REGISTRATION_ID cfg) dpsUsername dpsSas) st in
  let st := set_link true (callback_set st) st in
  let st := issue (Subscribe "$dps/registrations/res/#") st in
  let registerTopic :=
    "$dps/registrations/PUT/iotdps-register/?$rid=" ++ WString.of_ulong (rid st) in
  let regPayload :=
    "{" ++ DQ ++ "registrationId" ++ DQ ++ ":" ++ DQ ++
    DPS_REGISTRATION_ID cfg ++ DQ ++ "}" in
  next_rid (issue (Publish registerTopic regPayload) st).

(** The state after [mqtt.loop()], lasting [d], has delivered [m] and the
    wait loop has lowered the flag again. *)
Definition taken (m : message) (d : Z) (st : sketch) : sketch :=
  set_inbox false (seen_topic m) (seen_payload m) (set_clock (clock st + d) st).

(** The sketch can take a delivery: the flag is down and the callback is
    installed. *)
Definition ready (st : sketch) : Prop :=
  dpsMsgArrived st = false /\ callback_set st = true.

(** *** A sample configuration and sample responses *)

Definition sample_config : config := Config "0ne00AAAAAA" "dev-1" "abc123==".

Definition response_assigned : message :=
  Message "$dps/registrations/res/200/?$rid=1"
    (json "{'operationId':'4.abc','status':'assigned','registrationState':{'registrationId':'dev-1','assignedHub':'hub1.azure-devices.net','deviceId':'dev-1','status':'assigned'}}").

Definition response_accepted : message :=
  Message "$dps/registrations/res/202/?$rid=1&retry-after=3"
    (json "{'operationId':'4.abc','status':'assigning'}").

Definition response_assigning : message :=
  Message "$dps/registrations/res/202/?$rid=2&retry-after=3"
    (json "{'operationId':'4.abc','status':'assigning','registrationState':{'registrationId':'dev-1','status':'assigning'}}").

Definition response_not_found : message :=
  Message "$dps/registrations/res/404/?$rid=1"
    (json "{'errorCode':404201,'message':'Not found'}").

Definition response_empty_hub : message :=
  Message "$dps/registrations/res/200/?$rid=1"
    (json "{'operationId':'4.abc','status':'assigned','registrationState':{'registrationId':'dev-1','assignedHub':'','deviceId':'dev-1','status':'assigned'}}").

Definition response_no_hub : message :=
  Message "$dps/registrations/res/200/?$rid=1"
    (json "{'operationId':'4.abc','status':'assigned','registrationState':{'registrationId':'dev-1','deviceId':'dev-1','status':'assigned'}}").

(** Delivery by the first call of [mqtt.loop()], which lasts [d]. *)
Definition at_once (d : Z) (m : message) : arrival := Arrival [] d m.

(** Number of connection attempts among the issued requests. *)
Definition is_connect (r : request) : bool :=
  match r with
  | Connect _ _ _ _ => true
  | _ => false
  end.

Definition connects_issued (st : sketch) : nat :=
  List.length (filter is_connect (requests st)).

(** *** A sample run of the main loop *)

(** The sketch right after a provisioning that was answered at once. *)
Definition sample_provisioned : sketch :=
  snd (dpsRegisterAndGetHub sample_config 1700000000 true
         [Event 3 (Some response_assigned)] (boot 5000)).

(** A pass at epoch time [now] during which the link stays up. *)
Definition steady_tick (now : Z) : tick :=
  Tick now false true (silent 1) (f32_of_int 40) (f32_of_int 21) 2000.

(** A stand-in for the C library's formatting of the telemetry record. *)
Definition sample_snprintf (t h s : float32) (ts : Z) : string :=
  "{" ++ DQ ++ "ts" ++ DQ ++ ":" ++ WString.of_ulong ts ++ "}".

(** The rational value of [soilRawToPercent raw], which is always finite. *)
Definition soil_value (raw : Z) : Q :=
  match f32_value (soilRawToPercent raw) with
  | Some q => q
  | None => (-1)%Q
  end.

(** What is checked of one reading of the calibration range: the result is
    finite, lies between 0 and 100, is within half a unit in the last place
    ([2^-18] at most) of the exact quotient, and is not below the result for
    the next reading. *)
Definition soil_check (raw : Z) : bool :=
  match f32_value (soilRawToPercent raw),
        f32_value (soilRawToPercent (raw + 1)) with
  | Some q, Some q' =>
      Qle_bool 0 q && Qle_bool q 100 &&
      Qle_bool (Qabs (q - soil_percent_exact SOIL_RAW_DRY SOIL_RAW_WET raw))
        (1 # 262144) &&
      Qle_bool q' q
  | _, _ => false
  end.

Definition soil_table_ok : bool :=
  forallb soil_check (map (fun n => SOIL_RAW_WET + Z.of_nat n) (seq 0 1801)).

(* ================================================================== *)
(** ** Further wording: character classes                              *)
(* ================================================================== *)

(** Every character of [s] satisfies [P]. *)
Fixpoint all_chars (P : ascii -> bool) (s : string) : bool :=
  match s with
  | EmptyString => true
  | String c r => P c && all_chars P r
  end.

(** Number of characters of [s] that satisfy [P]. *)
Fixpoint count_chars (P : ascii -> bool) (s : string) : nat :=
  match s with
  | EmptyString => O
  | String c r => ((if P c then 1 else 0) + count_chars P r)%nat
  end.

(** The characters [urlEncode] can produce: the unreserved set, which holds
    the hexadecimal digits, and the percent sign. *)
Definition url_safe (c : ascii) : bool :=
  in_unreserved_set c || Ascii.eqb c "%".

(** The character of a decimal digit. *)
Definition digit_char (d : Z) : ascii := ascii_of_nat (48 + Z.to_nat d).

(** A string of three digit characters. *)
Definition three_digits (d1 d2 d3 : Z) : string :=
  String (digit_char d1) (String (digit_char d2) (String (digit_char d3) EmptyString)).

(** The NUL byte as a one-character string. *)
Definition NUL : string := String Ascii.zero EmptyString.

(** The user name of the DPS connection (sketch lines 223-227). *)
Definition dps_username (cfg : config) : string :=
  DPS_ID_SCOPE cfg ++ "/registrations/" ++ DPS_REGISTRATION_ID cfg ++
  "/api-version=" ++ DPS_API_VERSION.

(** The resource the DPS token is scoped to (sketch lines 217-219). *)
Definition dps_resource (cfg : config) : string :=
  DPS_ID_SCOPE cfg ++ "/registrations/" ++ DPS_REGISTRATION_ID cfg.

(** Topic and payload of the registration request (sketch lines 240-243). *)
Definition register_topic (r : Z) : string :=
  "$dps/registrations/PUT/iotdps-register/?$rid=" ++ WString.of_ulong r.

Definition register_payload (cfg : config) : string :=
  "{" ++ DQ ++ "registrationId" ++ DQ ++ ":" ++ DQ ++
  DPS_REGISTRATION_ID cfg ++ DQ ++ "}".

(** The status polls with request ids [r], [r + 1], ..., [r + n - 1], as
    they stand among the requests (newest first). *)
Fixpoint poll_requests (r : Z) (operationId : string) (n : nat) : list request :=
  match n with
  | O => []
  | S n' =>
      Publish (poll_topic (r + Z.of_nat n') operationId) EmptyString
      :: poll_requests r operationId n'
  end.

(** The topic telemetry goes to: the cached one, or the one that the next
    [publishTelemetry] will compute and cache. *)
Definition telemetry_topic (st : sketch) : string :=
  if (String.length (iothubPublishTopic st) =? 0)%nat
  then "devices/" ++ deviceId st ++ "/messages/events/"
  else iothubPublishTopic st.

(** The requests [loop()] can issue: a connection attempt, or a publication
    to the topic [T]. *)
Definition hub_request (T : string) (r : request) : Prop :=
  match r with
  | Connect _ _ _ _ => True
  | Publish t _ => t = T
  | _ => False
  end.

(* ================================================================== *)
(** ** Start-up (sketch lines 133-161, 387-404)                        *)
(* ================================================================== *)

(** How [connectWiFi()] is left: by returning, or through
    [ESP.restart()]. *)
Inductive wifi_exit : Type :=
| WiFiUp
| WiFiRestart.

(** [while (WiFi.status() != WL_CONNECTED) { delay(500); if (++tries > 60)
    ESP.restart(); }] with [uint8_t tries].  The script lists what the
    calls of [WiFi.status()] to come find: connected or not.  A script
    that is used up leaves the result open. *)
Fixpoint connectWiFi_wait (statuses : list bool) (tries : Z) (st : sketch)
  : option (wifi_exit * sketch) :=
  match statuses with
  | [] => None
  | up :: statuses' =>
      if up then Some (WiFiUp, st)
      else
        let st := delay 500 st in
        let tries := (tries + 1) mod 2 ^ 8 in
        if tries >? 60 then Some (WiFiRestart, st)
        else connectWiFi_wait statuses' tries st
  end.

Definition connectWiFi (statuses : list bool) (st : sketch)
  : option (wifi_exit * sketch) :=
  connectWiFi_wait statuses 0 st.

(** [for (int i=0; i<60 && now<1700000000; i++) { delay(500);
    now = time(nullptr); }], with [todo] the rounds still allowed and
    [time] what [time(nullptr)] returns at a given reading of the clock. *)
Fixpoint syncTime_loop (todo : nat) (time : Z -> Z) (now : Z) (st : sketch)
  : Z * sketch :=
  match todo with
  | O => (now, st)
  | S todo' =>
      if now <? 1700000000 then
        let st := delay 500 st in
        syncTime_loop todo' time (time (clock st)) st
      else (now, st)
  end.

(** [syncTime()]; the result carries the last value of [now], which the
    sketch only prints. *)
Definition syncTime (time : Z -> Z) (st : sketch) : Z * sketch :=
  syncTime_loop 60 time 0 st.

(** How [setup()] is left: by returning, after which [loop()] runs, or
    through [ESP.restart()]. *)
Inductive setup_exit : Type :=
| SetupDone
| SetupRestart.

(** [setup()]. *)
Definition setup (cfg : config) (statuses : list bool) (time : Z -> Z)
    (connect_ok : bool) (script : list event) (st : sketch)
  : option (setup_exit * list event * sketch) :=
  let st := delay 200 st in
  match connectWiFi statuses st with
  | None => None
  | Some (WiFiRestart, st) => Some (SetupRestart, script, st)
  | Some (WiFiUp, st) =>
      let st := snd (syncTime time st) in
      let st := set_assignment (assignedHub st) (DPS_REGISTRATION_ID cfg) st in
      match dpsRegisterAndGetHub cfg (time (clock st)) connect_ok script st with
      | (true, script', st) => Some (SetupDone, script', st)
      | (false, script', st) => Some (SetupRestart, script', delay 10000 st)
      end
  end.

(** An epoch clock that is synchronised from the start and reads
    1700000000 at boot. *)
Definition sample_time (c : Z) : Z := 1700000000 + c / 1000.

(** A sketch with the hub session up, [ms] milliseconds after boot, that
    last sent telemetry when [millis()] read [sent]. *)
Definition sample_session (ms sent : Z) : sketch :=
  set_lastSend sent (set_link true true (boot ms)).

(* ================================================================== *)
(** ** The token as the design document words it                       *)
(* ================================================================== *)

Definition upper_letters : string := "ABCDEFGHIJKLMNOPQRSTUVWXYZ".
Definition lower_letters : string := "abcdefghijklmnopqrstuvwxyz".

(** The lower-case form of a byte: a capital letter of the basic Latin
    alphabet becomes the small letter at the same place of the alphabet,
    any other byte is kept. *)
Definition lowercase_letter (c : ascii) : ascii :=
  match String.index 0 (String c EmptyString) upper_letters with
  | Some n =>
      match String.get n lower_letters with
      | Some l => l
      | None => c
      end
  | None => c
  end.

Fixpoint lowercased (s : string) : string :=
  match s with
  | EmptyString => EmptyString
  | String c r => String (lowercase_letter c) (lowercased r)
  end.

Definition decimal_digits : string := "0123456789".

Definition digit_value (c : ascii) : option Z :=
  option_map Z.of_nat (String.index 0 (String c EmptyString) decimal_digits).

(** The value of a string of decimal digits, most significant first. *)
Fixpoint numeral_value (s : string) (acc : Z) : option Z :=
  match s with
  | EmptyString => Some acc
  | String c r =>
      match digit_value c with
      | Some d => numeral_value r (10 * acc + d)
      | None => None
      end
  end.

(** [s] is the decimal numeral of [n]: at least one digit, digits only, no
    leading zero but for zero itself, and the value [n]. *)
Definition is_decimal_of (n : Z) (s : string) : bool :=
  match s with
  | EmptyString => false
  | String c r =>
      (negb (Ascii.eqb c "0") || String.eqb r EmptyString) &&
      match numeral_value s 0 with
      | Some v => Z.eqb v n
      | None => false
      end
  end.

(** The values of a byte. *)
Definition is_byte (b : Z) : Prop := 0 <= b < 256.

(** Cutting a text at the first occurrence of a separator. *)
Definition split_once (sep s : string) : option (string * string) :=
  match String.index 0 sep s with
  | Some n =>
      Some (String.substring 0 n s,
            String.substring (n + String.length sep)
              (String.length s - (n + String.length sep)) s)
  | None => None
  end.

(** Reading a token [SharedAccessSignature sr=R&sig=S&se=E] back into its
    three fields. *)
Definition token_fields (token : string) : option (string * string * string) :=
  if String.prefix "SharedAccessSignature sr=" token then
    match split_once "&sig="
            (String.substring 25 (String.length token - 25) token) with
    | Some (sr, tail) =>
        match split_once "&se=" tail with
        | Some (sig, se) => Some (sr, sig, se)
        | None => None
        end
    | None => None
    end
  else None.

(** A secret of 88 base64 digits, which stand for 66 bytes. *)
Definition long_secret : string :=
  "QUFBQUFBQUFBQUFBQUFBQUFBQUFBQUFBQUFBQUFBQUFBQUFBQUFBQUFBQUFBQUFBQUFBQUFBQUFBQUFBQUFBQUFB".

(* ================================================================== *)
(** ** The responses as the design document describes them             *)
(* ================================================================== *)

(** A response with the status code written [digits]: its topic starts with
    [$dps/registrations/res/<digits>/]. *)
Definition status_topic (digits : string) (m : message) : bool :=
  String.prefix ("$dps/registrations/res/" ++ digits ++ "/") (msg_topic m).

(** The payload reaches the sketch whole: it fits the 2000 bytes that the
    callback copies and holds no NUL byte. *)
Definition whole (m : message) : bool :=
  (String.length (msg_payload m) <=? 2000)%nat &&
  negb (occurs NUL (msg_payload m)).

(** The text holds the string member [key] with the value [value], and this
    is the first member of that name in the text. *)
Definition holds_field (text key value : string) : Prop :=
  exists pre post : string,
    text = pre ++ field_pattern key ++ value ++ DQ ++ post /\
    String.index 0 (field_pattern key) text = Some (String.length pre) /\
    occurs DQ value = false.

(** The text holds the object member [parentKey], the first of that name,
    and, between its opening brace and the first closing brace after it,
    the string member [childKey] with the value [value], the first of that
    name there. *)
Definition holds_nested_field (text parentKey childKey value : string) : Prop :=
  exists pre before after post : string,
    let body := before ++ field_pattern childKey ++ value ++ DQ ++ after in
    text = pre ++ parent_pattern parentKey ++ body ++ "}" ++ post /\
    String.index 0 (parent_pattern parentKey) text = Some (String.length pre) /\
    occurs "}" body = false /\
    String.index 0 (field_pattern childKey) (body ++ "}")
    = Some (String.length before) /\
    occurs DQ value = false.

(** A status-200 response whose [registrationState] carries the hub and the
    device id, neither of them empty. *)
Definition announces (m : message) (hub dev : string) : Prop :=
  status_topic "200" m = true /\ whole m = true /\
  holds_nested_field (msg_payload m) "registrationState" "assignedHub" hub /\
  holds_nested_field (msg_payload m) "registrationState" "deviceId" dev /\
  hub <> EmptyString /\ dev <> EmptyString.

(** The same with the body status [assigned], as a poll reply has it. *)
Definition announces_assigned (m : message) (hub dev : string) : Prop :=
  announces m hub dev /\ holds_field (msg_payload m) "status" "assigned".

(** A status-202 response that carries a non-empty operation id. *)
Definition accepts (m : message) (operationId : string) : Prop :=
  status_topic "202" m = true /\ whole m = true /\
  holds_field (msg_payload m) "operationId" operationId /\
  operationId <> EmptyString.

(** A poll reply that does not announce the assignment yet: status 202, or
    status 200 with a body status other than [assigned]. *)
Definition not_yet (m : message) : Prop :=
  status_topic "202" m = true \/
  (status_topic "200" m = true /\ whole m = true /\
   exists status : string,
     holds_field (msg_payload m) "status" status /\ status <> "assigned").

(** Calls of [mqtt.loop()] that last between 0 and [D] milliseconds each. *)
Definition within (D : Z) (ds : list Z) : bool :=
  forallb (fun d => (0 <=? d) && (d <=? D)) ds.

(** A status-200 response with body status [assigned] whose registration
    state holds an attestation sub-object before the hub and the device
    id. *)
Definition response_nested : message :=
  Message "$dps/registrations/res/200/?$rid=1" nested_payload.
(* ================================================================== *)
(** ** Facts about searching and cutting strings                       *)
(* ================================================================== *)

Section StringFacts.

Lemma prefix_empty (s : string) : String.prefix EmptyString s = true.
Proof. destruct s; reflexivity. Qed.

Lemma prefix_append (p s : string) : String.prefix p (p ++ s) = true.
Proof.
  induction p as [|a p IH]; simpl.
  - apply prefix_empty.
  - destruct (ascii_dec a a) as [_|N]; [exact IH | now destruct N].
Qed.

Lemma prefix_split (p s : string) :
  String.prefix p s = true -> exists post, s = p ++ post.
Proof.
  revert s. induction p as [|a p IH]; intros s H.
  - now exists s.
  - destruct s as [|b s]; simpl in H; [discriminate|].
    destruct (ascii_dec a b) as [->|_]; [|discriminate].
    destruct (IH s H) as [post ->]. now exists post.
Qed.

Lemma index_cons (k : nat) (pat : string) (b : ascii) (s : string) :
  String.index (S k) pat (String b s) = option_map S (String.index k pat s).
Proof. simpl. now destruct (String.index k pat s). Qed.

Lemma index_skip (pre : string) (k : nat) (pat s : string) :
  String.index (String.length pre + k) pat (pre ++ s)
  = option_map (Nat.add (String.length pre)) (String.index k pat s).
Proof.
  induction pre as [|a pre IH].
  - simpl. now destruct (String.index k pat s).
  - change (String.length (String a pre) + k)%nat
      with (S (String.length pre + k)).
    change (String a pre ++ s) with (String a (pre ++ s)).
    rewrite index_cons, IH. now destruct (String.index k pat s).
Qed.

Lemma index_here (pat s : string) : String.index 0 pat (pat ++ s) = Some 0%nat.
Proof.
  destruct pat as [|a pat].
  - destruct s; reflexivity.
  - change (String a pat ++ s) with (String a (pat ++ s)).
    cbn [String.index].
    change (String a (pat ++ s)) with (String a pat ++ s).
    now rewrite prefix_append.
Qed.

Lemma occurs_false_index (pat s : string) :
  occurs pat s = false -> String.index 0 pat s = None.
Proof.
  induction s as [|b s IH]; intros H.
  - destruct pat; [discriminate | reflexivity].
  - cbn [occurs] in H. apply orb_false_iff in H as [P O].
    cbn [String.index]. rewrite P, (IH O). reflexivity.
Qed.

Lemma index_char_first (c : ascii) (body post : string) :
  occurs (String c EmptyString) body = false ->
  String.index 0 (String c EmptyString) (body ++ String c post)
  = Some (String.length body).
Proof.
  induction body as [|b body IH]; intros H.
  - exact (index_here (String c EmptyString) post).
  - cbn [occurs] in H. apply orb_false_iff in H as [P O].
    change (String b body ++ String c post)
      with (String b (body ++ String c post)).
    cbn [String.index].
    assert (P' : String.prefix (String c EmptyString)
                   (String b (body ++ String c post)) = false).
    { simpl in P |- *. destruct (ascii_dec c b); [|reflexivity].
      now rewrite prefix_empty in P. }
    rewrite P', (IH O). reflexivity.
Qed.

Lemma substring_zero (n : nat) (s : string) :
  String.substring n 0 s = EmptyString.
Proof.
  revert n. induction s as [|b s IH]; intros [|n]; simpl; auto.
Qed.

Lemma substring_prefix (mid post : string) :
  String.substring 0 (String.length mid) (mid ++ post) = mid.
Proof.
  induction mid as [|a mid IH]; simpl.
  - apply substring_zero.
  - now rewrite IH.
Qed.

Lemma substring_middle (pre mid post : string) :
  String.substring (String.length pre) (String.length mid) (pre ++ mid ++ post)
  = mid.
Proof.
  induction pre as [|a pre IH]; simpl.
  - apply substring_prefix.
  - exact IH.
Qed.

Lemma indexOf_nat (s pat : string) (k : nat) :
  (k < String.length s)%nat ->
  WString.indexOf s pat (Z.of_nat k)
  = match String.index k pat s with
    | Some n => Z.of_nat n
    | None => -1
    end.
Proof.
  intros H. unfold WString.indexOf, WString.to_unsigned, WString.len.
  destruct (Z.ltb_spec (Z.of_nat k) 0); [lia|].
  destruct (Z.leb_spec (Z.of_nat (String.length s)) (Z.of_nat k)); [lia|].
  now rewrite Nat2Z.id.
Qed.

Lemma indexOf_past_end (s pat : string) (k : Z) :
  WString.len s <= k -> WString.indexOf s pat k = -1.
Proof.
  intros H. unfold WString.indexOf, WString.to_unsigned, WString.len in *.
  destruct (Z.ltb_spec k 0); [lia|].
  destruct (Z.leb_spec (Z.of_nat (String.length s)) k); [reflexivity | lia].
Qed.

Lemma substring_nat (s : string) (l r : nat) :
  (l <= r)%nat -> (l < String.length s)%nat ->
  WString.substring s (Z.of_nat l) (Z.of_nat r)
  = String.substring l (Nat.min r (String.length s) - l) s.
Proof.
  intros Hlr Hl. unfold WString.substring, WString.to_unsigned, WString.len.
  destruct (Z.ltb_spec (Z.of_nat l) 0); [lia|].
  destruct (Z.ltb_spec (Z.of_nat r) 0); [lia|].
  destruct (Z.ltb_spec (Z.of_nat r) (Z.of_nat l)); [lia|].
  destruct (Z.leb_spec (Z.of_nat (String.length s)) (Z.of_nat l)); [lia|].
  rewrite Nat2Z.id.
  destruct (Z.ltb_spec (Z.of_nat (String.length s)) (Z.of_nat r)).
  - rewrite Nat.min_r by lia. f_equal. lia.
  - rewrite Nat.min_l by lia. f_equal. lia.
Qed.

Lemma substring_past_end (s : string) (l r : Z) :
  0 <= l <= r -> WString.len s <= l -> WString.substring s l r = EmptyString.
Proof.
  intros Hlr Hl. unfold WString.substring, WString.to_unsigned, WString.len in *.
  destruct (Z.ltb_spec l 0); [lia|].
  destruct (Z.ltb_spec r 0); [lia|].
  destruct (Z.ltb_spec r l);
    destruct (Z.leb_spec (Z.of_nat (String.length s)) l);
    try reflexivity; lia.
Qed.

Lemma indexOf_start (b : ascii) (r pat : string) :
  WString.indexOf (String b r) pat 0
  = match String.index 0 pat (String b r) with
    | Some n => Z.of_nat n
    | None => -1
    end.
Proof. apply (indexOf_nat (String b r) pat 0). simpl. lia. Qed.

End StringFacts.

(* ================================================================== *)
(** ** Properties of URL encoding                                      *)
(* ================================================================== *)

Lemma append_assoc (a b c : string) : (a ++ b) ++ c = a ++ (b ++ c).
Proof. induction a as [|x a IH]; simpl; [reflexivity | now rewrite IH]. Qed.

Lemma append_nil_r (a : string) : a ++ EmptyString = a.
Proof. induction a as [|x a IH]; simpl; [reflexivity | now rewrite IH]. Qed.

Lemma length_append (a b : string) :
  String.length (a ++ b) = (String.length a + String.length b)%nat.
Proof. induction a as [|x a IH]; simpl; [reflexivity | now rewrite IH]. Qed.

Lemma charAt_middle (pre : string) (a : ascii) (rest : string) :
  WString.charAt (pre ++ String a rest) (String.length pre) = a.
Proof.
  unfold WString.charAt.
  induction pre as [|x pre IH]; simpl; [reflexivity | exact IH].
Qed.

(** One loop iteration appends exactly the encoding the rule gives for the
    byte under the index, whichever signedness plain [char] has. *)
Lemma urlEncode_body_byte (sg : bool) (a : ascii) (acc : string) (i : nat)
    (value : string) :
  WString.charAt value i = a ->
  urlEncode_body sg value i acc = acc ++ encode_byte a.
Proof.
  intros Hc. unfold urlEncode_body. rewrite Hc. clear Hc.
  assert (H : (if is_unreserved_char (char_to_int sg a)
               then WString.of_char a
               else WString.of_char "%" ++
                    WString.of_char (WString.charAt hex
                      (Z.to_nat (Z.land (Z.shiftr (char_to_int sg a) 4) 15))) ++
                    WString.of_char (WString.charAt hex
                      (Z.to_nat (Z.land (char_to_int sg a) 15))))
              = encode_byte a).
  { destruct sg;
      destruct a as [[] [] [] [] [] [] [] []]; vm_compute; reflexivity. }
  rewrite <- H.
  destruct (is_unreserved_char (char_to_int sg a)); [reflexivity|].
  now rewrite !append_assoc.
Qed.

Lemma urlEncode_loop_rule (sg : bool) (rest pre acc : string) :
  urlEncode_loop sg (String.length rest) (pre ++ rest) (String.length pre) acc
  = acc ++ urlEncode_rule rest.
Proof.
  revert pre acc.
  induction rest as [|a rest IH]; intros pre acc; simpl.
  - now rewrite append_nil_r.
  - rewrite (urlEncode_body_byte sg a) by apply charAt_middle.
    specialize (IH (pre ++ WString.of_char a) (acc ++ encode_byte a)).
    rewrite append_assoc in IH. simpl in IH.
    rewrite length_append in IH. simpl in IH.
    rewrite Nat.add_1_r in IH.
    rewrite IH. now rewrite append_assoc.
Qed.

Lemma urlEncode_as_rule (sg : bool) (s : string) :
  urlEncode_as sg s = urlEncode_rule s.
Proof.
  unfold urlEncode_as.
  exact (urlEncode_loop_rule sg s EmptyString EmptyString).
Qed.

Lemma urlEncode_append (s t : string) :
  urlEncode (s ++ t) = urlEncode s ++ urlEncode t.
Proof.
  unfold urlEncode. rewrite !urlEncode_as_rule.
  induction s as [|a s IH]; simpl; [reflexivity|].
  now rewrite IH, append_assoc.
Qed.

Lemma percentDecode_encode_byte (a : ascii) (r : string) :
  percentDecode (encode_byte a ++ r) = String a (percentDecode r).
Proof.
  destruct a as [[] [] [] [] [] [] [] []]; reflexivity.
Qed.

Lemma percentDecode_urlEncode_rule (s : string) :
  percentDecode (urlEncode_rule s) = s.
Proof.
  induction s as [|a s IH]; simpl; [reflexivity|].
  now rewrite percentDecode_encode_byte, IH.
Qed.

(** C3. For every input string, [urlEncode] leaves each character of the
    unreserved set [[A-Za-z0-9-_.~]] unchanged and replaces every other byte,
    those of value 0x80 and above included, by ['%'] and the two upper-case
    hexadecimal digits of the byte's value; the result is the same whether
    plain [char] is signed or not. *)
Theorem urlEncode_follows_rule (s : string) :
  urlEncode s = urlEncode_rule s /\
  urlEncode_as true s = urlEncode_rule s /\
  (forall a : ascii,
     in_unreserved_set a = true -> urlEncode (WString.of_char a) = WString.of_char a) /\
  (forall a : ascii,
     in_unreserved_set a = false ->
     urlEncode (WString.of_char a) = percent_escape a) /\
  (forall a : ascii,
     (128 <= nat_of_ascii a)%nat -> in_unreserved_set a = false).
Proof.
  split; [apply urlEncode_as_rule|].
  split; [apply urlEncode_as_rule|].
  split; [|split].
  - intros a H. unfold urlEncode. rewrite urlEncode_as_rule. simpl.
    unfold encode_byte. now rewrite H.
  - intros a H. unfold urlEncode. rewrite urlEncode_as_rule. simpl.
    unfold encode_byte. rewrite H. apply append_nil_r.
  - intros a. destruct a as [b0 b1 b2 b3 b4 b5 b6 [|]].
    + intros _. destruct b0, b1, b2, b3, b4, b5, b6; reflexivity.
    + intros H. exfalso. revert H.
      destruct b0, b1, b2, b3, b4, b5, b6; cbv [nat_of_ascii N_of_ascii N_of_digits];
        simpl; lia.
Qed.

(** C4. Percent-decoding the result of [urlEncode] gives the input back,
    for every byte string. *)
Theorem percentDecode_urlEncode (s : string) :
  percentDecode (urlEncode s) = s.
Proof.
  unfold urlEncode. rewrite urlEncode_as_rule.
  apply percentDecode_urlEncode_rule.
Qed.

(* ================================================================== *)
(** ** Decimal rendering                                               *)
(* ================================================================== *)

Lemma digit_of_ultoa (d : Z) :
  0 <= d < 10 ->
  WString.digit_of (ascii_of_nat (48 + Z.to_nat d)) = Some d.
Proof.
  intros H.
  assert (E : d = 0 \/ d = 1 \/ d = 2 \/ d = 3 \/ d = 4 \/
              d = 5 \/ d = 6 \/ d = 7 \/ d = 8 \/ d = 9) by lia.
  repeat (destruct E as [-> | E]; [reflexivity|]). now subst.
Qed.

Lemma atol_ultoa (fuel : nat) :
  forall (n : Z) (acc : string),
    0 <= n < 10 ^ Z.of_nat fuel ->
    WString.atol_digits (WString.ultoa_digits fuel n acc) 0
    = WString.atol_digits acc n.
Proof.
  induction fuel as [|fuel IH]; intros n acc H.
  - simpl in *. now replace n with 0 by lia.
  - rewrite Nat2Z.inj_succ, Z.pow_succ_r in H by lia.
    cbn [WString.ultoa_digits].
    pose proof (Z.mod_pos_bound n 10 ltac:(lia)) as Hd.
    pose proof (Z.div_mod n 10 ltac:(lia)) as Hn.
    destruct (Z.eqb_spec (n / 10) 0) as [Z0|NZ].
    + cbn [WString.atol_digits]. rewrite digit_of_ultoa by exact Hd.
      f_equal. lia.
    + rewrite IH.
      * cbn [WString.atol_digits]. rewrite digit_of_ultoa by exact Hd.
        f_equal. lia.
      * split; [apply Z.div_pos; lia|].
        apply Z.div_lt_upper_bound; lia.
Qed.

Lemma ultoa_head (fuel : nat) :
  forall (n : Z) (acc : string),
    exists d r, 0 <= d < 10 /\
      WString.ultoa_digits (S fuel) n acc
      = String (ascii_of_nat (48 + Z.to_nat d)) r.
Proof.
  induction fuel as [|fuel IH]; intros n acc.
  - exists (n mod 10), acc. split; [apply Z.mod_pos_bound; lia|].
    cbn [WString.ultoa_digits]. now destruct (n / 10 =? 0).
  - remember (S fuel) as f eqn:Ef.
    cbn [WString.ultoa_digits].
    destruct (n / 10 =? 0).
    + exists (n mod 10), acc. split; [apply Z.mod_pos_bound; lia | reflexivity].
    + subst f. apply IH.
Qed.

Lemma toInt_digit_head (d : Z) (r : string) :
  0 <= d < 10 ->
  WString.toInt (String (ascii_of_nat (48 + Z.to_nat d)) r)
  = WString.atol_digits (String (ascii_of_nat (48 + Z.to_nat d)) r) 0.
Proof.
  intros H.
  assert (E : d = 0 \/ d = 1 \/ d = 2 \/ d = 3 \/ d = 4 \/
              d = 5 \/ d = 6 \/ d = 7 \/ d = 8 \/ d = 9) by lia.
  repeat (destruct E as [-> | E]; [reflexivity|]). now subst.
Qed.

(** [String(unsigned long)] followed by [toInt()] is the identity on the
    range of [unsigned long]. *)
Lemma toInt_of_ulong (n : Z) :
  0 <= n < 2 ^ 32 -> WString.toInt (WString.of_ulong n) = n.
Proof.
  intros H. unfold WString.of_ulong.
  destruct (ultoa_head 9 n EmptyString) as (d & r & Hd & E).
  rewrite E, (toInt_digit_head d r Hd), <- E.
  rewrite atol_ultoa; [reflexivity|].
  change (10 ^ Z.of_nat 10) with 10000000000. change (2 ^ 32) with 4294967296 in H. lia.
Qed.

(* ================================================================== *)
(** ** The signature                                                   *)
(* ================================================================== *)

Lemma sha256_length (msg : bytes) : List.length (SHA256.hash msg) = 32%nat.
Proof.
  unfold SHA256.hash, SHA256.digest_of, SHA256.bytes_of_word.
  cbn [List.length app]. reflexivity.
Qed.

Lemma hmac_sha256_length (key msg : bytes) :
  List.length (hmac_sha256 key msg) = 32%nat.
Proof. unfold hmac_sha256. apply sha256_length. Qed.

(** The implementation of the primitives agrees with the published test
    vectors: SHA-256 of "abc" (FIPS 180-4) and HMAC-SHA-256 test case 2 of
    RFC 4231, shown here through their base64 renderings. *)
Example sha256_abc :
  base64Encode (SHA256.hash (bytes_of_string "abc"))
  = "ungWv48Bz+pBQUDeXa4iI7ADYaOWF3qctBD/YfIAFa0=".
Proof. vm_compute. reflexivity. Qed.

Example hmac_sha256_rfc4231_case2 :
  base64Encode (hmac_sha256 (bytes_of_string "Jefe")
                  (bytes_of_string "what do ya want for nothing?"))
  = "W9zBRr9gdU5qBCQmCJV1x1oAPwidJzmDnexYuWTsOEM=".
Proof. vm_compute. reflexivity. Qed.

Lemma buildSasToken_decoded (resourceUri keyBase64 : string) (expiry : Z)
    (key : bytes) :
  base64Decode keyBase64 KEY_BUFFER_SIZE = Some key ->
  buildSasToken resourceUri keyBase64 expiry
  = "SharedAccessSignature sr=" ++ urlEncode (WString.toLowerCase resourceUri) ++
    "&sig=" ++
    urlEncode (base64Encode
      (hmac_sha256 key
         (bytes_of_string (urlEncode (WString.toLowerCase resourceUri) ++ LF ++
                           WString.of_ulong (WString.to_ulong expiry))))) ++
    "&se=" ++ WString.of_ulong (WString.to_ulong expiry).
Proof. intros H. unfold buildSasToken. now rewrite H. Qed.

Lemma buildSasToken_nonempty (resourceUri keyBase64 : string) (expiry : Z)
    (key : bytes) :
  base64Decode keyBase64 KEY_BUFFER_SIZE = Some key ->
  String.eqb (buildSasToken resourceUri keyBase64 expiry) EmptyString = false.
Proof.
  intros H. rewrite (buildSasToken_decoded _ _ _ _ H). reflexivity.
Qed.

(* ================================================================== *)
(** ** Status code of a response topic                                 *)
(* ================================================================== *)

Lemma index_res_with_room (topic : string) :
  forall n : nat,
    String.index 0 "/res/" topic = Some n ->
    (n + 9 <= String.length topic)%nat ->
    res_with_room topic = true.
Proof.
  induction topic as [|b topic IH]; intros n H L.
  - simpl in L. lia.
  - cbn [res_with_room]. cbn [String.index] in H.
    destruct (String.prefix "/res/" (String b topic)) eqn:P.
    + injection H as <-.
      apply Nat.leb_le in L. simpl Nat.add in L. now rewrite L.
    + destruct (String.index 0 "/res/" topic) as [m|]; [|discriminate].
      injection H as <-.
      rewrite (IH m eq_refl); [apply orb_true_r|].
      simpl in L. lia.
Qed.

(** C9. [topicStatusCode] returns [-1] unless the topic contains ["/res/"]
    with at least four characters after it; a topic that ends right after
    the three digits, like [$dps/registrations/res/200], gives [-1], and one
    more character gives the code. *)
Theorem topicStatusCode_needs_room :
  (forall topic : string,
     res_with_room topic = false -> topicStatusCode topic = -1) /\
  res_with_room "$dps/registrations/res/200" = false /\
  topicStatusCode "$dps/registrations/res/200" = -1 /\
  topicStatusCode "$dps/registrations/res/200/" = 200.
Proof.
  split; [|repeat split; vm_compute; reflexivity].
  intros topic H. unfold topicStatusCode.
  destruct topic as [|b topic]; [reflexivity|].
  rewrite indexOf_start.
  set (t := String b topic) in *.
  destruct (String.index 0 "/res/" t) as [n|] eqn:E; [|reflexivity].
  destruct (Z.ltb_spec (Z.of_nat n) 0); [reflexivity|].
  unfold WString.len.
  destruct (Z.ltb_spec (Z.of_nat (String.length t)) (Z.of_nat n + 9));
    [reflexivity|].
  rewrite (index_res_with_room t n E) in H by lia. discriminate.
Qed.

Lemma topicStatusCode_needs_room_witness :
  res_with_room "$dps/registrations/res/200" = false /\
  topicStatusCode "$dps/registrations/res/200" = -1.
Proof.
  split; [vm_compute; reflexivity|].
  apply (proj1 topicStatusCode_needs_room). vm_compute. reflexivity.
Defined.

(* ================================================================== *)
(** ** Field extraction                                                *)
(* ================================================================== *)

Lemma indexOf_absent (s pat : string) :
  occurs pat s = false -> WString.indexOf s pat 0 = -1.
Proof.
  intros H. destruct s as [|b r].
  - apply indexOf_past_end. unfold WString.len. simpl. lia.
  - rewrite indexOf_start, (occurs_false_index _ _ H). reflexivity.
Qed.

Lemma indexOf_first (pre pat post : string) :
  String.index 0 pat (pre ++ pat ++ post) = Some (String.length pre) ->
  (0 < String.length pat)%nat ->
  WString.indexOf (pre ++ pat ++ post) pat 0 = Z.of_nat (String.length pre).
Proof.
  intros H L.
  pose proof (indexOf_nat (pre ++ pat ++ post) pat 0) as E.
  change (Z.of_nat 0) with 0 in E. rewrite E, H; [reflexivity|].
  rewrite !length_append. lia.
Qed.

(** After the text [head], the first [c] of [value ++ c ++ post] is found
    right after [value] when [value] holds no [c]. *)
Lemma indexOf_char_after (head value post : string) (c : ascii) :
  occurs (String c EmptyString) value = false ->
  WString.indexOf (head ++ value ++ String c post) (String c EmptyString)
    (Z.of_nat (String.length head))
  = Z.of_nat (String.length head + String.length value).
Proof.
  intros H.
  rewrite indexOf_nat by (rewrite !length_append; simpl; lia).
  rewrite <- (Nat.add_0_r (String.length head)) at 1.
  rewrite index_skip, (index_char_first c value post H). reflexivity.
Qed.

Lemma substring_after (head mid post : string) :
  (0 < String.length mid + String.length post)%nat ->
  WString.substring (head ++ mid ++ post)
    (Z.of_nat (String.length head))
    (Z.of_nat (String.length head + String.length mid))
  = mid.
Proof.
  intros L.
  destruct mid as [|a mid].
  - simpl in L. rewrite Nat.add_0_r.
    rewrite substring_nat by (rewrite ?length_append; simpl; lia).
    rewrite Nat.min_l by (rewrite length_append; lia).
    rewrite Nat.sub_diag. apply substring_zero.
  - rewrite substring_nat by (rewrite ?length_append; simpl; lia).
    rewrite Nat.min_l by (rewrite !length_append; lia).
    replace (String.length head + String.length (String a mid) - String.length head)%nat
      with (String.length (String a mid)) by lia.
    apply substring_middle.
Qed.

Lemma field_pattern_length (key : string) :
  (0 < String.length (field_pattern key))%nat.
Proof. unfold field_pattern, DQ. simpl. lia. Qed.

Lemma parent_pattern_length (key : string) :
  (0 < String.length (parent_pattern key))%nat.
Proof. unfold parent_pattern, DQ. simpl. lia. Qed.

(** [jsonGet] on a text that does not contain the pattern of the key. *)
Lemma jsonGet_absent (s key : string) :
  occurs (field_pattern key) s = false -> jsonGet s key = EmptyString.
Proof.
  intros H. unfold jsonGet. now rewrite (indexOf_absent _ _ H).
Qed.

(** [jsonGet] returns the text between the first occurrence of the pattern
    and the next double quote. *)
Lemma jsonGet_value (pre key value post : string) :
  String.index 0 (field_pattern key)
    (pre ++ field_pattern key ++ value ++ DQ ++ post)
  = Some (String.length pre) ->
  occurs DQ value = false ->
  jsonGet (pre ++ field_pattern key ++ value ++ DQ ++ post) key = value.
Proof.
  intros Hfirst Hval. unfold jsonGet.
  rewrite (indexOf_first pre (field_pattern key) _ Hfirst (field_pattern_length key)).
  destruct (Z.ltb_spec (Z.of_nat (String.length pre)) 0); [lia|].
  assert (Ep : Z.of_nat (String.length pre) + WString.len (field_pattern key)
               = Z.of_nat (String.length (pre ++ field_pattern key)))
    by (unfold WString.len; rewrite length_append; lia).
  rewrite !Ep. clear Ep.
  rewrite <- append_assoc.
  set (head := pre ++ field_pattern key).
  unfold DQ. change (String "034" EmptyString ++ post) with (String "034" post).
  rewrite (indexOf_char_after head value post "034" Hval).
  destruct (Z.ltb_spec (Z.of_nat (String.length head + String.length value)) 0);
    [lia|].
  apply substring_after. simpl. lia.
Qed.

(** [jsonGetNested] on a text without the parent pattern. *)
Lemma jsonGetNested_absent (s parentKey childKey : string) :
  occurs (parent_pattern parentKey) s = false ->
  jsonGetNested s parentKey childKey = EmptyString.
Proof.
  intros H. unfold jsonGetNested. now rewrite (indexOf_absent _ _ H).
Qed.

(** The region [jsonGetNested] hands to [jsonGet] ends with the first
    closing brace after the opening one. *)
Lemma jsonGetNested_closed (pre parentKey body post childKey : string) :
  String.index 0 (parent_pattern parentKey)
    (pre ++ parent_pattern parentKey ++ body ++ "}" ++ post)
  = Some (String.length pre) ->
  occurs "}" body = false ->
  jsonGetNested (pre ++ parent_pattern parentKey ++ body ++ "}" ++ post)
    parentKey childKey
  = jsonGet (body ++ "}") childKey.
Proof.
  intros Hfirst Hbody. unfold jsonGetNested.
  rewrite (indexOf_first pre (parent_pattern parentKey) _ Hfirst
             (parent_pattern_length parentKey)).
  destruct (Z.ltb_spec (Z.of_nat (String.length pre)) 0); [lia|].
  assert (Ep : Z.of_nat (String.length pre) + WString.len (parent_pattern parentKey)
               = Z.of_nat (String.length (pre ++ parent_pattern parentKey)))
    by (unfold WString.len; rewrite length_append; lia).
  rewrite !Ep. clear Ep.
  rewrite <- append_assoc.
  set (head := pre ++ parent_pattern parentKey).
  change ("}" ++ post) with (String "}" post).
  rewrite (indexOf_char_after head body post "}" Hbody).
  destruct (Z.ltb_spec (Z.of_nat (String.length head + String.length body)) 0);
    [lia|].
  f_equal.
  replace (Z.of_nat (String.length head + String.length body) + 1)
    with (Z.of_nat (String.length head + String.length (body ++ "}")))
    by (rewrite length_append; simpl; lia).
  change (String "}" post) with ("}" ++ post).
  rewrite <- (append_assoc body "}" post).
  apply substring_after. rewrite length_append. simpl. lia.
Qed.

(** Without a closing brace the region runs to the end of the text. *)
Lemma jsonGetNested_open (pre parentKey body childKey : string) :
  String.index 0 (parent_pattern parentKey)
    (pre ++ parent_pattern parentKey ++ body)
  = Some (String.length pre) ->
  occurs "}" body = false ->
  jsonGetNested (pre ++ parent_pattern parentKey ++ body) parentKey childKey
  = jsonGet body childKey.
Proof.
  intros Hfirst Hbody. unfold jsonGetNested.
  rewrite <- (append_nil_r body) in Hfirst at 1.
  pose proof (indexOf_first pre (parent_pattern parentKey) _ Hfirst
                (parent_pattern_length parentKey)) as E.
  rewrite append_nil_r in E. rewrite E. clear E.
  destruct (Z.ltb_spec (Z.of_nat (String.length pre)) 0); [lia|].
  assert (Ep : Z.of_nat (String.length pre) + WString.len (parent_pattern parentKey)
               = Z.of_nat (String.length (pre ++ parent_pattern parentKey)))
    by (unfold WString.len; rewrite length_append; lia).
  rewrite !Ep. clear Ep.
  rewrite <- append_assoc.
  set (head := pre ++ parent_pattern parentKey).
  f_equal.
  destruct body as [|b body].
  - rewrite append_nil_r.
    rewrite indexOf_past_end by (unfold WString.len; lia).
    cbn [Z.ltb Z.compare]. apply substring_past_end; unfold WString.len; lia.
  - assert (E : WString.indexOf (head ++ String b body) "}"
                  (Z.of_nat (String.length head)) = -1).
    { rewrite indexOf_nat by (rewrite length_append; simpl; lia).
      rewrite <- (Nat.add_0_r (String.length head)) at 1.
      rewrite index_skip, (occurs_false_index _ _ Hbody). reflexivity. }
    rewrite E. cbn [Z.ltb Z.compare].
    unfold WString.len.
    replace (Z.of_nat (String.length (head ++ String b body)) + 1)
      with (Z.of_nat (S (String.length (head ++ String b body)))) by lia.
    rewrite substring_nat by (rewrite ?length_append; simpl; lia).
    rewrite Nat.min_r by lia.
    rewrite length_append.
    replace (String.length head + String.length (String b body) - String.length head)%nat
      with (String.length (String b body)) by lia.
    rewrite <- (append_nil_r (String b body)) at 2.
    apply substring_middle.
Qed.

Lemma occurs_char_cons (c b : ascii) (r : string) :
  occurs (String c EmptyString) (String b r) = false ->
  Ascii.eqb b c = false /\ occurs (String c EmptyString) r = false.
Proof.
  cbn [occurs]. intros H. apply orb_false_iff in H as [P O].
  split; [|exact O].
  simpl in P. destruct (ascii_dec c b) as [->|N].
  - now rewrite prefix_empty in P.
  - apply Ascii.eqb_neq. congruence.
Qed.

(** On a parent object without braces inside, the first closing brace is
    the matching one. *)
Lemma up_to_matching_flat (body post : string) :
  occurs "{" body = false ->
  occurs "}" body = false ->
  up_to_matching_brace 0 (body ++ String "}" post) = body ++ "}".
Proof.
  induction body as [|b body IH]; intros Ho Hc.
  - reflexivity.
  - apply occurs_char_cons in Ho as [Eo Ho].
    apply occurs_char_cons in Hc as [Ec Hc].
    change (String b body ++ String "}" post)
      with (String b (body ++ String "}" post)).
    cbn [up_to_matching_brace]. rewrite Ec, Eo, (IH Ho Hc). reflexivity.
Qed.

Lemma substring_tail (head tail : string) :
  String.substring (String.length head)
    (String.length (head ++ tail) - String.length head) (head ++ tail)
  = tail.
Proof.
  rewrite length_append.
  replace (String.length head + String.length tail - String.length head)%nat
    with (String.length tail) by lia.
  rewrite <- (append_nil_r tail) at 2.
  apply substring_middle.
Qed.

(** C5, as the code has it.  [jsonGetNested] locates the first occurrence of
    the parent pattern and hands to [jsonGet] the text from there up to and
    including the first closing brace that follows, or up to the end of the
    text if there is none; without the parent pattern it returns the empty
    string.  When the parent object holds no brace of its own, that region
    is the one the matching brace delimits. *)
Theorem jsonGetNested_first_closing_brace
    (pre parentKey body post childKey : string) :
  occurs "}" body = false ->
  let parent := parent_pattern parentKey in
  (String.index 0 parent (pre ++ parent ++ body ++ "}" ++ post)
   = Some (String.length pre) ->
   jsonGetNested (pre ++ parent ++ body ++ "}" ++ post) parentKey childKey
   = jsonGet (body ++ "}") childKey) /\
  (String.index 0 parent (pre ++ parent ++ body) = Some (String.length pre) ->
   jsonGetNested (pre ++ parent ++ body) parentKey childKey
   = jsonGet body childKey) /\
  (occurs parent pre = false ->
   jsonGetNested pre parentKey childKey = EmptyString) /\
  (String.index 0 parent (pre ++ parent ++ body ++ "}" ++ post)
   = Some (String.length pre) ->
   occurs "{" body = false ->
   jsonGetNested (pre ++ parent ++ body ++ "}" ++ post) parentKey childKey
   = getNestedField_matching (pre ++ parent ++ body ++ "}" ++ post)
       parentKey childKey).
Proof.
  intros Hbody parent. subst parent.
  split; [|split; [|split]].
  - intros Hfirst. now apply jsonGetNested_closed.
  - intros Hfirst. now apply jsonGetNested_open.
  - apply jsonGetNested_absent.
  - intros Hfirst Hflat.
    rewrite (jsonGetNested_closed _ _ _ _ _ Hfirst Hbody).
    unfold getNestedField_matching. rewrite Hfirst.
    rewrite <- length_append, <- append_assoc, substring_tail.
    change ("}" ++ post) with (String "}" post).
    now rewrite (up_to_matching_flat body post Hflat Hbody).
Qed.

Lemma jsonGetNested_first_closing_brace_witness :
  occurs "}" (json "'assignedHub':'hub1.azure-devices.net','deviceId':'dev-1'") = false /\
  jsonGetNested
    (json "{'status':'assigned'," ++ parent_pattern "registrationState" ++
     json "'assignedHub':'hub1.azure-devices.net','deviceId':'dev-1'" ++ "}" ++ "}")
    "registrationState" "deviceId"
  = jsonGet (json "'assignedHub':'hub1.azure-devices.net','deviceId':'dev-1'" ++ "}")
      "deviceId".
Proof.
  assert (Hbody : occurs "}"
            (json "'assignedHub':'hub1.azure-devices.net','deviceId':'dev-1'") = false)
    by (vm_compute; reflexivity).
  split; [exact Hbody|].
  destruct (jsonGetNested_first_closing_brace
              (json "{'status':'assigned',") "registrationState"
              (json "'assignedHub':'hub1.azure-devices.net','deviceId':'dev-1'")
              "}" "deviceId" Hbody) as [H _].
  apply H. vm_compute. reflexivity.
Defined.

(** C5, as the design document states it, fails on a parent object with a
    nested object before the child key: the matching brace delimits a region
    that holds [deviceId], the code's region ends at the brace of [x509]. *)
Lemma jsonGetNested_misses_key_after_nested_object :
  getNestedField_matching nested_payload "registrationState" "deviceId" = "dev-1" /\
  jsonGetNested nested_payload "registrationState" "deviceId" = EmptyString /\
  jsonGetNested nested_payload "registrationState" "deviceId"
  <> getNestedField_matching nested_payload "registrationState" "deviceId".
Proof.
  assert (A : getNestedField_matching nested_payload "registrationState" "deviceId"
              = "dev-1") by (vm_compute; reflexivity).
  assert (B : jsonGetNested nested_payload "registrationState" "deviceId"
              = EmptyString) by (vm_compute; reflexivity).
  split; [exact A|]. split; [exact B|].
  rewrite A, B. discriminate.
Qed.

(* ================================================================== *)
(** ** The registration handshake                                      *)
(* ================================================================== *)

Section Handshake.

#[local] Arguments topicStatusCode : simpl never.
#[local] Arguments jsonGet : simpl never.
#[local] Arguments jsonGetNested : simpl never.
#[local] Arguments buildSasToken : simpl never.
#[local] Arguments c_string : simpl never.
#[local] Arguments String.substring : simpl never.
#[local] Arguments String.eqb : simpl never.
#[local] Arguments String.prefix : simpl never.
#[local] Arguments Z.modulo : simpl never.
#[local] Arguments Z.pow : simpl never.
#[local] Arguments Z.add : simpl never.
#[local] Arguments Z.sub : simpl never.
#[local] Arguments Z.ltb : simpl never.
#[local] Arguments Z.eqb : simpl never.

Lemma set_clock_same (st : sketch) : set_clock (clock st) st = st.
Proof. now destruct st. Qed.

Lemma set_clock_twice (a b : Z) (st : sketch) :
  set_clock a (set_clock b st) = set_clock a st.
Proof. reflexivity. Qed.

Lemma elapsed_base (c0 : Z) (st : sketch) :
  elapsed_since (c0 mod 2 ^ 32) st = (clock st - c0) mod 2 ^ 32.
Proof. unfold elapsed_since, millis. now rewrite <- Zminus_mod. Qed.

Lemma elapsed_zero (st : sketch) : elapsed_since (millis st) st = 0.
Proof. unfold elapsed_since. now rewrite Z.sub_diag. Qed.

Lemma elapsed_small (c0 : Z) (st : sketch) (bound : Z) :
  0 <= clock st - c0 < bound -> bound <= 2 ^ 32 ->
  elapsed_since (c0 mod 2 ^ 32) st = clock st - c0.
Proof. intros H B. rewrite elapsed_base. apply Z.mod_small. lia. Qed.

Lemma forallb_nonneg_total (ds : list Z) :
  forallb (fun d => 0 <=? d) ds = true -> 0 <= total ds.
Proof.
  induction ds as [|d ds IH]; simpl; intros H; [lia|].
  apply andb_true_iff in H as [Hd H]. apply Z.leb_le in Hd.
  specialize (IH H). unfold total in *. lia.
Qed.

(** *** The first wait *)

(** The first wait with the body of its loop written out. *)
Lemma register_wait_cons (ev : event) (script : list event) (t0 : Z)
    (st : sketch) :
  register_wait (ev :: script) t0 st
  = if negb (elapsed_since t0 st <? 20000) then
      (RegisterLeaves EmptyString, ev :: script, st)
    else
      let st := mqtt_loop ev st in
      if dpsMsgArrived st then
        let st := set_inbox false (dpsLastTopic st) (dpsLastPayload st) st in
        let code := topicStatusCode (dpsLastTopic st) in
        if code =? 202 then
          (RegisterLeaves (jsonGet (dpsLastPayload st) "operationId"), script, st)
        else if code =? 200 then
          let st :=
            set_assignment
              (jsonGetNested (dpsLastPayload st) "registrationState" "assignedHub")
              (jsonGetNested (dpsLastPayload st) "registrationState" "deviceId")
              st in
          if nonempty (assignedHub st) && nonempty (deviceId st) then
            (RegisterReturnsTrue, script,
             set_link false (callback_set st) (issue Disconnect st))
          else register_wait script t0 st
        else register_wait script t0 st
      else register_wait script t0 st.
Proof.
  cbn [register_wait]. unfold register_reply. cbv zeta.
  destruct (negb (elapsed_since t0 st <? 20000)); [reflexivity|].
  destruct (dpsMsgArrived (mqtt_loop ev st)); [|reflexivity].
  match goal with |- context [?c =? 202] => destruct (c =? 202) end;
    [reflexivity|].
  match goal with |- context [?c =? 200] => destruct (c =? 200) end;
    [|reflexivity].
  match goal with |- context [nonempty ?a && nonempty ?b] =>
    destruct (nonempty a && nonempty b) end; reflexivity.
Qed.

Lemma register_wait_nil (t0 : Z) (st : sketch) :
  register_wait [] t0 st
  = if negb (elapsed_since t0 st <? 20000) then
      (RegisterLeaves EmptyString, [], st)
    else
      let st := delay (20000 - elapsed_since t0 st) st in
      if dpsMsgArrived st then
        let st := set_inbox false (dpsLastTopic st) (dpsLastPayload st) st in
        let code := topicStatusCode (dpsLastTopic st) in
        if code =? 202 then
          (RegisterLeaves (jsonGet (dpsLastPayload st) "operationId"), [], st)
        else if code =? 200 then
          let st :=
            set_assignment
              (jsonGetNested (dpsLastPayload st) "registrationState" "assignedHub")
              (jsonGetNested (dpsLastPayload st) "registrationState" "deviceId")
              st in
          if nonempty (assignedHub st) && nonempty (deviceId st) then
            (RegisterReturnsTrue, [],
             set_link false (callback_set st) (issue Disconnect st))
          else (RegisterLeaves EmptyString, [], st)
        else (RegisterLeaves EmptyString, [], st)
      else (RegisterLeaves EmptyString, [], st).
Proof.
  cbn [register_wait]. unfold register_reply. cbv zeta.
  destruct (negb (elapsed_since t0 st <? 20000)); [reflexivity|].
  destruct (dpsMsgArrived (delay (20000 - elapsed_since t0 st) st)); [|reflexivity].
  match goal with |- context [?c =? 202] => destruct (c =? 202) end;
    [reflexivity|].
  match goal with |- context [?c =? 200] => destruct (c =? 200) end;
    [|reflexivity].
  match goal with |- context [nonempty ?a && nonempty ?b] =>
    destruct (nonempty a && nonempty b) end; reflexivity.
Qed.

(** With the flag down, a script that is used up lets the wait run out. *)
Lemma register_wait_nil_quiet (t0 : Z) (st : sketch) :
  dpsMsgArrived st = false ->
  elapsed_since t0 st < 20000 ->
  register_wait [] t0 st
  = (RegisterLeaves EmptyString, [], delay (20000 - elapsed_since t0 st) st).
Proof.
  intros F L. rewrite register_wait_nil, (proj2 (Z.ltb_lt _ _) L).
  cbn [negb]. cbv zeta.
  change (dpsMsgArrived (delay (20000 - elapsed_since t0 st) st))
    with (dpsMsgArrived st).
  now rewrite F.
Qed.

Lemma register_wait_expired (script : list event) (t0 : Z) (st : sketch) :
  20000 <= elapsed_since t0 st ->
  register_wait script t0 st = (RegisterLeaves EmptyString, script, st).
Proof.
  intros H. destruct script; cbn [register_wait];
    now rewrite (proj2 (Z.ltb_ge _ _) H).
Qed.

Lemma register_wait_step (ev : event) (script : list event) (t0 : Z)
    (st : sketch) :
  elapsed_since t0 st < 20000 ->
  register_wait (ev :: script) t0 st
  = let st := mqtt_loop ev st in
    if dpsMsgArrived st then
      let st := set_inbox false (dpsLastTopic st) (dpsLastPayload st) st in
      let code := topicStatusCode (dpsLastTopic st) in
      if code =? 202 then
        (RegisterLeaves (jsonGet (dpsLastPayload st) "operationId"), script, st)
      else if code =? 200 then
        let st :=
          set_assignment
            (jsonGetNested (dpsLastPayload st) "registrationState" "assignedHub")
            (jsonGetNested (dpsLastPayload st) "registrationState" "deviceId")
            st in
        if nonempty (assignedHub st) && nonempty (deviceId st) then
          (RegisterReturnsTrue, script,
           set_link false (callback_set st) (issue Disconnect st))
        else register_wait script t0 st
      else register_wait script t0 st
    else register_wait script t0 st.
Proof.
  intros H. rewrite register_wait_cons. now rewrite (proj2 (Z.ltb_lt _ _) H).
Qed.

(** A call of [mqtt.loop()] that delivers nothing only moves the clock. *)
Lemma register_wait_silent_step (d : Z) (script : list event) (t0 : Z)
    (st : sketch) :
  elapsed_since t0 st < 20000 ->
  dpsMsgArrived st = false ->
  register_wait (silent d :: script) t0 st
  = register_wait script t0 (set_clock (clock st + d) st).
Proof.
  intros H F. rewrite (register_wait_step _ _ _ _ H).
  cbn [mqtt_loop silent incoming took]. cbv zeta.
  change (dpsMsgArrived (set_clock (clock st + d) st)) with (dpsMsgArrived st).
  now rewrite F.
Qed.

(** A delivery stores the message; what happens next depends on the status
    code in the topic. *)
Lemma mqtt_loop_delivery (d : Z) (m : message) (st : sketch) :
  callback_set st = true ->
  mqtt_loop (Event d (Some m)) st
  = set_inbox true (seen_topic m) (seen_payload m) (set_clock (clock st + d) st).
Proof.
  intros C. unfold mqtt_loop. cbn [incoming took].
  change (callback_set (set_clock (clock st + d) st)) with (callback_set st).
  now rewrite C.
Qed.

Lemma register_wait_accepted (d : Z) (m : message) (script : list event)
    (t0 : Z) (st : sketch) :
  elapsed_since t0 st < 20000 -> callback_set st = true ->
  response_code m = 202 ->
  register_wait (Event d (Some m) :: script) t0 st
  = (RegisterLeaves (response_operationId m), script, taken m d st).
Proof.
  intros H C E. rewrite (register_wait_step _ _ _ _ H).
  rewrite (mqtt_loop_delivery d m st C). cbv zeta.
  cbn [dpsMsgArrived dpsLastTopic dpsLastPayload set_inbox].
  fold (response_code m). now rewrite E.
Qed.

Lemma register_wait_assigned (d : Z) (m : message) (script : list event)
    (t0 : Z) (st : sketch) :
  elapsed_since t0 st < 20000 -> callback_set st = true ->
  response_code m = 200 ->
  nonempty (response_hub m) && nonempty (response_deviceId m) = true ->
  register_wait (Event d (Some m) :: script) t0 st
  = (RegisterReturnsTrue, script,
     set_link false true
       (issue Disconnect
          (set_assignment (response_hub m) (response_deviceId m) (taken m d st)))).
Proof.
  intros H C E N. rewrite (register_wait_step _ _ _ _ H).
  rewrite (mqtt_loop_delivery d m st C). cbv zeta.
  cbn [dpsMsgArrived dpsLastTopic dpsLastPayload set_inbox].
  fold (response_code m). rewrite E.
  change (200 =? 202) with false. change (200 =? 200) with true. cbv iota.
  cbn [assignedHub deviceId set_assignment].
  fold (response_hub m) (response_deviceId m). rewrite N.
  cbn [callback_set set_assignment set_inbox set_clock]. now rewrite C.
Qed.

(** A status-200 response in which either field reads empty is passed over:
    both globals are overwritten and the wait goes on. *)
Lemma register_wait_unusable (d : Z) (m : message) (script : list event)
    (t0 : Z) (st : sketch) :
  elapsed_since t0 st < 20000 -> callback_set st = true ->
  response_code m = 200 ->
  nonempty (response_hub m) && nonempty (response_deviceId m) = false ->
  register_wait (Event d (Some m) :: script) t0 st
  = register_wait script t0
      (set_assignment (response_hub m) (response_deviceId m) (taken m d st)).
Proof.
  intros H C E N. rewrite (register_wait_step _ _ _ _ H).
  rewrite (mqtt_loop_delivery d m st C). cbv zeta.
  cbn [dpsMsgArrived dpsLastTopic dpsLastPayload set_inbox].
  fold (response_code m). rewrite E.
  change (200 =? 202) with false. change (200 =? 200) with true. cbv iota.
  cbn [assignedHub deviceId set_assignment].
  fold (response_hub m) (response_deviceId m). now rewrite N.
Qed.

(** A response with any other status code is passed over as well. *)
Lemma register_wait_unexpected (d : Z) (m : message) (script : list event)
    (t0 : Z) (st : sketch) :
  elapsed_since t0 st < 20000 -> callback_set st = true ->
  response_code m <> 202 -> response_code m <> 200 ->
  register_wait (Event d (Some m) :: script) t0 st
  = register_wait script t0 (taken m d st).
Proof.
  intros H C E2 E0. rewrite (register_wait_step _ _ _ _ H).
  rewrite (mqtt_loop_delivery d m st C). cbv zeta.
  cbn [dpsMsgArrived dpsLastTopic dpsLastPayload set_inbox].
  fold (response_code m).
  rewrite (proj2 (Z.eqb_neq _ _) E2), (proj2 (Z.eqb_neq _ _) E0).
  reflexivity.
Qed.

Lemma taken_ready (m : message) (d : Z) (st : sketch) :
  callback_set st = true -> ready (taken m d st).
Proof. intros C. split; [reflexivity | exact C]. Qed.

(** Quiet calls that together last less than what is left of the twenty
    seconds leave the wait running. *)
Lemma register_wait_quiet (ds : list Z) :
  forall (rest : list event) (c0 : Z) (st : sketch),
    dpsMsgArrived st = false ->
    forallb (fun d => 0 <=? d) ds = true ->
    0 <= clock st - c0 ->
    clock st - c0 + total ds < 20000 ->
    register_wait (map silent ds ++ rest)%list (c0 mod 2 ^ 32) st
    = register_wait rest (c0 mod 2 ^ 32) (set_clock (clock st + total ds) st).
Proof.
  induction ds as [|d ds IH]; intros rest c0 st F Hds H0 H.
  - cbn [map app total fold_right]. now rewrite Z.add_0_r, set_clock_same.
  - cbn [forallb] in Hds. apply andb_true_iff in Hds as [Hd Hds].
    apply Z.leb_le in Hd.
    pose proof (forallb_nonneg_total ds Hds) as Ht.
    change (total (d :: ds)) with (d + total ds) in *.
    cbn [map app].
    rewrite register_wait_silent_step;
      [|rewrite (elapsed_small c0 st 20000); lia | exact F].
    rewrite IH; [|exact F | exact Hds | cbn [clock set_clock]; lia
                 | cbn [clock set_clock]; lia].
    change (clock (set_clock (clock st + d) st)) with (clock st + d).
    now rewrite set_clock_twice, Z.add_assoc.
Qed.

(** As long as no response carries status 200 or 202, the first wait ends
    by running out, with no operation id and nothing issued. *)
Lemma register_wait_runs_out (script : list event) :
  forall (t0 : Z) (st : sketch),
    ready st ->
    forallb no_200_202 script = true ->
    exists rest st',
      register_wait script t0 st = (RegisterLeaves EmptyString, rest, st') /\
      requests st' = requests st.
Proof.
  induction script as [|ev script IH]; intros t0 st [F C] H.
  - destruct (Z.lt_ge_cases (elapsed_since t0 st) 20000) as [L|G].
    + rewrite (register_wait_nil_quiet _ _ F L).
      eexists _, _. split; reflexivity.
    + rewrite (register_wait_expired _ _ _ G). eexists _, _. split; reflexivity.
  - destruct (Z.lt_ge_cases (elapsed_since t0 st) 20000) as [L|G];
      [|rewrite (register_wait_expired _ _ _ G); eexists _, _; split; reflexivity].
    cbn [forallb] in H. apply andb_true_iff in H as [Hev H].
    destruct ev as [d [m|]].
    + unfold no_200_202 in Hev. cbn [incoming] in Hev.
      apply andb_true_iff in Hev as [E0 E2].
      apply negb_true_iff, Z.eqb_neq in E0, E2.
      rewrite (register_wait_unexpected d m script t0 st L C E2 E0).
      destruct (IH t0 (taken m d st) (taken_ready m d st C) H)
        as (rest & st' & E & R).
      exists rest, st'. split; [exact E | exact R].
    + change (Event d None) with (silent d).
      rewrite (register_wait_silent_step d script t0 st L F).
      destruct (IH t0 (set_clock (clock st + d) st) (conj F C) H)
        as (rest & st' & E & R).
      exists rest, st'. split; [exact E | exact R].
Qed.

(** The first wait reports success only with both globals filled. *)
Lemma register_wait_true_filled (script : list event) :
  forall (t0 : Z) (st : sketch) (rest : list event) (st' : sketch),
    register_wait script t0 st = (RegisterReturnsTrue, rest, st') ->
    nonempty (assignedHub st') && nonempty (deviceId st') = true.
Proof.
  induction script as [|ev script IH]; intros t0 st rest st'.
  - rewrite register_wait_nil.
    destruct (negb (elapsed_since t0 st <? 20000)); [discriminate|].
    cbv zeta.
    destruct (dpsMsgArrived (delay (20000 - elapsed_since t0 st) st));
      [|discriminate].
    match goal with |- context [?c =? 202] => destruct (c =? 202) end;
      [discriminate|].
    match goal with |- context [?c =? 200] => destruct (c =? 200) end;
      [|discriminate].
    match goal with |- context [if ?b then _ else _] => destruct b eqn:N end;
      [|discriminate].
    intros H. injection H as _ <-. exact N.
  - rewrite register_wait_cons.
    destruct (negb (elapsed_since t0 st <? 20000)); [discriminate|].
    cbv zeta.
    destruct (dpsMsgArrived (mqtt_loop ev st)); [|apply IH].
    match goal with |- context [?c =? 202] => destruct (c =? 202) end;
      [discriminate|].
    match goal with |- context [?c =? 200] => destruct (c =? 200) end;
      [|apply IH].
    match goal with |- context [if ?b then _ else _] => destruct b eqn:N end;
      [|apply IH].
    intros H. injection H as _ <-. exact N.
Qed.

(** The first wait issues no request but the final [Disconnect]. *)
Lemma register_wait_polls (script : list event) :
  forall (t0 : Z) (st : sketch) (x : register_exit) (rest : list event)
         (st' : sketch),
    register_wait script t0 st = (x, rest, st') ->
    polls_issued st' = polls_issued st.
Proof.
  induction script as [|ev script IH]; intros t0 st x rest st'.
  - rewrite register_wait_nil.
    destruct (negb (elapsed_since t0 st <? 20000));
      [intros H; injection H as _ _ <-; reflexivity|].
    cbv zeta.
    destruct (dpsMsgArrived (delay (20000 - elapsed_since t0 st) st));
      [|intros H; injection H as _ _ <-; reflexivity].
    match goal with |- context [?c =? 202] => destruct (c =? 202) end;
      [intros H; injection H as _ _ <-; reflexivity|].
    match goal with |- context [?c =? 200] => destruct (c =? 200) end;
      [|intros H; injection H as _ _ <-; reflexivity].
    match goal with |- context [if ?b then _ else _] => destruct b end;
      intros H; injection H as _ _ <-; reflexivity.
  - rewrite register_wait_cons.
    destruct (negb (elapsed_since t0 st <? 20000));
      [intros H; injection H as _ _ <-; reflexivity|].
    cbv zeta.
    assert (M : polls_issued (mqtt_loop ev st) = polls_issued st).
    { unfold mqtt_loop. destruct (incoming ev); [|reflexivity].
      now destruct (callback_set _). }
    destruct (dpsMsgArrived (mqtt_loop ev st));
      [|intros H; rewrite (IH _ _ _ _ _ H); exact M].
    match goal with |- context [?c =? 202] => destruct (c =? 202) end;
      [intros H; injection H as _ _ <-; exact M|].
    match goal with |- context [?c =? 200] => destruct (c =? 200) end;
      [|intros H; rewrite (IH _ _ _ _ _ H); exact M].
    match goal with |- context [if ?b then _ else _] => destruct b end;
      [intros H; injection H as _ _ <-; exact M
      |intros H; rewrite (IH _ _ _ _ _ H); exact M].
Qed.

(** *** The wait of one poll attempt *)

(** The wait of one poll attempt with the body of its loop written out. *)
Lemma poll_wait_cons (ev : event) (script : list event) (t1 : Z)
    (st : sketch) :
  poll_wait (ev :: script) t1 st
  = if negb (elapsed_since t1 st <? 5000) then (PollGoesOn, ev :: script, st)
    else
      let st := mqtt_loop ev st in
      if dpsMsgArrived st then
        let st := set_inbox false (dpsLastTopic st) (dpsLastPayload st) st in
        let code := topicStatusCode (dpsLastTopic st) in
        if code =? 200 then
          let status := jsonGet (dpsLastPayload st) "status" in
          if String.eqb status "assigned" then
            let st :=
              set_assignment
                (jsonGetNested (dpsLastPayload st) "registrationState" "assignedHub")
                (jsonGetNested (dpsLastPayload st) "registrationState" "deviceId")
                st in
            let st := set_link false (callback_set st) (issue Disconnect st) in
            (PollReturns (nonempty (assignedHub st) && nonempty (deviceId st)),
             script, st)
          else (PollGoesOn, script, st)
        else (PollGoesOn, script, st)
      else poll_wait script t1 st.
Proof.
  cbn [poll_wait]. unfold poll_reply. cbv zeta.
  destruct (negb (elapsed_since t1 st <? 5000)); [reflexivity|].
  destruct (dpsMsgArrived (mqtt_loop ev st)); [|reflexivity].
  match goal with |- context [?c =? 200] => destruct (c =? 200) end;
    [|reflexivity].
  match goal with |- context [String.eqb ?x ?y] => destruct (String.eqb x y) end;
    reflexivity.
Qed.

Lemma poll_wait_nil (t1 : Z) (st : sketch) :
  poll_wait [] t1 st
  = if negb (elapsed_since t1 st <? 5000) then (PollGoesOn, [], st)
    else
      let st := delay (5000 - elapsed_since t1 st) st in
      if dpsMsgArrived st then
        let st := set_inbox false (dpsLastTopic st) (dpsLastPayload st) st in
        let code := topicStatusCode (dpsLastTopic st) in
        if code =? 200 then
          let status := jsonGet (dpsLastPayload st) "status" in
          if String.eqb status "assigned" then
            let st :=
              set_assignment
                (jsonGetNested (dpsLastPayload st) "registrationState" "assignedHub")
                (jsonGetNested (dpsLastPayload st) "registrationState" "deviceId")
                st in
            let st := set_link false (callback_set st) (issue Disconnect st) in
            (PollReturns (nonempty (assignedHub st) && nonempty (deviceId st)),
             [], st)
          else (PollGoesOn, [], st)
        else (PollGoesOn, [], st)
      else (PollGoesOn, [], st).
Proof.
  cbn [poll_wait]. unfold poll_reply. cbv zeta.
  destruct (negb (elapsed_since t1 st <? 5000)); [reflexivity|].
  destruct (dpsMsgArrived (delay (5000 - elapsed_since t1 st) st)); [|reflexivity].
  match goal with |- context [?c =? 200] => destruct (c =? 200) end;
    [|reflexivity].
  match goal with |- context [String.eqb ?x ?y] => destruct (String.eqb x y) end;
    reflexivity.
Qed.

Lemma poll_wait_nil_quiet (t1 : Z) (st : sketch) :
  dpsMsgArrived st = false ->
  elapsed_since t1 st < 5000 ->
  poll_wait [] t1 st = (PollGoesOn, [], delay (5000 - elapsed_since t1 st) st).
Proof.
  intros F L. rewrite poll_wait_nil, (proj2 (Z.ltb_lt _ _) L).
  cbn [negb]. cbv zeta.
  change (dpsMsgArrived (delay (5000 - elapsed_since t1 st) st))
    with (dpsMsgArrived st).
  now rewrite F.
Qed.

Lemma poll_wait_expired (script : list event) (t1 : Z) (st : sketch) :
  5000 <= elapsed_since t1 st ->
  poll_wait script t1 st = (PollGoesOn, script, st).
Proof.
  intros H. destruct script; cbn [poll_wait];
    now rewrite (proj2 (Z.ltb_ge _ _) H).
Qed.

Lemma poll_wait_step (ev : event) (script : list event) (t1 : Z)
    (st : sketch) :
  elapsed_since t1 st < 5000 ->
  poll_wait (ev :: script) t1 st
  = let st := mqtt_loop ev st in
    if dpsMsgArrived st then
      let st := set_inbox false (dpsLastTopic st) (dpsLastPayload st) st in
      let code := topicStatusCode (dpsLastTopic st) in
      if code =? 200 then
        let status := jsonGet (dpsLastPayload st) "status" in
        if String.eqb status "assigned" then
          let st :=
            set_assignment
              (jsonGetNested (dpsLastPayload st) "registrationState" "assignedHub")
              (jsonGetNested (dpsLastPayload st) "registrationState" "deviceId")
              st in
          let st := set_link false (callback_set st) (issue Disconnect st) in
          (PollReturns (nonempty (assignedHub st) && nonempty (deviceId st)),
           script, st)
        else (PollGoesOn, script, st)
      else (PollGoesOn, script, st)
    else poll_wait script t1 st.
Proof.
  intros H. rewrite poll_wait_cons. now rewrite (proj2 (Z.ltb_lt _ _) H).
Qed.

Lemma poll_wait_silent_step (d : Z) (script : list event) (t1 : Z)
    (st : sketch) :
  elapsed_since t1 st < 5000 ->
  dpsMsgArrived st = false ->
  poll_wait (silent d :: script) t1 st
  = poll_wait script t1 (set_clock (clock st + d) st).
Proof.
  intros H F. rewrite (poll_wait_step _ _ _ _ H).
  cbn [mqtt_loop silent incoming took]. cbv zeta.
  change (dpsMsgArrived (set_clock (clock st + d) st)) with (dpsMsgArrived st).
  now rewrite F.
Qed.

Lemma poll_wait_quiet (ds : list Z) :
  forall (rest : list event) (c0 : Z) (st : sketch),
    dpsMsgArrived st = false ->
    forallb (fun d => 0 <=? d) ds = true ->
    0 <= clock st - c0 ->
    clock st - c0 + total ds < 5000 ->
    poll_wait (map silent ds ++ rest)%list (c0 mod 2 ^ 32) st
    = poll_wait rest (c0 mod 2 ^ 32) (set_clock (clock st + total ds) st).
Proof.
  induction ds as [|d ds IH]; intros rest c0 st F Hds H0 H.
  - cbn [map app total fold_right]. now rewrite Z.add_0_r, set_clock_same.
  - cbn [forallb] in Hds. apply andb_true_iff in Hds as [Hd Hds].
    apply Z.leb_le in Hd.
    pose proof (forallb_nonneg_total ds Hds) as Ht.
    change (total (d :: ds)) with (d + total ds) in *.
    cbn [map app].
    rewrite poll_wait_silent_step;
      [|rewrite (elapsed_small c0 st 5000); lia | exact F].
    rewrite IH; [|exact F | exact Hds | cbn [clock set_clock]; lia
                 | cbn [clock set_clock]; lia].
    change (clock (set_clock (clock st + d) st)) with (clock st + d).
    now rewrite set_clock_twice, Z.add_assoc.
Qed.

(** A reply that does not announce the assignment ends the attempt. *)
Lemma poll_wait_not_yet (d : Z) (m : message) (script : list event)
    (t1 : Z) (st : sketch) :
  elapsed_since t1 st < 5000 -> callback_set st = true ->
  is_assigned_reply m = false ->
  poll_wait (Event d (Some m) :: script) t1 st
  = (PollGoesOn, script, taken m d st).
Proof.
  intros H C E. rewrite (poll_wait_step _ _ _ _ H).
  rewrite (mqtt_loop_delivery d m st C). cbv zeta.
  cbn [dpsMsgArrived dpsLastTopic dpsLastPayload set_inbox].
  fold (response_code m) (response_status m).
  unfold is_assigned_reply in E.
  destruct (response_code m =? 200); [|reflexivity].
  cbn [andb] in E. now rewrite E.
Qed.

(** The reply that announces the assignment ends the handshake, with
    success if both fields read non-empty. *)
Lemma poll_wait_announced (d : Z) (m : message) (script : list event)
    (t1 : Z) (st : sketch) :
  elapsed_since t1 st < 5000 -> callback_set st = true ->
  is_assigned_reply m = true ->
  poll_wait (Event d (Some m) :: script) t1 st
  = (PollReturns (nonempty (response_hub m) && nonempty (response_deviceId m)),
     script,
     set_link false true
       (issue Disconnect
          (set_assignment (response_hub m) (response_deviceId m) (taken m d st)))).
Proof.
  intros H C E. rewrite (poll_wait_step _ _ _ _ H).
  rewrite (mqtt_loop_delivery d m st C). cbv zeta.
  cbn [dpsMsgArrived dpsLastTopic dpsLastPayload set_inbox].
  fold (response_code m) (response_status m).
  unfold is_assigned_reply in E. apply andb_true_iff in E as [E1 E2].
  rewrite E1, E2.
  cbn [assignedHub deviceId callback_set set_assignment set_inbox set_clock
       set_link issue].
  fold (response_hub m) (response_deviceId m). now rewrite C.
Qed.

Lemma poll_wait_result (script : list event) :
  forall (t1 : Z) (st : sketch) (b : bool) (rest : list event) (st' : sketch),
    poll_wait script t1 st = (PollReturns b, rest, st') ->
    b = nonempty (assignedHub st') && nonempty (deviceId st').
Proof.
  induction script as [|ev script IH]; intros t1 st b rest st'.
  - rewrite poll_wait_nil.
    destruct (negb (elapsed_since t1 st <? 5000)); [discriminate|].
    cbv zeta.
    destruct (dpsMsgArrived (delay (5000 - elapsed_since t1 st) st));
      [|discriminate].
    match goal with |- context [?c =? 200] => destruct (c =? 200) end;
      [|discriminate].
    match goal with |- context [String.eqb ?x ?y] => destruct (String.eqb x y) end;
      [|discriminate].
    intros H. injection H as <- _ <-. reflexivity.
  - rewrite poll_wait_cons.
    destruct (negb (elapsed_since t1 st <? 5000)); [discriminate|].
    cbv zeta.
    destruct (dpsMsgArrived (mqtt_loop ev st)); [|apply IH].
    match goal with |- context [?c =? 200] => destruct (c =? 200) end;
      [|discriminate].
    match goal with |- context [String.eqb ?x ?y] => destruct (String.eqb x y) end;
      [|discriminate].
    intros H. injection H as <- _ <-. reflexivity.
Qed.

Lemma poll_wait_polls (script : list event) :
  forall (t1 : Z) (st : sketch) (x : poll_exit) (rest : list event)
         (st' : sketch),
    poll_wait script t1 st = (x, rest, st') ->
    polls_issued st' = polls_issued st.
Proof.
  induction script as [|ev script IH]; intros t1 st x rest st'.
  - rewrite poll_wait_nil.
    destruct (negb (elapsed_since t1 st <? 5000));
      [intros H; injection H as _ _ <-; reflexivity|].
    cbv zeta.
    destruct (dpsMsgArrived (delay (5000 - elapsed_since t1 st) st));
      [|intros H; injection H as _ _ <-; reflexivity].
    match goal with |- context [?c =? 200] => destruct (c =? 200) end;
      [|intros H; injection H as _ _ <-; reflexivity].
    match goal with |- context [String.eqb ?x ?y] => destruct (String.eqb x y) end;
      intros H; injection H as _ _ <-; reflexivity.
  - rewrite poll_wait_cons.
    destruct (negb (elapsed_since t1 st <? 5000));
      [intros H; injection H as _ _ <-; reflexivity|].
    cbv zeta.
    assert (M : polls_issued (mqtt_loop ev st) = polls_issued st).
    { unfold mqtt_loop. destruct (incoming ev); [|reflexivity].
      now destruct (callback_set _). }
    destruct (dpsMsgArrived (mqtt_loop ev st));
      [|intros H; rewrite (IH _ _ _ _ _ H); exact M].
    match goal with |- context [?c =? 200] => destruct (c =? 200) end;
      [|intros H; injection H as _ _ <-; exact M].
    match goal with |- context [String.eqb ?x ?y] => destruct (String.eqb x y) end;
      intros H; injection H as _ _ <-; exact M.
Qed.

(** *** The poll loop *)

Lemma poll_loop_step (todo : nat) (operationId : string)
    (script : list event) (st : sketch) :
  poll_loop (S todo) operationId script st
  = let st := next_rid (issue (Publish (poll_topic (rid st) operationId) EmptyString) st) in
    match poll_wait script (millis st) st with
    | (PollReturns b, script', st) => (b, script', st)
    | (PollGoesOn, script', st) => poll_loop todo operationId script' (delay 1500 st)
    end.
Proof. reflexivity. Qed.

Lemma is_poll_poll_topic (r : Z) (operationId : string) :
  is_poll (Publish (poll_topic r operationId) EmptyString) = true.
Proof. reflexivity. Qed.

(** At most [todo] status polls are published. *)
Lemma poll_loop_polls (todo : nat) :
  forall (operationId : string) (script : list event) (st : sketch)
         (b : bool) (rest : list event) (st' : sketch),
    poll_loop todo operationId script st = (b, rest, st') ->
    (polls_issued st' <= polls_issued st + todo)%nat.
Proof.
  induction todo as [|todo IH]; intros operationId script st b rest st'.
  - cbn [poll_loop]. intros H. injection H as _ _ <-. lia.
  - rewrite poll_loop_step. cbv zeta.
    set (st1 := next_rid _).
    assert (P1 : polls_issued st1 = S (polls_issued st)).
    { subst st1. unfold polls_issued. cbn [requests next_rid set_rid issue filter].
      rewrite is_poll_poll_topic. reflexivity. }
    destruct (poll_wait script (millis st1) st1) as [[x script'] st2] eqn:W.
    pose proof (poll_wait_polls _ _ _ _ _ _ W) as P2.
    destruct x as [r|].
    + intros H. injection H as _ _ <-. lia.
    + intros H. apply IH in H.
      change (polls_issued (delay 1500 st2)) with (polls_issued st2) in H. lia.
Qed.

(** The poll loop reports success only with both globals filled. *)
Lemma poll_loop_true_filled (todo : nat) :
  forall (operationId : string) (script : list event) (st : sketch)
         (rest : list event) (st' : sketch),
    poll_loop todo operationId script st = (true, rest, st') ->
    nonempty (assignedHub st') && nonempty (deviceId st') = true.
Proof.
  induction todo as [|todo IH]; intros operationId script st rest st'.
  - cbn [poll_loop]. discriminate.
  - rewrite poll_loop_step. cbv zeta.
    set (st1 := next_rid _).
    destruct (poll_wait script (millis st1) st1) as [[x script'] st2] eqn:W.
    destruct x as [r|].
    + intros H. injection H as -> _ <-.
      symmetry. exact (poll_wait_result _ _ _ _ _ _ W).
    + apply IH.
Qed.

(** One attempt answered in time by a reply that is not the announcement:
    the loop moves on to the next attempt. *)
Lemma poll_loop_not_yet (todo : nat) (operationId : string) (a : arrival)
    (rest : list event) (st : sketch) :
  ready st -> timely 5000 a = true -> is_assigned_reply (what a) = false ->
  exists st',
    ready st' /\
    poll_loop (S todo) operationId (arrival_events a ++ rest)%list st
    = poll_loop todo operationId rest st'.
Proof.
  intros [F C] T E.
  unfold timely in T. apply andb_true_iff in T as [Tq Tt]. apply Z.ltb_lt in Tt.
  pose proof (forallb_nonneg_total _ Tq) as T0.
  rewrite poll_loop_step. cbv zeta.
  set (st1 := next_rid _).
  unfold arrival_events. rewrite <- app_assoc. cbn [app].
  unfold millis.
  rewrite poll_wait_quiet; [|exact F | exact Tq | lia | lia].
  rewrite poll_wait_not_yet;
    [|rewrite (elapsed_small (clock st1) _ 5000); cbn [clock set_clock]; lia
     |exact C | exact E].
  eexists. split; [|reflexivity].
  split; [reflexivity | exact C].
Qed.

Lemma poll_loop_not_yet_many (polls : list arrival) :
  forall (todo : nat) (operationId : string) (rest : list event) (st : sketch),
    ready st ->
    forallb (timely 5000) polls = true ->
    forallb (fun a => negb (is_assigned_reply (what a))) polls = true ->
    exists st',
      ready st' /\
      poll_loop (List.length polls + todo) operationId
        (flat_map arrival_events polls ++ rest)%list st
      = poll_loop todo operationId rest st'.
Proof.
  induction polls as [|a polls IH]; intros todo operationId rest st R T E.
  - exists st. split; [exact R | reflexivity].
  - cbn [forallb] in T, E.
    apply andb_true_iff in T as [Ta T]. apply andb_true_iff in E as [Ea E].
    apply negb_true_iff in Ea.
    cbn [flat_map List.length Nat.add]. rewrite <- app_assoc.
    destruct (poll_loop_not_yet (List.length polls + todo) operationId a
                (flat_map arrival_events polls ++ rest)%list st R Ta Ea)
      as (st1 & R1 & ->).
    exact (IH todo operationId rest st1 R1 T E).
Qed.

(** The attempt answered in time by the announcement ends the loop. *)
Lemma poll_loop_announced (todo : nat) (operationId : string) (a : arrival)
    (rest : list event) (st : sketch) :
  ready st -> timely 5000 a = true -> is_assigned_reply (what a) = true ->
  exists st',
    poll_loop (S todo) operationId (arrival_events a ++ rest)%list st
    = (nonempty (response_hub (what a)) && nonempty (response_deviceId (what a)),
       rest, st') /\
    assignedHub st' = response_hub (what a) /\
    deviceId st' = response_deviceId (what a).
Proof.
  intros [F C] T E.
  unfold timely in T. apply andb_true_iff in T as [Tq Tt]. apply Z.ltb_lt in Tt.
  pose proof (forallb_nonneg_total _ Tq) as T0.
  rewrite poll_loop_step. cbv zeta.
  set (st1 := next_rid _).
  unfold arrival_events. rewrite <- app_assoc. cbn [app].
  unfold millis.
  rewrite poll_wait_quiet; [|exact F | exact Tq | lia | lia].
  rewrite poll_wait_announced;
    [|rewrite (elapsed_small (clock st1) _ 5000); cbn [clock set_clock]; lia
     |exact C | exact E].
  eexists. split; [reflexivity|]. split; reflexivity.
Qed.

(** With nothing more to come every attempt runs for its 5000 ms, is
    followed by the pause of 1500 ms, and the loop gives up after the last
    one. *)
Lemma poll_loop_unanswered (todo : nat) :
  forall (operationId : string) (st : sketch),
    dpsMsgArrived st = false ->
    exists st',
      poll_loop todo operationId [] st = (false, [], st') /\
      polls_issued st' = (polls_issued st + todo)%nat /\
      clock st' = clock st + Z.of_nat todo * (5000 + 1500).
Proof.
  induction todo as [|todo IH]; intros operationId st F.
  - exists st. cbn [poll_loop]. repeat split; lia.
  - rewrite poll_loop_step. cbv zeta.
    set (st1 := next_rid _).
    assert (P1 : polls_issued st1 = S (polls_issued st)).
    { subst st1. unfold polls_issued. cbn [requests next_rid set_rid issue filter].
      rewrite is_poll_poll_topic. reflexivity. }
    assert (C1 : clock st1 = clock st) by reflexivity.
    assert (F1 : dpsMsgArrived st1 = false) by exact F.
    rewrite (poll_wait_nil_quiet (millis st1) st1 F1)
      by (rewrite elapsed_zero; lia).
    rewrite elapsed_zero.
    destruct (IH operationId (delay 1500 (delay (5000 - 0) st1)) F1)
      as (st' & E & P & C).
    exists st'. split; [exact E|].
    change (polls_issued (delay 1500 (delay (5000 - 0) st1)))
      with (polls_issued st1) in P.
    change (clock (delay 1500 (delay (5000 - 0) st1)))
      with (clock st1 + (5000 - 0) + 1500) in C.
    split; [lia|]. rewrite C, C1. lia.
Qed.

(** *** The whole handshake *)

Lemma nonempty_not_empty (s : string) :
  nonempty s = true -> String.eqb s EmptyString = false.
Proof. now destruct s. Qed.

Lemma registering_ready (cfg : config) (now : Z) (st : sketch) :
  dpsMsgArrived st = false -> ready (registering cfg now st).
Proof. intros F. split; [exact F | reflexivity]. Qed.

(** With a key that decodes and a connection that succeeds, the function
    is its two waits run from the [registering] state. *)
Lemma handshake_from_registering (cfg : config) (now : Z)
    (script : list event) (st : sketch) (key : bytes) :
  base64Decode (DPS_DEVICE_KEY_BASE64 cfg) KEY_BUFFER_SIZE = Some key ->
  dpsRegisterAndGetHub cfg now true script st
  = match register_wait script (millis (registering cfg now st))
            (registering cfg now st) with
    | (RegisterReturnsTrue, script', st') => (true, script', st')
    | (RegisterLeaves operationId, script', st') =>
        if String.eqb operationId EmptyString then (false, script', st')
        else poll_loop POLL_TRIES operationId script' st'
    end.
Proof.
  intros H. unfold dpsRegisterAndGetHub, registering. cbv zeta.
  rewrite (buildSasToken_nonempty _ _ _ key H). reflexivity.
Qed.

(** Success is reported only with both globals filled. *)
Lemma handshake_true_filled (cfg : config) (now : Z) (connect_ok : bool)
    (script rest : list event) (st st' : sketch) :
  dpsRegisterAndGetHub cfg now connect_ok script st = (true, rest, st') ->
  nonempty (assignedHub st') && nonempty (deviceId st') = true.
Proof.
  unfold dpsRegisterAndGetHub. cbv zeta.
  destruct (String.eqb _ EmptyString); [discriminate|].
  destruct connect_ok; [|discriminate]. cbn [negb].
  match goal with
  | |- context [register_wait script ?t ?s] =>
      destruct (register_wait script t s) as [[x script'] st1] eqn:W
  end.
  destruct x as [|operationId].
  - intros H. injection H as _ <-.
    exact (register_wait_true_filled _ _ _ _ _ W).
  - destruct (String.eqb operationId EmptyString); [discriminate|].
    apply poll_loop_true_filled.
Qed.

(** Whatever arrives, at most twenty status polls are published. *)
Lemma handshake_polls (cfg : config) (now : Z) (connect_ok : bool)
    (script rest : list event) (st st' : sketch) (b : bool) :
  dpsRegisterAndGetHub cfg now connect_ok script st = (b, rest, st') ->
  (polls_issued st' <= polls_issued st + POLL_TRIES)%nat.
Proof.
  unfold dpsRegisterAndGetHub. cbv zeta.
  destruct (String.eqb _ EmptyString);
    [intros H; injection H as _ _ <-; unfold polls_issued; cbn; lia|].
  destruct connect_ok; cbn [negb];
    [|intros H; injection H as _ _ <-; unfold polls_issued; cbn; lia].
  match goal with
  | |- context [register_wait script ?t ?s] =>
      assert (P0 : polls_issued s = polls_issued st) by reflexivity;
      destruct (register_wait script t s) as [[x script'] st1] eqn:W
  end.
  pose proof (register_wait_polls _ _ _ _ _ _ W) as P1.
  destruct x as [|operationId].
  - intros H. injection H as _ _ <-. lia.
  - destruct (String.eqb operationId EmptyString).
    + intros H. injection H as _ _ <-. lia.
    + intros H. apply poll_loop_polls in H. lia.
Qed.

Lemma timely_parts (bound : Z) (a : arrival) :
  timely bound a = true ->
  forallb (fun d => 0 <=? d) (quiet a) = true /\
  0 <= total (quiet a) < bound.
Proof.
  unfold timely. intros T. apply andb_true_iff in T as [Tq Tt].
  apply Z.ltb_lt in Tt. pose proof (forallb_nonneg_total _ Tq). auto.
Qed.

(** The first wait up to the delivery of a response that arrives in time. *)
Lemma register_wait_arrival (a : arrival) (rest : list event) (st : sketch) :
  ready st -> timely 20000 a = true ->
  register_wait (arrival_events a ++ rest)%list (millis st) st
  = register_wait (Event (carrier a) (Some (what a)) :: rest) (millis st)
      (set_clock (clock st + total (quiet a)) st) /\
  elapsed_since (millis st) (set_clock (clock st + total (quiet a)) st) < 20000.
Proof.
  intros [F C] T. destruct (timely_parts _ _ T) as [Tq Tt].
  unfold arrival_events. rewrite <- app_assoc. cbn [app]. unfold millis.
  rewrite register_wait_quiet; [|exact F | exact Tq | lia | lia].
  split; [reflexivity|].
  rewrite (elapsed_small (clock st) _ 20000); cbn [clock set_clock]; lia.
Qed.

(** An immediate assignment. *)
Lemma handshake_assigned_at_once (cfg : config) (now : Z) (st : sketch)
    (key : bytes) (a : arrival) (rest : list event) :
  base64Decode (DPS_DEVICE_KEY_BASE64 cfg) KEY_BUFFER_SIZE = Some key ->
  dpsMsgArrived st = false ->
  timely 20000 a = true ->
  response_code (what a) = 200 ->
  nonempty (response_hub (what a)) && nonempty (response_deviceId (what a)) = true ->
  provisioning_result
    (dpsRegisterAndGetHub cfg now true (arrival_events a ++ rest)%list st)
  = Assigned (response_hub (what a)) (response_deviceId (what a)).
Proof.
  intros K F T E N.
  rewrite (handshake_from_registering _ _ _ _ key K).
  pose proof (registering_ready cfg now st F) as R.
  destruct (register_wait_arrival a rest _ R T) as [-> L].
  rewrite register_wait_assigned; [reflexivity | exact L | apply R | exact E | exact N].
Qed.

(** Acceptance, replies that are not the announcement, then the
    announcement, all in time and within the twenty attempts. *)
Lemma handshake_assigned_after_polls (cfg : config) (now : Z) (st : sketch)
    (key : bytes) (a0 : arrival) (polls : list arrival) (alast : arrival)
    (rest : list event) :
  base64Decode (DPS_DEVICE_KEY_BASE64 cfg) KEY_BUFFER_SIZE = Some key ->
  dpsMsgArrived st = false ->
  timely 20000 a0 = true ->
  response_code (what a0) = 202 ->
  nonempty (response_operationId (what a0)) = true ->
  (List.length polls < POLL_TRIES)%nat ->
  forallb (timely 5000) polls = true ->
  forallb (fun a => negb (is_assigned_reply (what a))) polls = true ->
  timely 5000 alast = true ->
  is_assigned_reply (what alast) = true ->
  exists st',
    dpsRegisterAndGetHub cfg now true
      (arrival_events a0 ++ flat_map arrival_events polls ++
       arrival_events alast ++ rest)%list st
    = (nonempty (response_hub (what alast)) &&
       nonempty (response_deviceId (what alast)), rest, st') /\
    assignedHub st' = response_hub (what alast) /\
    deviceId st' = response_deviceId (what alast).
Proof.
  intros K F T0 E0 O Len Tp Ep Tl El.
  rewrite (handshake_from_registering _ _ _ _ key K).
  pose proof (registering_ready cfg now st F) as R.
  destruct (register_wait_arrival a0
              (flat_map arrival_events polls ++ arrival_events alast ++ rest)%list
              _ R T0) as [-> L].
  rewrite register_wait_accepted; [|exact L | apply R | exact E0].
  rewrite (nonempty_not_empty _ O).
  set (st1 := taken _ _ _).
  assert (R1 : ready st1) by (apply taken_ready; apply R).
  replace POLL_TRIES
    with (List.length polls + S (POLL_TRIES - S (List.length polls)))%nat by lia.
  destruct (poll_loop_not_yet_many polls (S (POLL_TRIES - S (List.length polls)))
              (response_operationId (what a0))
              (arrival_events alast ++ rest)%list st1 R1 Tp Ep)
    as (st2 & R2 & ->).
  exact (poll_loop_announced _ _ alast rest st2 R2 Tl El).
Qed.

(** No response with status 200 or 202: Failed, without a single poll. *)
Lemma handshake_runs_out (cfg : config) (now : Z) (connect_ok : bool)
    (script : list event) (st : sketch) :
  dpsMsgArrived st = false ->
  forallb no_200_202 script = true ->
  exists rest st',
    dpsRegisterAndGetHub cfg now connect_ok script st = (false, rest, st') /\
    polls_issued st' = polls_issued st.
Proof.
  intros F H. unfold dpsRegisterAndGetHub. cbv zeta.
  destruct (String.eqb _ EmptyString);
    [eexists _, _; split; reflexivity|].
  destruct connect_ok; cbn [negb]; [|eexists _, _; split; reflexivity].
  match goal with
  | |- context [register_wait script ?t ?s] =>
      assert (R : ready s) by (split; [exact F | reflexivity]);
      assert (P0 : polls_issued s = polls_issued st) by reflexivity;
      destruct (register_wait_runs_out script t s R H) as (rest & st' & -> & Q)
  end.
  change (String.eqb EmptyString EmptyString) with true. cbv iota.
  exists rest, st'. split; [reflexivity|].
  unfold polls_issued in *. now rewrite Q.
Qed.

(** Accepted, then never answered: twenty polls, each waited for in full,
    then Failed. *)
Lemma handshake_unanswered_polls (cfg : config) (now : Z) (st : sketch)
    (key : bytes) (a0 : arrival) :
  base64Decode (DPS_DEVICE_KEY_BASE64 cfg) KEY_BUFFER_SIZE = Some key ->
  dpsMsgArrived st = false ->
  timely 20000 a0 = true ->
  response_code (what a0) = 202 ->
  nonempty (response_operationId (what a0)) = true ->
  exists st',
    dpsRegisterAndGetHub cfg now true (arrival_events a0 ++ [])%list st
    = (false, [], st') /\
    polls_issued st' = (polls_issued st + POLL_TRIES)%nat /\
    clock st'
    = clock st + total (quiet a0) + carrier a0 +
      Z.of_nat POLL_TRIES * (5000 + 1500).
Proof.
  intros K F T0 E0 O.
  rewrite (handshake_from_registering _ _ _ _ key K).
  pose proof (registering_ready cfg now st F) as R.
  destruct (register_wait_arrival a0 [] _ R T0) as [-> L].
  rewrite register_wait_accepted; [|exact L | apply R | exact E0].
  rewrite (nonempty_not_empty _ O).
  destruct (poll_loop_unanswered POLL_TRIES (response_operationId (what a0))
              (taken (what a0) (carrier a0)
                 (set_clock (clock (registering cfg now st) + total (quiet a0))
                    (registering cfg now st))) eq_refl)
    as (st' & E & P & C).
  exists st'. split; [exact E|]. split; [exact P|]. exact C.
Qed.

Lemma is_silent_no_200_202 (script : list event) :
  forallb is_silent script = true -> forallb no_200_202 script = true.
Proof.
  induction script as [|ev script IH]; [reflexivity|].
  cbn [forallb]. intros H. apply andb_true_iff in H as [S H].
  rewrite (IH H), andb_true_r.
  unfold is_silent in S. unfold no_200_202. now destruct (incoming ev).
Qed.
End Handshake.

(** Beyond the twenty attempts the announcement is not read any more. *)
Example handshake_twenty_first_reply :
  provisioning_result
    (dpsRegisterAndGetHub sample_config 1700000000 true
       (arrival_events (at_once 3 response_accepted) ++
        flat_map arrival_events (repeat (at_once 2 response_assigning) 20) ++
        arrival_events (at_once 1 response_assigned))%list
       (boot 5000))
  = Failed.
Proof. vm_compute. reflexivity. Qed.

(** C6, as the code has it.  During the first wait a response whose status
    code is neither 202 nor 200 is passed over: the wait goes on with what
    is left of its twenty seconds, and a later response is still acted on.
    The attempt ends Failed when nothing but such responses, or nothing at
    all, arrives. *)
Theorem handshake_unexpected_status (cfg : config) (now : Z) (st : sketch) :
  dpsMsgArrived st = false ->
  (forall (d : Z) (m : message) (rest : list event) (t0 : Z) (s : sketch),
     elapsed_since t0 s < 20000 -> callback_set s = true ->
     response_code m <> 202 -> response_code m <> 200 ->
     register_wait (Event d (Some m) :: rest) t0 s
     = register_wait rest t0 (taken m d s)) /\
  (forall (connect_ok : bool) (script : list event),
     forallb no_200_202 script = true ->
     provisioning_result (dpsRegisterAndGetHub cfg now connect_ok script st)
     = Failed).
Proof.
  intros F. split.
  - intros d m rest t0 s L C E2 E0. now apply register_wait_unexpected.
  - intros connect_ok script H.
    destruct (handshake_runs_out cfg now connect_ok script st F H)
      as (rest & st' & -> & _).
    reflexivity.
Qed.

Lemma handshake_unexpected_status_witness :
  provisioning_result
    (dpsRegisterAndGetHub sample_config 1700000000 true
       [Event 3 (Some response_not_found); silent 700] (boot 5000))
  = Failed.
Proof.
  apply (proj2 (handshake_unexpected_status sample_config 1700000000 (boot 5000)
                  eq_refl)).
  vm_compute. reflexivity.
Defined.

(** C6, as the design document states it, fails: a status-404 response
    received during the first wait does not end the attempt, and the
    status-200 response that follows it is acted on. *)
Lemma handshake_survives_unexpected_status :
  response_code response_not_found = 404 /\
  provisioning_result
    (dpsRegisterAndGetHub sample_config 1700000000 true
       [Event 3 (Some response_not_found); Event 3 (Some response_assigned)]
       (boot 5000))
  = Assigned "hub1.azure-devices.net" "dev-1" /\
  provisioning_result
    (dpsRegisterAndGetHub sample_config 1700000000 true
       [Event 3 (Some response_not_found); Event 3 (Some response_assigned)]
       (boot 5000))
  <> Failed.
Proof.
  assert (A : provisioning_result
                (dpsRegisterAndGetHub sample_config 1700000000 true
                   [Event 3 (Some response_not_found);
                    Event 3 (Some response_assigned)] (boot 5000))
              = Assigned "hub1.azure-devices.net" "dev-1")
    by (vm_compute; reflexivity).
  split; [vm_compute; reflexivity|]. split; [exact A|].
  rewrite A. discriminate.
Qed.

(** C10. [jsonGet] returns the empty string both for a text without the key
    and for a text in which the key's value is empty.  The handshake reaches
    Assigned only with a non-empty hub and a non-empty device id: a
    status-200 response in which one of the two reads empty, whether
    present and empty or missing, is passed over in the first wait, and
    makes the poll loop return failure. *)
Theorem empty_field_reads_as_absent :
  (forall s key : string,
     occurs (field_pattern key) s = false -> jsonGet s key = EmptyString) /\
  (forall pre key post : string,
     String.index 0 (field_pattern key) (pre ++ field_pattern key ++ DQ ++ post)
     = Some (String.length pre) ->
     jsonGet (pre ++ field_pattern key ++ DQ ++ post) key = EmptyString) /\
  (forall (cfg : config) (now : Z) (connect_ok : bool) (script : list event)
          (st : sketch) (hub dev : string),
     provisioning_result (dpsRegisterAndGetHub cfg now connect_ok script st)
     = Assigned hub dev ->
     hub <> EmptyString /\ dev <> EmptyString) /\
  (forall (cfg : config) (now : Z) (st : sketch) (key : bytes) (a : arrival)
          (rest : list event),
     base64Decode (DPS_DEVICE_KEY_BASE64 cfg) KEY_BUFFER_SIZE = Some key ->
     dpsMsgArrived st = false ->
     timely 20000 a = true ->
     response_code (what a) = 200 ->
     nonempty (response_hub (what a)) && nonempty (response_deviceId (what a))
     = false ->
     forallb no_200_202 rest = true ->
     provisioning_result
       (dpsRegisterAndGetHub cfg now true (arrival_events a ++ rest)%list st)
     = Failed) /\
  (forall (cfg : config) (now : Z) (st : sketch) (key : bytes)
          (a0 : arrival) (polls : list arrival) (alast : arrival)
          (rest : list event),
     base64Decode (DPS_DEVICE_KEY_BASE64 cfg) KEY_BUFFER_SIZE = Some key ->
     dpsMsgArrived st = false ->
     timely 20000 a0 = true ->
     response_code (what a0) = 202 ->
     nonempty (response_operationId (what a0)) = true ->
     (List.length polls < POLL_TRIES)%nat ->
     forallb (timely 5000) polls = true ->
     forallb (fun a => negb (is_assigned_reply (what a))) polls = true ->
     timely 5000 alast = true ->
     is_assigned_reply (what alast) = true ->
     nonempty (response_hub (what alast)) &&
     nonempty (response_deviceId (what alast)) = false ->
     provisioning_result
       (dpsRegisterAndGetHub cfg now true
          (arrival_events a0 ++ flat_map arrival_events polls ++
           arrival_events alast ++ rest)%list st)
     = Failed).
Proof.
  split; [exact jsonGet_absent|].
  split.
  { intros pre key post H.
    exact (jsonGet_value pre key EmptyString post H eq_refl). }
  split.
  { intros cfg now connect_ok script st hub dev.
    destruct (dpsRegisterAndGetHub cfg now connect_ok script st)
      as [[b rest] st'] eqn:E.
    cbn [provisioning_result]. destruct b; [|discriminate].
    intros H. injection H as <- <-.
    pose proof (handshake_true_filled _ _ _ _ _ _ _ E) as N.
    apply andb_true_iff in N as [Nh Nd].
    split; intros Z0; [rewrite Z0 in Nh | rewrite Z0 in Nd]; discriminate. }
  split.
  { intros cfg now st key a rest K F T E N H.
    rewrite (handshake_from_registering _ _ _ _ key K).
    pose proof (registering_ready cfg now st F) as R.
    destruct (register_wait_arrival a rest _ R T) as [-> L].
    rewrite register_wait_unusable; [|exact L | apply R | exact E | exact N].
    match goal with
    | |- context [register_wait rest ?t ?s] =>
        assert (R1 : ready s) by (split; [reflexivity | apply R]);
        destruct (register_wait_runs_out rest t s R1 H) as (r & st' & -> & _)
    end.
    reflexivity. }
  intros cfg now st key a0 polls alast rest K F T0 E0 O Len Tp Ep Tl El N.
  destruct (handshake_assigned_after_polls cfg now st key a0 polls alast rest
              K F T0 E0 O Len Tp Ep Tl El) as (st' & -> & _).
  rewrite N. reflexivity.
Qed.

Lemma empty_field_reads_as_absent_witness :
  jsonGet (json "{'deviceId':'dev-1'}") "assignedHub" = EmptyString /\
  jsonGet (json "{" ++ field_pattern "assignedHub" ++ DQ ++ json ",'deviceId':'dev-1'}")
    "assignedHub" = EmptyString /\
  provisioning_result
    (dpsRegisterAndGetHub sample_config 1700000000 true
       (arrival_events (at_once 3 response_empty_hub) ++ [])%list (boot 5000))
  = Failed /\
  provisioning_result
    (dpsRegisterAndGetHub sample_config 1700000000 true
       (arrival_events (at_once 3 response_no_hub) ++ [])%list (boot 5000))
  = Failed.
Proof.
  assert (K : base64Decode (DPS_DEVICE_KEY_BASE64 sample_config) KEY_BUFFER_SIZE
              = Some [105; 183; 53; 219]) by (vm_compute; reflexivity).
  destruct empty_field_reads_as_absent as (A & B & _ & D & _).
  split; [apply A; vm_compute; reflexivity|].
  split; [apply B; vm_compute; reflexivity|].
  split.
  - apply (D sample_config 1700000000 (boot 5000) [105; 183; 53; 219]
             (at_once 3 response_empty_hub) [] K eq_refl);
      vm_compute; reflexivity.
  - apply (D sample_config 1700000000 (boot 5000) [105; 183; 53; 219]
             (at_once 3 response_no_hub) [] K eq_refl);
      vm_compute; reflexivity.
Defined.

(* ================================================================== *)
(** ** The IoT Hub session                                             *)
(* ================================================================== *)

Section Session.

Variable snprintf_telemetry : float32 -> float32 -> float32 -> Z -> string.
Variable cfg : config.

Lemma ensureIoTHubMqtt_connected (now : Z) (connect_ok : bool) (st : sketch) :
  connected st = true ->
  ensureIoTHubMqtt cfg now connect_ok st = (true, st).
Proof. intros C. unfold ensureIoTHubMqtt. now rewrite C. Qed.

Lemma ensureIoTHubMqtt_disconnected (now : Z) (connect_ok : bool) (st : sketch) :
  connected st = false ->
  exists st',
    ensureIoTHubMqtt cfg now connect_ok st = (connect_ok, st') /\
    sasExpiry st' = now + SAS_TTL_SECS /\
    connected st' = connect_ok /\
    requests st'
    = Connect (assignedHub st) (deviceId st)
        (buildIoTHubUsername (assignedHub st) (deviceId st))
        (buildSasToken (assignedHub st ++ "/devices/" ++ deviceId st)
           (DPS_DEVICE_KEY_BASE64 cfg) (now + SAS_TTL_SECS))
      :: requests st.
Proof.
  intros C. unfold ensureIoTHubMqtt, buildIoTHubSas. rewrite C.
  eexists. split; [reflexivity|]. repeat split.
Qed.

(** A pass of [loop()] that finds the link up services the session and
    neither connects nor touches the expiry. *)
Lemma loop_connected (t : tick) (st : sketch) :
  connected st = true -> tick_link_lost t = false ->
  exists r st',
    loop snprintf_telemetry cfg t st = (r, st') /\
    r <> BackedOff /\
    connected st' = true /\
    sasExpiry st' = sasExpiry st /\
    connects_issued st' = connects_issued st.
Proof.
  intros C L. unfold loop. rewrite L.
  rewrite (ensureIoTHubMqtt_connected _ _ _ C). cbn [negb].
  assert (M : connected (mqtt_loop (tick_service t) st) = true /\
              sasExpiry (mqtt_loop (tick_service t) st) = sasExpiry st /\
              connects_issued (mqtt_loop (tick_service t) st)
              = connects_issued st).
  { unfold mqtt_loop. destruct (incoming (tick_service t)); [|now split].
    destruct (callback_set _); now split. }
  destruct M as (M1 & M2 & M3).
  set (st1 := mqtt_loop (tick_service t) st) in *.
  destruct (SEND_INTERVAL_MS <=? _).
  - destruct (f32_isnan (tick_humidity t) || f32_isnan (tick_temperature t)).
    + eexists _, _. split; [reflexivity|]. repeat split; try discriminate; assumption.
    + eexists _, _. split; [reflexivity|].
      unfold publishTelemetry.
      destruct (String.length _ =? 0)%nat;
        repeat split; try discriminate; assumption.
  - eexists _, _. split; [reflexivity|]. repeat split; try discriminate; assumption.
Qed.

Lemma run_loop_connected (ticks : list tick) :
  forall st : sketch,
    connected st = true ->
    forallb (fun t => negb (tick_link_lost t)) ticks = true ->
    sasExpiry (snd (run_loop snprintf_telemetry cfg ticks st)) = sasExpiry st /\
    connects_issued (snd (run_loop snprintf_telemetry cfg ticks st))
    = connects_issued st /\
    Forall (fun o => snd (fst o) = true /\ snd o = sasExpiry st)
      (fst (run_loop snprintf_telemetry cfg ticks st)).
Proof.
  induction ticks as [|t ticks IH]; intros st C H.
  - cbn [run_loop snd fst]. repeat split. constructor.
  - cbn [forallb] in H. apply andb_true_iff in H as [L H].
    apply negb_true_iff in L.
    destruct (loop_connected t st C L) as (r & st1 & E & NB & C1 & S1 & N1).
    cbn [run_loop]. rewrite E.
    destruct (IH st1 C1 H) as (S2 & N2 & F2).
    destruct (run_loop snprintf_telemetry cfg ticks st1) as [obs st2].
    cbn [snd fst] in *.
    split; [congruence|]. split; [congruence|].
    constructor.
    + cbn [fst snd]. split; [now destruct r | exact S1].
    + rewrite <- S1. exact F2.
Qed.

End Session.

(** C8, as the code has it.  The token is derived, with an expiry one hour
    after the time of the attempt, whenever [ensureIoTHubMqtt] is called
    with the link down, and it is the password of that connection attempt;
    with the link up the function does nothing.  So through any run of the
    main loop in which the link stays up, every pass services the session
    under the same token expiry and no connection attempt is made, whatever
    the time. *)
Theorem session_token_on_connect_only
    (snprintf_telemetry : float32 -> float32 -> float32 -> Z -> string)
    (cfg : config) (ticks : list tick) (st : sketch) :
  connected st = true ->
  forallb (fun t => negb (tick_link_lost t)) ticks = true ->
  (forall (now : Z) (connect_ok : bool),
     ensureIoTHubMqtt cfg now connect_ok st = (true, st)) /\
  (forall (now : Z) (connect_ok : bool) (s : sketch),
     connected s = false ->
     exists s',
       ensureIoTHubMqtt cfg now connect_ok s = (connect_ok, s') /\
       sasExpiry s' = now + SAS_TTL_SECS /\
       connected s' = connect_ok /\
       requests s'
       = Connect (assignedHub s) (deviceId s)
           (buildIoTHubUsername (assignedHub s) (deviceId s))
           (buildSasToken (assignedHub s ++ "/devices/" ++ deviceId s)
              (DPS_DEVICE_KEY_BASE64 cfg) (now + SAS_TTL_SECS))
         :: requests s) /\
  sasExpiry (snd (run_loop snprintf_telemetry cfg ticks st)) = sasExpiry st /\
  connects_issued (snd (run_loop snprintf_telemetry cfg ticks st))
  = connects_issued st /\
  Forall (fun o => snd (fst o) = true /\ snd o = sasExpiry st)
    (fst (run_loop snprintf_telemetry cfg ticks st)).
Proof.
  intros C H.
  split; [intros now connect_ok; now apply ensureIoTHubMqtt_connected|].
  split; [intros now connect_ok s Cs; now apply ensureIoTHubMqtt_disconnected|].
  now apply run_loop_connected.
Qed.

(** C8, as the design document states it, fails.  After provisioning, the
    first pass connects at 1700000010 with a token that expires at
    1700003610; the pass at 1700003611 finds the link up and services the
    session under that same token. *)
Lemma session_serviced_past_expiry :
  fst (run_loop sample_snprintf sample_config
         [steady_tick 1700000010; steady_tick 1700003611] sample_provisioned)
  = [(1700000010, true, 1700003610); (1700003611, true, 1700003610)] /\
  ~ never_serviced_past_expiry
      (fst (run_loop sample_snprintf sample_config
              [steady_tick 1700000010; steady_tick 1700003611]
              sample_provisioned)).
Proof.
  assert (E : fst (run_loop sample_snprintf sample_config
                     [steady_tick 1700000010; steady_tick 1700003611]
                     sample_provisioned)
              = [(1700000010, true, 1700003610); (1700003611, true, 1700003610)])
    by (vm_compute; reflexivity).
  split; [exact E|].
  rewrite E. intros N. unfold never_serviced_past_expiry in N.
  inversion N as [|o l _ N1]; subst. inversion N1 as [|o' l' H _]; subst.
  specialize (H eq_refl). lia.
Qed.

Lemma session_token_on_connect_only_witness :
  connected (snd (loop sample_snprintf sample_config (steady_tick 1700000010)
                    sample_provisioned)) = true /\
  sasExpiry
    (snd (run_loop sample_snprintf sample_config
            [steady_tick 1700003611; steady_tick 1700007300]
            (snd (loop sample_snprintf sample_config (steady_tick 1700000010)
                    sample_provisioned))))
  = 1700003610.
Proof.
  assert (C : connected
                (snd (loop sample_snprintf sample_config
                        (steady_tick 1700000010) sample_provisioned)) = true)
    by (vm_compute; reflexivity).
  split; [exact C|].
  destruct (session_token_on_connect_only sample_snprintf sample_config
              [steady_tick 1700003611; steady_tick 1700007300] _ C eq_refl)
    as (_ & _ & S & _).
  rewrite S. vm_compute. reflexivity.
Defined.

(* ================================================================== *)
(** ** Soil reading to percent                                         *)
(* ================================================================== *)

Lemma constrain_bounds (raw low high : Z) :
  low <= high -> low <= constrain raw low high <= high.
Proof.
  intros H. unfold constrain.
  destruct (Z.ltb_spec raw low); [lia|].
  destruct (Z.gtb_spec raw high); lia.
Qed.

Lemma constrain_inside (raw low high : Z) :
  low <= raw <= high -> constrain raw low high = raw.
Proof.
  intros H. unfold constrain.
  destruct (Z.ltb_spec raw low); [lia|].
  destruct (Z.gtb_spec raw high); lia.
Qed.

Lemma constrain_monotone (a b low high : Z) :
  low <= high -> a <= b -> constrain a low high <= constrain b low high.
Proof.
  intros H L. unfold constrain.
  destruct (Z.ltb_spec a low), (Z.ltb_spec b low);
    destruct (Z.gtb_spec a high), (Z.gtb_spec b high); lia.
Qed.

(** The result only depends on the clamped reading. *)
Lemma soilRawToPercent_clamped (raw : Z) :
  soilRawToPercent raw
  = soilRawToPercent (constrain raw SOIL_RAW_WET SOIL_RAW_DRY).
Proof.
  unfold soilRawToPercent, soilRawToPercent_with.
  rewrite (constrain_inside (constrain raw SOIL_RAW_WET SOIL_RAW_DRY));
    [reflexivity|].
  apply constrain_bounds. unfold SOIL_RAW_WET, SOIL_RAW_DRY. lia.
Qed.

Lemma soil_value_clamped (raw : Z) :
  soil_value raw = soil_value (constrain raw SOIL_RAW_WET SOIL_RAW_DRY).
Proof. unfold soil_value. now rewrite soilRawToPercent_clamped. Qed.

Lemma soil_exact_clamped (dry wet raw : Z) :
  wet <= dry ->
  soil_percent_exact dry wet raw
  = soil_percent_exact dry wet (constrain raw wet dry).
Proof.
  intros H. unfold soil_percent_exact.
  rewrite (constrain_inside (constrain raw wet dry)); [reflexivity|].
  now apply constrain_bounds.
Qed.

(** Every reading of the calibration range passes the check: all 1801 are
    evaluated. *)
Lemma soil_table : soil_table_ok = true.
Proof. vm_compute. reflexivity. Qed.

Lemma soil_check_range (raw : Z) :
  SOIL_RAW_WET <= raw <= SOIL_RAW_DRY -> soil_check raw = true.
Proof.
  intros H. pose proof soil_table as T. unfold soil_table_ok in T.
  rewrite forallb_forall in T. apply T.
  apply in_map_iff. exists (Z.to_nat (raw - SOIL_RAW_WET)).
  unfold SOIL_RAW_WET, SOIL_RAW_DRY in *.
  split; [lia|]. apply in_seq. lia.
Qed.

Lemma soil_check_facts (raw : Z) :
  soil_check raw = true ->
  exists q,
    f32_value (soilRawToPercent raw) = Some q /\
    (0 <= q)%Q /\ (q <= 100)%Q /\
    (Qabs (q - soil_percent_exact SOIL_RAW_DRY SOIL_RAW_WET raw) <= 1 # 262144)%Q /\
    (soil_value (raw + 1) <= q)%Q.
Proof.
  unfold soil_check, soil_value.
  destruct (f32_value (soilRawToPercent raw)) as [q|]; [|discriminate].
  destruct (f32_value (soilRawToPercent (raw + 1))) as [q'|]; [|discriminate].
  intros H. repeat (apply andb_true_iff in H as [H ?]).
  exists q. repeat split; try (apply Qle_bool_iff; assumption).
Qed.

Lemma soil_value_step (raw : Z) :
  SOIL_RAW_WET <= raw <= SOIL_RAW_DRY ->
  (soil_value (raw + 1) <= soil_value raw)%Q.
Proof.
  intros H.
  destruct (soil_check_facts raw (soil_check_range raw H))
    as (q & E & _ & _ & _ & S).
  unfold soil_value at 2. now rewrite E.
Qed.

Lemma soil_value_chain (n : nat) :
  forall raw : Z,
    SOIL_RAW_WET <= raw -> raw + Z.of_nat n <= SOIL_RAW_DRY ->
    (soil_value (raw + Z.of_nat n) <= soil_value raw)%Q.
Proof.
  induction n as [|n IH]; intros raw L H.
  - rewrite Z.add_0_r. apply Qle_refl.
  - rewrite Nat2Z.inj_succ in *.
    apply Qle_trans with (soil_value (raw + Z.of_nat n)).
    + replace (raw + Z.succ (Z.of_nat n)) with (raw + Z.of_nat n + 1) by lia.
      apply soil_value_step. lia.
    + apply IH; lia.
Qed.

Lemma soil_value_monotone (raw1 raw2 : Z) :
  raw1 <= raw2 -> (soil_value raw2 <= soil_value raw1)%Q.
Proof.
  intros H.
  rewrite (soil_value_clamped raw1), (soil_value_clamped raw2).
  assert (B : SOIL_RAW_WET <= SOIL_RAW_DRY) by (unfold SOIL_RAW_WET, SOIL_RAW_DRY; lia).
  pose proof (constrain_bounds raw1 _ _ B) as B1.
  pose proof (constrain_bounds raw2 _ _ B) as B2.
  pose proof (constrain_monotone raw1 raw2 _ _ B H) as M.
  set (c1 := constrain raw1 SOIL_RAW_WET SOIL_RAW_DRY) in *.
  set (c2 := constrain raw2 SOIL_RAW_WET SOIL_RAW_DRY) in *.
  replace c2 with (c1 + Z.of_nat (Z.to_nat (c2 - c1))) by lia.
  apply soil_value_chain; lia.
Qed.

(** The exact value of the formula, for any calibration with
    [wet < dry]. *)
Lemma soil_exact_bounds (dry wet raw : Z) :
  wet < dry ->
  (0 <= soil_percent_exact dry wet raw)%Q /\
  (soil_percent_exact dry wet raw <= 100)%Q.
Proof.
  intros H. unfold soil_percent_exact.
  pose proof (constrain_bounds raw wet dry ltac:(lia)) as B.
  set (c := constrain raw wet dry) in *.
  assert (D : (0 < inject_Z (dry - wet))%Q)
    by (rewrite <- (Zlt_Qlt 0); lia).
  assert (K0 : (0 <= inject_Z (dry - c))%Q)
    by (rewrite <- (Zle_Qle 0); lia).
  assert (K1 : (inject_Z (dry - c) <= inject_Z (dry - wet))%Q)
    by (rewrite <- Zle_Qle; lia).
  split.
  - apply Qle_shift_div_l; [exact D|].
    rewrite Qmult_0_l.
    apply Qmult_le_0_compat; [discriminate | exact K0].
  - apply Qle_shift_div_r; [exact D|].
    apply Qmult_le_l; [reflexivity | exact K1].
Qed.

Lemma soil_exact_monotone (dry wet raw1 raw2 : Z) :
  wet < dry -> raw1 <= raw2 ->
  (soil_percent_exact dry wet raw2 <= soil_percent_exact dry wet raw1)%Q.
Proof.
  intros H L. unfold soil_percent_exact.
  pose proof (constrain_monotone raw1 raw2 wet dry ltac:(lia) L) as M.
  unfold Qdiv. apply Qmult_le_compat_r.
  - apply Qmult_le_l; [reflexivity|]. rewrite <- Zle_Qle. lia.
  - apply Qinv_le_0_compat. rewrite <- (Zle_Qle 0). lia.
Qed.

(** C7. With the sketch's calibration ([wet] 1200 below [dry] 3000) the
    single-precision result is, for every integer reading, a finite number
    between 0 and 100, equal to the quotient
    [100 * (dry - clamp raw) / (dry - wet)] of the clamped reading up to its
    rounding (at most [2^-18]), and non-increasing in the reading; readings
    3000, 1200 and 600 give 0, 100 and 100.  For any calibration with
    [wet < dry] the exact value of the quotient lies between 0 and 100 and
    is non-increasing in the reading. *)
Theorem soilRawToPercent_monotone_bounded :
  (forall raw : Z,
     exists q : Q,
       f32_value (soilRawToPercent raw) = Some q /\
       (0 <= q)%Q /\ (q <= 100)%Q /\
       (Qabs (q - soil_percent_exact SOIL_RAW_DRY SOIL_RAW_WET raw)
        <= 1 # 262144)%Q) /\
  (forall raw1 raw2 : Z,
     raw1 <= raw2 -> (soil_value raw2 <= soil_value raw1)%Q) /\
  (forall raw : Z,
     soilRawToPercent raw
     = f32_div
         (f32_mul (f32_of_int 100)
            (f32_of_int (SOIL_RAW_DRY - constrain raw SOIL_RAW_WET SOIL_RAW_DRY)))
         (f32_of_int (SOIL_RAW_DRY - SOIL_RAW_WET))) /\
  soilRawToPercent 3000 = f32_of_int 0 /\
  soilRawToPercent 1200 = f32_of_int 100 /\
  soilRawToPercent 600 = f32_of_int 100 /\
  (forall dry wet : Z,
     wet < dry ->
     (forall raw : Z,
        (0 <= soil_percent_exact dry wet raw)%Q /\
        (soil_percent_exact dry wet raw <= 100)%Q) /\
     (forall raw1 raw2 : Z,
        raw1 <= raw2 ->
        (soil_percent_exact dry wet raw2 <= soil_percent_exact dry wet raw1)%Q)).
Proof.
  split.
  { intros raw. rewrite soilRawToPercent_clamped.
    rewrite (soil_exact_clamped SOIL_RAW_DRY SOIL_RAW_WET raw)
      by (unfold SOIL_RAW_WET, SOIL_RAW_DRY; lia).
    set (c := constrain raw SOIL_RAW_WET SOIL_RAW_DRY).
    assert (B : SOIL_RAW_WET <= c <= SOIL_RAW_DRY)
      by (apply constrain_bounds; unfold SOIL_RAW_WET, SOIL_RAW_DRY; lia).
    destruct (soil_check_facts c (soil_check_range c B))
      as (q & E & Q0 & Q1 & Q2 & _).
    exists q. auto. }
  split; [exact soil_value_monotone|].
  split; [reflexivity|].
  split; [vm_compute; reflexivity|].
  split; [vm_compute; reflexivity|].
  split; [vm_compute; reflexivity|].
  intros dry wet H. split.
  - intros raw. now apply soil_exact_bounds.
  - intros raw1 raw2 L. now apply soil_exact_monotone.
Qed.

Lemma soilRawToPercent_monotone_bounded_witness :
  1200 < 3000 /\
  (soil_percent_exact 3000 1200 600 <= 100)%Q /\
  (soil_percent_exact 3000 1200 3000 <= soil_percent_exact 3000 1200 600)%Q.
Proof.
  split; [lia|].
  destruct soilRawToPercent_monotone_bounded as (_ & _ & _ & _ & _ & _ & G).
  destruct (G 3000 1200 ltac:(lia)) as [B M].
  split; [apply (B 600) | apply (M 600 3000); lia].
Defined.

(* ================================================================== *)
(** ** More on URL encoding                                            *)
(* ================================================================== *)

Lemma all_chars_append (P : ascii -> bool) (s t : string) :
  all_chars P (s ++ t) = all_chars P s && all_chars P t.
Proof.
  induction s as [|a s IH]; simpl; [reflexivity|].
  now rewrite IH, andb_assoc.
Qed.

Lemma count_chars_append (P : ascii -> bool) (s t : string) :
  count_chars P (s ++ t) = (count_chars P s + count_chars P t)%nat.
Proof.
  induction s as [|a s IH]; simpl; [reflexivity|]. rewrite IH. lia.
Qed.

Lemma all_chars_no_occurs (P : ascii -> bool) (c : ascii) (s : string) :
  all_chars P s = true -> P c = false ->
  occurs (String c EmptyString) s = false.
Proof.
  intros H N. induction s as [|b s IH]; [reflexivity|].
  cbn [all_chars] in H. apply andb_true_iff in H as [Hb H].
  cbn [occurs]. rewrite (IH H), orb_false_r.
  simpl. destruct (ascii_dec c b) as [->|_]; [congruence | reflexivity].
Qed.

Lemma encode_byte_safe (a : ascii) : all_chars url_safe (encode_byte a) = true.
Proof. destruct a as [[] [] [] [] [] [] [] []]; vm_compute; reflexivity. Qed.

Lemma encode_byte_length (a : ascii) :
  String.length (encode_byte a)
  = if in_unreserved_set a then 1%nat else 3%nat.
Proof. unfold encode_byte. now destruct (in_unreserved_set a). Qed.

(** X1. [urlEncode] works byte by byte: the encoding of a concatenation is
    the concatenation of the encodings, so a resource URI can be encoded
    piece by piece. *)
Theorem urlEncode_concatenation (s t : string) :
  urlEncode (s ++ t) = urlEncode s ++ urlEncode t.
Proof. apply urlEncode_append. Qed.

(** X2. The output of [urlEncode] holds unreserved characters and percent
    signs only; whatever is outside that alphabet, the delimiters [&], [=],
    [/], [+], the blank and the line feed among them, does not occur in
    it. *)
Theorem urlEncode_alphabet (s : string) :
  all_chars url_safe (urlEncode s) = true /\
  (forall c : ascii,
     url_safe c = false -> occurs (String c EmptyString) (urlEncode s) = false) /\
  url_safe "&" = false /\ url_safe "=" = false /\ url_safe "/" = false /\
  url_safe "+" = false /\ url_safe " " = false /\ url_safe "010" = false.
Proof.
  assert (A : all_chars url_safe (urlEncode s) = true).
  { unfold urlEncode. rewrite urlEncode_as_rule.
    induction s as [|a s IH]; [reflexivity|].
    cbn [urlEncode_rule]. now rewrite all_chars_append, encode_byte_safe, IH. }
  split; [exact A|]. split.
  - intros c N. now apply (all_chars_no_occurs url_safe).
  - repeat split; reflexivity.
Qed.

Lemma urlEncode_length_count (s : string) :
  String.length (urlEncode s)
  = (String.length s
     + 2 * count_chars (fun a => negb (in_unreserved_set a)) s)%nat.
Proof.
  unfold urlEncode. rewrite urlEncode_as_rule.
  induction s as [|a s IH]; [reflexivity|].
  cbn [urlEncode_rule String.length count_chars].
  rewrite length_append, encode_byte_length, IH.
  destruct (in_unreserved_set a); cbn [negb]; lia.
Qed.

(** X3. The encoding is two characters longer for every byte outside the
    unreserved set: its length lies between the length of the input and
    three times that length. *)
Theorem urlEncode_length (s : string) :
  String.length (urlEncode s)
  = (String.length s
     + 2 * count_chars (fun a => negb (in_unreserved_set a)) s)%nat /\
  (String.length s <= String.length (urlEncode s) <= 3 * String.length s)%nat.
Proof.
  pose proof (urlEncode_length_count s) as E.
  split; [exact E|].
  assert (B : (count_chars (fun a => negb (in_unreserved_set a)) s
               <= String.length s)%nat).
  { clear E. induction s as [|a s IH]; simpl; [lia|].
    destruct (negb (in_unreserved_set a)); lia. }
  lia.
Qed.

(** X4. [urlEncode] is injective: two resource URIs with the same encoding
    are the same byte string. *)
Theorem urlEncode_injective (s t : string) :
  urlEncode s = urlEncode t -> s = t.
Proof.
  unfold urlEncode. rewrite !urlEncode_as_rule. intros H.
  rewrite <- (percentDecode_urlEncode_rule s), <- (percentDecode_urlEncode_rule t).
  now rewrite H.
Qed.

Lemma urlEncode_injective_witness :
  urlEncode "a/b" = urlEncode ("a" ++ "/b") /\ "a/b" = "a" ++ "/b".
Proof.
  assert (H : urlEncode "a/b" = urlEncode ("a" ++ "/b")) by reflexivity.
  split; [exact H | exact (urlEncode_injective _ _ H)].
Defined.

(** X5. The strings [urlEncode] leaves unchanged are exactly those made of
    unreserved characters; any other string grows, so encoding twice is not
    encoding once. *)
Theorem urlEncode_fixed_points (s : string) :
  urlEncode s = s <-> all_chars in_unreserved_set s = true.
Proof.
  split.
  - intros H.
    pose proof (urlEncode_length_count s) as E. rewrite H in E.
    assert (Z0 : count_chars (fun a => negb (in_unreserved_set a)) s = O) by lia.
    clear H E. induction s as [|a s IH]; [reflexivity|].
    cbn [count_chars all_chars] in *.
    destruct (in_unreserved_set a); cbn [negb] in Z0; [|discriminate].
    apply IH. exact Z0.
  - intros H. unfold urlEncode. rewrite urlEncode_as_rule.
    induction s as [|a s IH]; [reflexivity|].
    cbn [all_chars] in H. apply andb_true_iff in H as [Ha H].
    cbn [urlEncode_rule]. unfold encode_byte. rewrite Ha, (IH H). reflexivity.
Qed.

(* ================================================================== *)
(** ** More on the SAS token                                           *)
(* ================================================================== *)

Lemma tolower_idempotent (c : ascii) :
  WString.tolower (WString.tolower c) = WString.tolower c.
Proof. destruct c as [[] [] [] [] [] [] [] []]; reflexivity. Qed.

Lemma toLowerCase_idempotent (s : string) :
  WString.toLowerCase (WString.toLowerCase s) = WString.toLowerCase s.
Proof.
  induction s as [|c s IH]; simpl; [reflexivity|].
  now rewrite tolower_idempotent, IH.
Qed.

(** X6. [buildSasToken] returns the empty string exactly when the secret
    does not decode into the 64-byte key buffer: the caller's test for an
    empty token is a test for a bad key, whatever the URI and the expiry. *)
Theorem buildSasToken_empty_iff (resourceUri keyBase64 : string) (expiry : Z) :
  buildSasToken resourceUri keyBase64 expiry = EmptyString
  <-> base64Decode keyBase64 KEY_BUFFER_SIZE = None.
Proof.
  destruct (base64Decode keyBase64 KEY_BUFFER_SIZE) as [key|] eqn:E.
  - rewrite (buildSasToken_decoded _ _ _ key E).
    split; intros H; discriminate.
  - unfold buildSasToken. rewrite E. split; reflexivity.
Qed.

(** X7. The token does not depend on the letter case of the resource URI,
    nor on the expiry beyond its low 32 bits: lower-casing the URI first, or
    adding a multiple of [2^32] to the expiry, gives the same token. *)
Theorem buildSasToken_normalises (resourceUri keyBase64 : string)
    (expiry k : Z) :
  buildSasToken (WString.toLowerCase resourceUri) keyBase64 expiry
  = buildSasToken resourceUri keyBase64 expiry /\
  buildSasToken resourceUri keyBase64 (expiry + k * 2 ^ 32)
  = buildSasToken resourceUri keyBase64 expiry.
Proof.
  unfold buildSasToken, WString.to_ulong. split.
  - now rewrite toLowerCase_idempotent.
  - now rewrite Z.mod_add by lia.
Qed.

(* ================================================================== *)
(** ** More on the status code of a topic                              *)
(* ================================================================== *)

Lemma atol_three_digits (d1 d2 d3 : Z) :
  0 <= d1 < 10 -> 0 <= d2 < 10 -> 0 <= d3 < 10 ->
  WString.toInt (three_digits d1 d2 d3) = 100 * d1 + 10 * d2 + d3.
Proof.
  intros H1 H2 H3. unfold three_digits, digit_char.
  rewrite (toInt_digit_head d1 _ H1).
  cbn [WString.atol_digits].
  rewrite !digit_of_ultoa by assumption. lia.
Qed.

(** X8. When the first ["/res/"] of a topic is followed by three decimal
    digits and at least one more character, [topicStatusCode] returns the
    number the three digits denote. *)
Theorem topicStatusCode_reads_code (pre rest : string) (c : ascii)
    (d1 d2 d3 : Z) :
  String.index 0 "/res/"
    (pre ++ "/res/" ++ three_digits d1 d2 d3 ++ String c rest)
  = Some (String.length pre) ->
  0 <= d1 < 10 -> 0 <= d2 < 10 -> 0 <= d3 < 10 ->
  topicStatusCode (pre ++ "/res/" ++ three_digits d1 d2 d3 ++ String c rest)
  = 100 * d1 + 10 * d2 + d3.
Proof.
  intros Hfirst H1 H2 H3. unfold topicStatusCode.
  rewrite (indexOf_first pre "/res/" _ Hfirst) by (simpl; lia).
  destruct (Z.ltb_spec (Z.of_nat (String.length pre)) 0); [lia|].
  unfold WString.len.
  destruct (Z.ltb_spec
              (Z.of_nat (String.length
                 (pre ++ "/res/" ++ three_digits d1 d2 d3 ++ String c rest)))
              (Z.of_nat (String.length pre) + 9)) as [L|_].
  { rewrite !length_append in L. simpl in L. lia. }
  rewrite <- (atol_three_digits d1 d2 d3 H1 H2 H3). f_equal.
  rewrite <- append_assoc.
  replace (Z.of_nat (String.length pre) + 5)
    with (Z.of_nat (String.length (pre ++ "/res/")))
    by (rewrite length_append; simpl; lia).
  replace (Z.of_nat (String.length pre) + 8)
    with (Z.of_nat (String.length (pre ++ "/res/")
                    + String.length (three_digits d1 d2 d3)))
    by (rewrite length_append; simpl; lia).
  apply substring_after. simpl. lia.
Qed.

Lemma topicStatusCode_reads_code_witness :
  topicStatusCode
    ("$dps/registrations" ++ "/res/" ++ three_digits 2 0 2 ++
     String "/" "?$rid=1&retry-after=3")
  = 100 * 2 + 10 * 0 + 2.
Proof.
  apply topicStatusCode_reads_code; try lia. vm_compute. reflexivity.
Defined.

Lemma stdlib_substring_length (n m : nat) (s : string) :
  (String.length (String.substring n m s) <= m)%nat.
Proof.
  revert n m. induction s as [|b s IH]; intros [|n] [|m]; simpl;
    try lia; try apply IH.
  specialize (IH 0%nat m). lia.
Qed.

Lemma wstring_substring_length (s : string) (l r : Z) :
  0 <= l <= r ->
  Z.of_nat (String.length (WString.substring s l r)) <= r - l.
Proof.
  intros H. unfold WString.substring, WString.to_unsigned, WString.len.
  destruct (Z.ltb_spec l 0); [lia|].
  destruct (Z.ltb_spec r 0); [lia|].
  destruct (Z.ltb_spec r l); [lia|].
  destruct (Z.leb_spec (Z.of_nat (String.length s)) l); [simpl; lia|].
  destruct (Z.ltb_spec (Z.of_nat (String.length s)) r).
  - pose proof (stdlib_substring_length (Z.to_nat l)
                  (Z.to_nat (Z.of_nat (String.length s) - l)) s). lia.
  - pose proof (stdlib_substring_length (Z.to_nat l) (Z.to_nat (r - l)) s). lia.
Qed.

Lemma atol_digits_bounds (s : string) :
  forall acc : Z,
    0 <= acc ->
    acc <= WString.atol_digits s acc
    /\ WString.atol_digits s acc < (acc + 1) * 10 ^ Z.of_nat (String.length s).
Proof.
  induction s as [|c s IH]; intros acc H.
  - simpl. lia.
  - cbn [WString.atol_digits String.length].
    rewrite Nat2Z.inj_succ, Z.pow_succ_r by lia.
    assert (P : 0 < 10 ^ Z.of_nat (String.length s)) by (apply Z.pow_pos_nonneg; lia).
    destruct (WString.digit_of c) as [d|] eqn:D.
    + assert (Hd : 0 <= d < 10).
      { unfold WString.digit_of in D.
        destruct ((48 <=? nat_of_ascii c)%nat && (nat_of_ascii c <=? 57)%nat) eqn:B;
          [|discriminate].
        apply andb_true_iff in B as [B1 B2].
        apply Nat.leb_le in B1, B2. injection D as <-. lia. }
      destruct (IH (10 * acc + d) ltac:(lia)) as [L U]. split; [lia|]. nia.
    + split; [lia|]. nia.
Qed.

Lemma skip_spaces_length (s : string) :
  (String.length (WString.skip_spaces s) <= String.length s)%nat.
Proof.
  induction s as [|c s IH]; simpl; [lia|].
  destruct (WString.isspace c); simpl; lia.
Qed.

Lemma toInt_short (s : string) :
  (String.length s <= 3)%nat -> -99 <= WString.toInt s <= 999.
Proof.
  intros H. unfold WString.toInt.
  pose proof (skip_spaces_length s) as K.
  destruct (WString.skip_spaces s) as [|c r] eqn:E.
  - simpl. lia.
  - cbn [String.length] in K.
    assert (Lr : (String.length r <= 2)%nat) by lia.
    assert (Br : 0 <= WString.atol_digits r 0 <= 99).
    { destruct (atol_digits_bounds r 0 ltac:(lia)) as [L U].
      split; [lia|].
      assert (10 ^ Z.of_nat (String.length r) <= 10 ^ 2)
        by (apply Z.pow_le_mono_r; lia).
      lia. }
    assert (Bs : 0 <= WString.atol_digits (String c r) 0 <= 999).
    { destruct (atol_digits_bounds (String c r) 0 ltac:(lia)) as [L U].
      split; [lia|].
      assert (10 ^ Z.of_nat (String.length (String c r)) <= 10 ^ 3)
        by (apply Z.pow_le_mono_r; cbn [String.length]; lia).
      lia. }
    destruct c as [[] [] [] [] [] [] [] []]; lia.
Qed.

(** X9. Whatever the topic, the status code that [topicStatusCode] returns
    lies between -99 and 999: it is read from at most three characters. *)
Theorem topicStatusCode_range (topic : string) :
  -99 <= topicStatusCode topic <= 999.
Proof.
  unfold topicStatusCode.
  destruct (Z.ltb_spec (WString.indexOf topic "/res/" 0) 0); [lia|].
  destruct (WString.len topic <? WString.indexOf topic "/res/" 0 + 9); [lia|].
  apply toInt_short.
  pose proof (wstring_substring_length topic
                (WString.indexOf topic "/res/" 0 + 5)
                (WString.indexOf topic "/res/" 0 + 8) ltac:(lia)).
  lia.
Qed.

(* ================================================================== *)
(** ** More on field extraction                                        *)
(* ================================================================== *)

(** X10. Looking up a key returns the value written for it: when the first
    occurrence of the key's pattern is followed by a value without double
    quote and a closing quote, [jsonGet] returns exactly that value. *)
Theorem jsonGet_reads_value (pre key value post : string) :
  String.index 0 (field_pattern key)
    (pre ++ field_pattern key ++ value ++ DQ ++ post)
  = Some (String.length pre) ->
  occurs DQ value = false ->
  jsonGet (pre ++ field_pattern key ++ value ++ DQ ++ post) key = value.
Proof. apply jsonGet_value. Qed.

Lemma jsonGet_reads_value_witness :
  jsonGet (json "{'operationId':'4.abc'," ++ field_pattern "status" ++
           "assigning" ++ DQ ++ "}") "status"
  = "assigning".
Proof.
  apply (jsonGet_reads_value (json "{'operationId':'4.abc',") "status"
           "assigning" "}");
    vm_compute; reflexivity.
Defined.

Lemma index_ge (pat s : string) :
  forall n m : nat, String.index n pat s = Some m -> (n <= m)%nat.
Proof.
  induction s as [|b s IH]; intros n m H.
  - destruct n; [|discriminate]. lia.
  - destruct n as [|n]; [lia|].
    rewrite index_cons in H.
    destruct (String.index n pat s) as [k|] eqn:E; [|discriminate].
    injection H as <-. specialize (IH n k E). lia.
Qed.

(** Between the start of a search and the first occurrence found, the
    searched character does not occur. *)
Lemma index_char_gap (c : ascii) (s : string) :
  forall n m : nat,
    String.index n (String c EmptyString) s = Some m ->
    occurs (String c EmptyString) (String.substring n (m - n) s) = false.
Proof.
  induction s as [|b s IH]; intros n m H.
  - destruct n; discriminate.
  - destruct n as [|n].
    + cbn [String.index] in H.
      destruct (String.prefix (String c EmptyString) (String b s)) eqn:P.
      * injection H as <-. reflexivity.
      * destruct (String.index 0 (String c EmptyString) s) as [k|] eqn:E;
          [|discriminate].
        injection H as <-. rewrite Nat.sub_0_r.
        cbn [String.substring occurs].
        specialize (IH 0%nat k E). rewrite Nat.sub_0_r in IH. rewrite IH.
        rewrite orb_false_r.
        simpl in P |- *. destruct (ascii_dec c b); [|reflexivity].
        now rewrite prefix_empty in P.
    + rewrite index_cons in H.
      destruct (String.index n (String c EmptyString) s) as [k|] eqn:E;
        [|discriminate].
      injection H as <-. cbn [String.substring Nat.sub]. exact (IH n k E).
Qed.

(** A character that is found is found inside the string. *)
Lemma index_char_inside (c : ascii) (s : string) :
  forall n m : nat,
    String.index n (String c EmptyString) s = Some m ->
    (m < String.length s)%nat.
Proof.
  induction s as [|b s IH]; intros n m H.
  - destruct n; discriminate.
  - destruct n as [|n].
    + cbn [String.index] in H.
      destruct (String.prefix (String c EmptyString) (String b s)).
      * injection H as <-. simpl. lia.
      * destruct (String.index 0 (String c EmptyString) s) as [k|] eqn:E;
          [|discriminate].
        injection H as <-. specialize (IH 0%nat k E). simpl. lia.
    + rewrite index_cons in H.
      destruct (String.index n (String c EmptyString) s) as [k|] eqn:E;
        [|discriminate].
      injection H as <-. specialize (IH n k E). simpl. lia.
Qed.

Lemma indexOf_found (s pat : string) (from q : Z) :
  0 <= from -> WString.indexOf s pat from = q -> 0 <= q ->
  (Z.to_nat from < String.length s)%nat /\
  String.index (Z.to_nat from) pat s = Some (Z.to_nat q).
Proof.
  unfold WString.indexOf, WString.to_unsigned, WString.len. intros F E Q.
  destruct (Z.ltb_spec from 0); [lia|].
  destruct (Z.leb_spec (Z.of_nat (String.length s)) from); [lia|].
  split; [lia|].
  destruct (String.index (Z.to_nat from) pat s) as [k|]; [|lia].
  subst q. now rewrite Nat2Z.id.
Qed.

(** X11. What [jsonGet] returns never holds a double quote, whatever the
    text and the key. *)
Theorem jsonGet_no_quote (s key : string) :
  occurs DQ (jsonGet s key) = false.
Proof.
  unfold jsonGet.
  destruct (Z.ltb_spec (WString.indexOf s (field_pattern key) 0) 0) as [|P0];
    [reflexivity|].
  set (p := WString.indexOf s (field_pattern key) 0 + WString.len (field_pattern key)).
  assert (Hp : 0 <= p) by (subst p; unfold WString.len; lia).
  destruct (Z.ltb_spec (WString.indexOf s DQ p) 0) as [|Q0]; [reflexivity|].
  destruct (indexOf_found s DQ p _ Hp eq_refl Q0) as [Lp E].
  set (q := WString.indexOf s DQ p) in *.
  pose proof (index_ge _ _ _ _ E) as G.
  pose proof (index_char_gap "034" s _ _ E) as N.
  pose proof (index_char_inside "034" s _ _ E) as Hq.
  replace p with (Z.of_nat (Z.to_nat p)) by lia.
  replace q with (Z.of_nat (Z.to_nat q)) by lia.
  rewrite substring_nat by lia.
  rewrite Nat.min_l by lia. exact N.
Qed.

(** X12. A value that is cut off before its closing quote reads as absent:
    when nothing but quote-free text follows the first occurrence of the
    key's pattern, [jsonGet] returns the empty string. *)
Theorem jsonGet_unterminated (pre key value : string) :
  String.index 0 (field_pattern key) (pre ++ field_pattern key ++ value)
  = Some (String.length pre) ->
  occurs DQ value = false ->
  jsonGet (pre ++ field_pattern key ++ value) key = EmptyString.
Proof.
  intros Hfirst Hval. unfold jsonGet.
  rewrite <- (append_nil_r value) in Hfirst at 1.
  pose proof (indexOf_first pre (field_pattern key) _ Hfirst
                (field_pattern_length key)) as E.
  rewrite append_nil_r in E. rewrite E. clear E.
  destruct (Z.ltb_spec (Z.of_nat (String.length pre)) 0); [lia|].
  assert (Ep : Z.of_nat (String.length pre) + WString.len (field_pattern key)
               = Z.of_nat (String.length (pre ++ field_pattern key)))
    by (unfold WString.len; rewrite length_append; lia).
  rewrite !Ep. clear Ep.
  rewrite <- append_assoc.
  set (head := pre ++ field_pattern key).
  assert (Q : WString.indexOf (head ++ value) DQ (Z.of_nat (String.length head))
              = -1).
  { destruct value as [|b value].
    - rewrite append_nil_r. apply indexOf_past_end. unfold WString.len. lia.
    - rewrite indexOf_nat by (rewrite length_append; simpl; lia).
      rewrite <- (Nat.add_0_r (String.length head)) at 1.
      rewrite index_skip, (occurs_false_index _ _ Hval). reflexivity. }
  now rewrite Q.
Qed.

Lemma jsonGet_unterminated_witness :
  jsonGet (json "{'operationId':'4.abc'," ++ field_pattern "status" ++ "assig")
    "status"
  = EmptyString.
Proof.
  apply (jsonGet_unterminated (json "{'operationId':'4.abc',") "status" "assig");
    vm_compute; reflexivity.
Defined.

(** X13. Looking up a child key in a parent object without braces inside
    returns the value written for it there: [jsonGetNested] composes the
    isolation of the object with [jsonGet]. *)
Theorem jsonGetNested_reads_child
    (pre parentKey before childKey value after post : string) :
  let body := before ++ field_pattern childKey ++ value ++ DQ ++ after in
  String.index 0 (parent_pattern parentKey)
    (pre ++ parent_pattern parentKey ++ body ++ "}" ++ post)
  = Some (String.length pre) ->
  occurs "}" body = false ->
  String.index 0 (field_pattern childKey) (body ++ "}")
  = Some (String.length before) ->
  occurs DQ value = false ->
  jsonGetNested (pre ++ parent_pattern parentKey ++ body ++ "}" ++ post)
    parentKey childKey
  = value.
Proof.
  intros body Hparent Hbody Hchild Hval.
  rewrite (jsonGetNested_closed _ _ _ _ _ Hparent Hbody).
  subst body. rewrite !append_assoc in *.
  now apply jsonGet_value.
Qed.

Lemma jsonGetNested_reads_child_witness :
  jsonGetNested
    (json "{'status':'assigned'," ++ parent_pattern "registrationState" ++
     (json "'assignedHub':'hub1.azure-devices.net'," ++ field_pattern "deviceId" ++
      "dev-1" ++ DQ ++ json ",'status':'assigned'") ++ "}" ++ "}")
    "registrationState" "deviceId"
  = "dev-1".
Proof.
  apply (jsonGetNested_reads_child (json "{'status':'assigned',")
           "registrationState" (json "'assignedHub':'hub1.azure-devices.net',")
           "deviceId" "dev-1" (json ",'status':'assigned'") "}");
    vm_compute; reflexivity.
Defined.

(** X14. [jsonGetNested] does not look outside the parent object: when the
    child key's pattern is missing between the opening brace and the first
    closing brace, the result is the empty string, also when a field of
    that name stands before or after the object. *)
Theorem jsonGetNested_stays_inside
    (pre parentKey body post childKey : string) :
  String.index 0 (parent_pattern parentKey)
    (pre ++ parent_pattern parentKey ++ body ++ "}" ++ post)
  = Some (String.length pre) ->
  occurs "}" body = false ->
  occurs (field_pattern childKey) (body ++ "}") = false ->
  jsonGetNested (pre ++ parent_pattern parentKey ++ body ++ "}" ++ post)
    parentKey childKey
  = EmptyString.
Proof.
  intros Hparent Hbody Habsent.
  rewrite (jsonGetNested_closed _ _ _ _ _ Hparent Hbody).
  now apply jsonGet_absent.
Qed.

Lemma jsonGetNested_stays_inside_witness :
  jsonGetNested
    (json "{'deviceId':'outer'," ++ parent_pattern "registrationState" ++
     json "'assignedHub':'hub1.azure-devices.net'" ++ "}" ++
     json ",'deviceId':'later'}")
    "registrationState" "deviceId"
  = EmptyString.
Proof.
  apply (jsonGetNested_stays_inside (json "{'deviceId':'outer',")
           "registrationState" (json "'assignedHub':'hub1.azure-devices.net'")
           (json ",'deviceId':'later'}") "deviceId");
    vm_compute; reflexivity.
Defined.

(* ================================================================== *)
(** ** The callback                                                    *)
(* ================================================================== *)

Lemma prefix_char (c b : ascii) (r : string) :
  String.prefix (String c EmptyString) (String b r)
  = if ascii_dec c b then true else false.
Proof.
  simpl. destruct (ascii_dec c b); [apply prefix_empty | reflexivity].
Qed.

Lemma prefix_cons (b : ascii) (x r : string) :
  String.prefix (String b x) (String b r) = String.prefix x r.
Proof.
  simpl. destruct (ascii_dec b b) as [_|C]; [reflexivity | now destruct C].
Qed.

Lemma c_string_of_prefix (s : string) :
  forall n : nat,
    String.prefix (c_string (String.substring 0 n s)) s = true /\
    (String.length (c_string (String.substring 0 n s)) <= n)%nat /\
    occurs NUL (c_string (String.substring 0 n s)) = false.
Proof.
  induction s as [|b s IH]; intros n.
  - destruct n; simpl; repeat split; lia.
  - destruct n as [|n]; [simpl; repeat split; lia|].
    cbn [String.substring c_string].
    destruct (Ascii.eqb b Ascii.zero) eqn:Z0; [simpl; repeat split; lia|].
    destruct (IH n) as (P & L & N).
    cbn [String.length occurs]. unfold NUL in *. rewrite N.
    split; [|split; [lia|]].
    + rewrite prefix_cons. exact P.
    + rewrite orb_false_r, prefix_char.
      destruct (ascii_dec Ascii.zero b) as [E|_]; [|reflexivity].
      rewrite <- E in Z0. discriminate.
Qed.

Lemma c_string_clean (s : string) :
  occurs NUL s = false -> c_string s = s.
Proof.
  induction s as [|b s IH]; intros H; [reflexivity|].
  unfold NUL in *. apply occurs_char_cons in H as [E H].
  cbn [c_string]. now rewrite E, (IH H).
Qed.

Lemma substring_all (s : string) (n : nat) :
  (String.length s <= n)%nat -> String.substring 0 n s = s.
Proof.
  revert n. induction s as [|b s IH]; intros [|n] H; simpl in *;
    try reflexivity; try lia.
  rewrite IH by lia. reflexivity.
Qed.

(** X15. [mqttCallback] keeps a single message: it raises the flag and
    stores topic and payload over whatever was stored before.  The stored
    payload is a prefix of the received one, at most 2000 bytes long and
    free of NUL bytes; a payload of at most 2000 bytes without NUL is stored
    whole. *)
Theorem mqttCallback_single_slot (m m' : message) (st : sketch) :
  dpsMsgArrived (mqttCallback m st) = true /\
  dpsLastTopic (mqttCallback m st) = seen_topic m /\
  dpsLastPayload (mqttCallback m st) = seen_payload m /\
  String.prefix (seen_payload m) (msg_payload m) = true /\
  (String.length (seen_payload m) <= 2000)%nat /\
  occurs NUL (seen_payload m) = false /\
  ((String.length (msg_payload m) <= 2000)%nat ->
   occurs NUL (msg_payload m) = false ->
   seen_payload m = msg_payload m) /\
  mqttCallback m' (mqttCallback m st) = mqttCallback m' st.
Proof.
  split; [reflexivity|]. split; [reflexivity|]. split; [reflexivity|].
  unfold seen_payload.
  set (n := if (2000 <? String.length (msg_payload m))%nat
            then 2000%nat else String.length (msg_payload m)).
  assert (Hn : (n <= 2000)%nat).
  { subst n. destruct (Nat.ltb_spec 2000 (String.length (msg_payload m))); lia. }
  destruct (c_string_of_prefix (msg_payload m) n) as (P & L & N).
  split; [exact P|]. split; [lia|]. split; [exact N|].
  split; [|reflexivity].
  intros Hl Hz. subst n.
  destruct (Nat.ltb_spec 2000 (String.length (msg_payload m))); [lia|].
  rewrite substring_all by lia. now apply c_string_clean.
Qed.

(* ================================================================== *)
(** ** More on the registration handshake                              *)
(* ================================================================== *)



(** X17. When the connection to the provisioning host fails,
    [dpsRegisterAndGetHub] fails after that single attempt: the only request
    is the connection itself, with the registration id as client id, the
    user name [<scope>/registrations/<id>/api-version=2019-03-31] and, as
    password, the token for [<scope>/registrations/<id>] that expires one
    hour after [now]; nothing is subscribed or published. *)
Theorem handshake_connect_failure (cfg : config) (now : Z)
    (script : list event) (st : sketch) (key : bytes) :
  base64Decode (DPS_DEVICE_KEY_BASE64 cfg) KEY_BUFFER_SIZE = Some key ->
  exists st',
    dpsRegisterAndGetHub cfg now false script st = (false, script, st') /\
    requests st'
    = Connect DPS_HOST (DPS_REGISTRATION_ID cfg) (dps_username cfg)
        (buildSasToken (dps_resource cfg) (DPS_DEVICE_KEY_BASE64 cfg)
           (now + SAS_TTL_SECS))
      :: requests st /\
    connected st' = false /\
    rid st' = rid st.
Proof.
  intros K. unfold dpsRegisterAndGetHub. cbv zeta.
  rewrite (buildSasToken_nonempty _ _ _ key K). cbn [negb].
  eexists. split; [reflexivity|]. repeat split.
Qed.

Lemma handshake_connect_failure_witness :
  provisioning_result
    (dpsRegisterAndGetHub sample_config 1700000000 false
       [Event 3 (Some response_assigned)] (boot 5000))
  = Failed.
Proof.
  assert (K : base64Decode (DPS_DEVICE_KEY_BASE64 sample_config) KEY_BUFFER_SIZE
              = Some [105; 183; 53; 219]) by (vm_compute; reflexivity).
  destruct (handshake_connect_failure sample_config 1700000000
              [Event 3 (Some response_assigned)] (boot 5000) _ K)
    as (st' & -> & _).
  reflexivity.
Defined.

Section HandshakeMore.

#[local] Arguments topicStatusCode : simpl never.
#[local] Arguments jsonGet : simpl never.
#[local] Arguments jsonGetNested : simpl never.
#[local] Arguments buildSasToken : simpl never.

(** The first wait reports success only after it has disconnected. *)
Lemma register_wait_true_closed (script : list event) :
  forall (t0 : Z) (st : sketch) (rest : list event) (st' : sketch),
    register_wait script t0 st = (RegisterReturnsTrue, rest, st') ->
    connected st' = false /\ exists tl, requests st' = Disconnect :: tl.
Proof.
  induction script as [|ev script IH]; intros t0 st rest st'.
  - rewrite register_wait_nil.
    destruct (negb (elapsed_since t0 st <? 20000)); [discriminate|].
    cbv zeta.
    destruct (dpsMsgArrived (delay (20000 - elapsed_since t0 st) st));
      [|discriminate].
    match goal with |- context [?c =? 202] => destruct (c =? 202) end;
      [discriminate|].
    match goal with |- context [?c =? 200] => destruct (c =? 200) end;
      [|discriminate].
    match goal with |- context [if ?b then _ else _] => destruct b end;
      [|discriminate].
    intros H. injection H as _ <-. split; [reflexivity|].
    eexists. reflexivity.
  - rewrite register_wait_cons.
    destruct (negb (elapsed_since t0 st <? 20000)); [discriminate|].
    cbv zeta.
    destruct (dpsMsgArrived (mqtt_loop ev st)); [|apply IH].
    match goal with |- context [?c =? 202] => destruct (c =? 202) end;
      [discriminate|].
    match goal with |- context [?c =? 200] => destruct (c =? 200) end;
      [|apply IH].
    match goal with |- context [if ?b then _ else _] => destruct b end;
      [|apply IH].
    intros H. injection H as _ <-. split; [reflexivity|].
    eexists. reflexivity.
Qed.

Lemma poll_wait_returns_closed (script : list event) :
  forall (t1 : Z) (st : sketch) (b : bool) (rest : list event) (st' : sketch),
    poll_wait script t1 st = (PollReturns b, rest, st') ->
    connected st' = false /\ exists tl, requests st' = Disconnect :: tl.
Proof.
  induction script as [|ev script IH]; intros t1 st b rest st'.
  - rewrite poll_wait_nil.
    destruct (negb (elapsed_since t1 st <? 5000)); [discriminate|].
    cbv zeta.
    destruct (dpsMsgArrived (delay (5000 - elapsed_since t1 st) st));
      [|discriminate].
    match goal with |- context [?c =? 200] => destruct (c =? 200) end;
      [|discriminate].
    match goal with |- context [String.eqb ?x ?y] => destruct (String.eqb x y) end;
      [|discriminate].
    intros H. injection H as _ _ <-. split; [reflexivity|].
    eexists. reflexivity.
  - rewrite poll_wait_cons.
    destruct (negb (elapsed_since t1 st <? 5000)); [discriminate|].
    cbv zeta.
    destruct (dpsMsgArrived (mqtt_loop ev st)); [|apply IH].
    match goal with |- context [?c =? 200] => destruct (c =? 200) end;
      [|discriminate].
    match goal with |- context [String.eqb ?x ?y] => destruct (String.eqb x y) end;
      [|discriminate].
    intros H. injection H as _ _ <-. split; [reflexivity|].
    eexists. reflexivity.
Qed.

Lemma poll_loop_true_closed (todo : nat) :
  forall (operationId : string) (script : list event) (st : sketch)
         (rest : list event) (st' : sketch),
    poll_loop todo operationId script st = (true, rest, st') ->
    connected st' = false /\ exists tl, requests st' = Disconnect :: tl.
Proof.
  induction todo as [|todo IH]; intros operationId script st rest st'.
  - cbn [poll_loop]. discriminate.
  - rewrite poll_loop_step. cbv zeta.
    set (st1 := next_rid _).
    destruct (poll_wait script (millis st1) st1) as [[x script'] st2] eqn:W.
    destruct x as [r|].
    + intros H. injection H as -> _ <-.
      exact (poll_wait_returns_closed _ _ _ _ _ _ W).
    + apply IH.
Qed.

End HandshakeMore.

(** X18. Whenever [dpsRegisterAndGetHub] returns [true] it has closed the
    provisioning connection: the link is down and the last request issued
    is the disconnection, so the MQTT client is free for the hub. *)
Theorem handshake_success_disconnects (cfg : config) (now : Z)
    (connect_ok : bool) (script rest : list event) (st st' : sketch) :
  dpsRegisterAndGetHub cfg now connect_ok script st = (true, rest, st') ->
  connected st' = false /\ exists tl, requests st' = Disconnect :: tl.
Proof.
  unfold dpsRegisterAndGetHub. cbv zeta.
  destruct (String.eqb _ EmptyString); [discriminate|].
  destruct connect_ok; [|discriminate]. cbn [negb].
  match goal with
  | |- context [register_wait script ?t ?s] =>
      destruct (register_wait script t s) as [[x script'] st1] eqn:W
  end.
  destruct x as [|operationId].
  - intros H. injection H as _ <-.
    exact (register_wait_true_closed _ _ _ _ _ W).
  - destruct (String.eqb operationId EmptyString); [discriminate|].
    apply poll_loop_true_closed.
Qed.

Lemma handshake_success_disconnects_witness :
  connected
    (snd (dpsRegisterAndGetHub sample_config 1700000000 true
            [Event 3 (Some response_assigned)] (boot 5000)))
  = false.
Proof.
  destruct (dpsRegisterAndGetHub sample_config 1700000000 true
              [Event 3 (Some response_assigned)] (boot 5000))
    as [[b rest] st'] eqn:E.
  assert (B : b = true) by (apply (f_equal (fun r => fst (fst r))) in E;
                            vm_compute in E; now subst b).
  subst b. exact (proj1 (handshake_success_disconnects _ _ _ _ _ _ _ E)).
Defined.

(** X19. A status-202 response from which no operation id can be read ends
    the handshake as Failed at once: no poll is published and the rest of
    the incoming traffic is not looked at. *)
Theorem handshake_no_operation_id (cfg : config) (now : Z) (st : sketch)
    (key : bytes) (a : arrival) (rest : list event) :
  base64Decode (DPS_DEVICE_KEY_BASE64 cfg) KEY_BUFFER_SIZE = Some key ->
  dpsMsgArrived st = false ->
  timely 20000 a = true ->
  response_code (what a) = 202 ->
  response_operationId (what a) = EmptyString ->
  exists st',
    dpsRegisterAndGetHub cfg now true (arrival_events a ++ rest)%list st
    = (false, rest, st') /\
    polls_issued st' = polls_issued st.
Proof.
  intros K F T E O.
  rewrite (handshake_from_registering _ _ _ _ key K).
  pose proof (registering_ready cfg now st F) as R.
  destruct (register_wait_arrival a rest _ R T) as [-> L].
  rewrite (register_wait_accepted _ _ _ _ _ L (proj2 R) E), O.
  change (String.eqb EmptyString EmptyString) with true. cbv iota.
  eexists. split; reflexivity.
Qed.

Lemma handshake_no_operation_id_witness :
  provisioning_result
    (dpsRegisterAndGetHub sample_config 1700000000 true
       (arrival_events
          (at_once 3 (Message "$dps/registrations/res/202/?$rid=1"
                        (json "{'status':'assigning'}"))) ++
        [Event 3 (Some response_assigned)])%list (boot 5000))
  = Failed.
Proof.
  assert (K : base64Decode (DPS_DEVICE_KEY_BASE64 sample_config) KEY_BUFFER_SIZE
              = Some [105; 183; 53; 219]) by (vm_compute; reflexivity).
  destruct (handshake_no_operation_id sample_config 1700000000 (boot 5000) _
              (at_once 3 (Message "$dps/registrations/res/202/?$rid=1"
                            (json "{'status':'assigning'}")))
              [Event 3 (Some response_assigned)] K eq_refl)
    as (st' & -> & _);
    [reflexivity | vm_compute; reflexivity ..].
Defined.

Section HandshakeTrace.

#[local] Arguments topicStatusCode : simpl never.
#[local] Arguments jsonGet : simpl never.
#[local] Arguments jsonGetNested : simpl never.
#[local] Arguments buildSasToken : simpl never.

Lemma mqtt_loop_keeps (ev : event) (st : sketch) :
  rid (mqtt_loop ev st) = rid st /\
  requests (mqtt_loop ev st) = requests st.
Proof.
  unfold mqtt_loop. destruct (incoming ev); [|now split].
  destruct (callback_set _); now split.
Qed.

(** The first wait keeps the request counter and issues nothing but the
    disconnection that precedes a [true] result. *)
Lemma register_wait_trace (script : list event) :
  forall (t0 : Z) (st : sketch) (x : register_exit) (rest : list event)
         (st' : sketch),
    register_wait script t0 st = (x, rest, st') ->
    rid st' = rid st /\
    ((x = RegisterReturnsTrue /\ requests st' = Disconnect :: requests st) \/
     (x <> RegisterReturnsTrue /\ requests st' = requests st)).
Proof.
  induction script as [|ev script IH]; intros t0 st x rest st'.
  - rewrite register_wait_nil.
    destruct (negb (elapsed_since t0 st <? 20000)).
    { intros H; injection H as <- _ <-. split; [reflexivity|].
      right. split; [discriminate | reflexivity]. }
    cbv zeta.
    destruct (dpsMsgArrived (delay (20000 - elapsed_since t0 st) st)).
    2:{ intros H; injection H as <- _ <-. split; [reflexivity|].
        right. split; [discriminate | reflexivity]. }
    match goal with |- context [?c =? 202] => destruct (c =? 202) end.
    { intros H. injection H as <- _ <-. split; [reflexivity|].
      right. split; [discriminate | reflexivity]. }
    match goal with |- context [?c =? 200] => destruct (c =? 200) end.
    2:{ intros H; injection H as <- _ <-. split; [reflexivity|].
        right. split; [discriminate | reflexivity]. }
    match goal with |- context [if ?b then _ else _] => destruct b end.
    2:{ intros H; injection H as <- _ <-. split; [reflexivity|].
        right. split; [discriminate | reflexivity]. }
    intros H. injection H as <- _ <-. split; [reflexivity|].
    left. split; reflexivity.
  - rewrite register_wait_cons.
    destruct (negb (elapsed_since t0 st <? 20000)).
    { intros H; injection H as <- _ <-. split; [reflexivity|].
      right. split; [discriminate | reflexivity]. }
    cbv zeta.
    destruct (mqtt_loop_keeps ev st) as [Mr Mq].
    assert (Step : forall s1,
               rid s1 = rid (mqtt_loop ev st) ->
               requests s1 = requests (mqtt_loop ev st) ->
               register_wait script t0 s1 = (x, rest, st') ->
               rid st' = rid st /\
               ((x = RegisterReturnsTrue /\ requests st' = Disconnect :: requests st) \/
                (x <> RegisterReturnsTrue /\ requests st' = requests st))).
    { intros s1 R1 Q1 H. destruct (IH _ _ _ _ _ H) as [R [[X Q]|[X Q]]].
      - split; [congruence|]. left. split; [exact X | congruence].
      - split; [congruence|]. right. split; [exact X | congruence]. }
    destruct (dpsMsgArrived (mqtt_loop ev st)); [|now apply Step].
    match goal with |- context [?c =? 202] => destruct (c =? 202) end.
    { intros H. injection H as <- _ <-. split; [exact Mr|].
      right. split; [discriminate | exact Mq]. }
    match goal with |- context [?c =? 200] => destruct (c =? 200) end;
      [|now apply Step].
    match goal with |- context [if ?b then _ else _] => destruct b end;
      [|now apply Step].
    intros H. injection H as <- _ <-. split; [exact Mr|].
    left. split; [reflexivity|]. cbn [requests set_link issue set_assignment set_inbox].
    now rewrite Mq.
Qed.

Lemma poll_wait_trace (script : list event) :
  forall (t1 : Z) (st : sketch) (x : poll_exit) (rest : list event)
         (st' : sketch),
    poll_wait script t1 st = (x, rest, st') ->
    rid st' = rid st /\
    ((x <> PollGoesOn /\ requests st' = Disconnect :: requests st) \/
     (x = PollGoesOn /\ requests st' = requests st)).
Proof.
  induction script as [|ev script IH]; intros t1 st x rest st'.
  - rewrite poll_wait_nil.
    destruct (negb (elapsed_since t1 st <? 5000)).
    { intros H; injection H as <- _ <-. split; [reflexivity|].
      right. split; reflexivity. }
    cbv zeta.
    destruct (dpsMsgArrived (delay (5000 - elapsed_since t1 st) st)).
    2:{ intros H; injection H as <- _ <-. split; [reflexivity|].
        right. split; reflexivity. }
    match goal with |- context [?c =? 200] => destruct (c =? 200) end.
    2:{ intros H; injection H as <- _ <-. split; [reflexivity|].
        right. split; reflexivity. }
    match goal with |- context [String.eqb ?a ?b] => destruct (String.eqb a b) end.
    2:{ intros H; injection H as <- _ <-. split; [reflexivity|].
        right. split; reflexivity. }
    intros H. injection H as <- _ <-. split; [reflexivity|].
    left. split; [discriminate | reflexivity].
  - rewrite poll_wait_cons.
    destruct (negb (elapsed_since t1 st <? 5000)).
    { intros H; injection H as <- _ <-. split; [reflexivity|].
      right. split; reflexivity. }
    cbv zeta.
    destruct (mqtt_loop_keeps ev st) as [Mr Mq].
    destruct (dpsMsgArrived (mqtt_loop ev st)).
    + match goal with |- context [?c =? 200] => destruct (c =? 200) end.
      * match goal with |- context [String.eqb ?a ?b] => destruct (String.eqb a b) end.
        -- intros H. injection H as <- _ <-. split; [exact Mr|].
           left. split; [discriminate|].
           cbn [requests set_link issue set_assignment set_inbox]. now rewrite Mq.
        -- intros H. injection H as <- _ <-. split; [exact Mr|].
           right. split; [reflexivity | exact Mq].
      * intros H. injection H as <- _ <-. split; [exact Mr|].
        right. split; [reflexivity | exact Mq].
    + intros H. destruct (IH _ _ _ _ _ H) as [R [[X Q]|[X Q]]].
      * split; [congruence|]. left. split; [exact X | congruence].
      * split; [congruence|]. right. split; [exact X | congruence].
Qed.

Lemma poll_requests_shift (r : Z) (operationId : string) (n : nat) :
  (poll_requests (r + 1) operationId n ++
   [Publish (poll_topic r operationId) EmptyString])%list
  = poll_requests r operationId (S n).
Proof.
  induction n as [|n IH].
  - cbn [poll_requests app]. now rewrite Z.add_0_r.
  - change (poll_requests (r + 1) operationId (S n))
      with (Publish (poll_topic (r + 1 + Z.of_nat n) operationId) EmptyString
            :: poll_requests (r + 1) operationId n).
    cbn [app]. rewrite IH.
    change (poll_requests r operationId (S (S n)))
      with (Publish (poll_topic (r + Z.of_nat (S n)) operationId) EmptyString
            :: poll_requests r operationId (S n)).
    do 3 f_equal. lia.
Qed.

(** The poll loop publishes polls with consecutive request ids and nothing
    else but the final disconnection. *)
Lemma poll_loop_trace (todo : nat) :
  forall (operationId : string) (script : list event) (st : sketch)
         (b : bool) (rest : list event) (st' : sketch),
    0 <= rid st -> rid st + Z.of_nat todo < 2 ^ 32 ->
    poll_loop todo operationId script st = (b, rest, st') ->
    exists (n : nat) (closing : list request),
      (n <= todo)%nat /\
      (closing = [] /\ b = false \/ closing = [Disconnect]) /\
      requests st'
      = (closing ++ poll_requests (rid st) operationId n ++ requests st)%list /\
      rid st' = rid st + Z.of_nat n.
Proof.
  induction todo as [|todo IH];
    intros operationId script st b rest st' R0 R1.
  - cbn [poll_loop]. intros H. injection H as <- _ <-.
    exists 0%nat, []. repeat split; [lia | now left | lia].
  - rewrite poll_loop_step. cbv zeta.
    set (st1 := next_rid _).
    assert (Q1 : requests st1
                 = Publish (poll_topic (rid st) operationId) EmptyString
                   :: requests st) by reflexivity.
    assert (I1 : rid st1 = rid st + 1).
    { subst st1. cbn [rid next_rid set_rid issue].
      apply Z.mod_small. lia. }
    destruct (poll_wait script (millis st1) st1) as [[x script'] st2] eqn:W.
    destruct (poll_wait_trace _ _ _ _ _ _ W) as [I2 [[X Q2]|[X Q2]]].
    + destruct x as [r|]; [|now destruct X].
      intros H. injection H as <- _ <-.
      exists 1%nat, [Disconnect].
      split; [lia|]. split; [now right|]. split; [|lia].
      rewrite Q2, Q1. cbn [poll_requests app]. now rewrite Z.add_0_r.
    + subst x. intros H.
      destruct (IH operationId script' (delay 1500 st2) b rest st') as
        (n & closing & Ln & C & Q & I);
        [change (rid (delay 1500 st2)) with (rid st2); lia
        |change (rid (delay 1500 st2)) with (rid st2); lia
        |exact H|].
      change (rid (delay 1500 st2)) with (rid st2) in Q, I.
      change (requests (delay 1500 st2)) with (requests st2) in Q.
      exists (S n), closing.
      split; [lia|]. split; [exact C|]. split; [|lia].
      rewrite Q, Q2, Q1, I2, I1.
      rewrite <- (poll_requests_shift (rid st) operationId n).
      now rewrite <- app_assoc.
Qed.

End HandshakeTrace.

(** X20. What a connected handshake sends, in full: the connection, the
    subscription to the response topics, the registration with the current
    request id, then at most twenty status polls that carry the next request
    ids in order, and a disconnection at the end if the assignment was
    announced.  Nothing else is issued, and no request id is used twice. *)
Theorem handshake_trace (cfg : config) (now : Z) (script rest : list event)
    (st st' : sketch) (key : bytes) (ok : bool) :
  base64Decode (DPS_DEVICE_KEY_BASE64 cfg) KEY_BUFFER_SIZE = Some key ->
  0 <= rid st -> rid st + 21 < 2 ^ 32 ->
  dpsRegisterAndGetHub cfg now true script st = (ok, rest, st') ->
  exists (n : nat) (operationId : string) (closing : list request),
    (n <= 20)%nat /\
    (closing = [] /\ ok = false \/ closing = [Disconnect]) /\
    requests st'
    = (closing ++ poll_requests (rid st + 1) operationId n ++
       Publish (register_topic (rid st)) (register_payload cfg)
       :: Subscribe "$dps/registrations/res/#"
       :: Connect DPS_HOST (DPS_REGISTRATION_ID cfg) (dps_username cfg)
            (buildSasToken (dps_resource cfg) (DPS_DEVICE_KEY_BASE64 cfg)
               (now + SAS_TTL_SECS))
       :: requests st)%list /\
    rid st' = rid st + 1 + Z.of_nat n.
Proof.
  intros K R0 R1.
  rewrite (handshake_from_registering _ _ _ _ key K).
  set (st1 := registering cfg now st).
  assert (Q1 : requests st1
               = Publish (register_topic (rid st)) (register_payload cfg)
                 :: Subscribe "$dps/registrations/res/#"
                 :: Connect DPS_HOST (DPS_REGISTRATION_ID cfg) (dps_username cfg)
                      (buildSasToken (dps_resource cfg) (DPS_DEVICE_KEY_BASE64 cfg)
                         (now + SAS_TTL_SECS))
                 :: requests st) by reflexivity.
  assert (I1 : rid st1 = rid st + 1).
  { subst st1. unfold registering. cbn [rid next_rid set_rid issue set_link set_sasExpiry].
    apply Z.mod_small. lia. }
  destruct (register_wait script (millis st1) st1) as [[x script'] st2] eqn:W.
  destruct (register_wait_trace _ _ _ _ _ _ W) as [I2 [[X Q2]|[X Q2]]].
  - subst x. intros H. injection H as <- _ <-.
    exists 0%nat, EmptyString, [Disconnect].
    split; [lia|]. split; [now right|]. split; [|lia].
    rewrite Q2, Q1. reflexivity.
  - destruct x as [|operationId]; [now destruct X|].
    destruct (String.eqb operationId EmptyString).
    + intros H. injection H as <- _ <-.
      exists 0%nat, EmptyString, [].
      split; [lia|]. split; [now left|]. split; [|lia].
      rewrite Q2, Q1. reflexivity.
    + intros H.
      destruct (poll_loop_trace POLL_TRIES operationId script' st2 ok rest st')
        as (n & closing & Ln & C & Q & I);
        [lia | unfold POLL_TRIES; lia | exact H|].
      exists n, operationId, closing.
      split; [exact Ln|]. split; [exact C|]. split; [|lia].
      rewrite Q, Q2, Q1, I2, I1. reflexivity.
Qed.

Lemma handshake_trace_witness :
  exists n : nat,
    (n <= 20)%nat /\
    rid (snd (dpsRegisterAndGetHub sample_config 1700000000 true
                (arrival_events (at_once 3 response_accepted) ++
                 arrival_events (at_once 2 response_assigning) ++
                 arrival_events (at_once 1 response_assigned))%list
                (boot 5000)))
    = rid (boot 5000) + 1 + Z.of_nat n.
Proof.
  assert (K : base64Decode (DPS_DEVICE_KEY_BASE64 sample_config) KEY_BUFFER_SIZE
              = Some [105; 183; 53; 219]) by (vm_compute; reflexivity).
  destruct (dpsRegisterAndGetHub sample_config 1700000000 true
              (arrival_events (at_once 3 response_accepted) ++
               arrival_events (at_once 2 response_assigning) ++
               arrival_events (at_once 1 response_assigned))%list
              (boot 5000)) as [[ok rest] st'] eqn:E.
  assert (R0 : 0 <= rid (boot 5000)) by (cbn; lia).
  assert (R1 : rid (boot 5000) + 21 < 2 ^ 32) by (cbn; lia).
  destruct (handshake_trace sample_config 1700000000 _ _ (boot 5000) _ _ _ K
              R0 R1 E)
    as (n & operationId & closing & L & _ & _ & I).
  exists n. split; [exact L | exact I].
Defined.

(* ================================================================== *)
(** ** More on the session and the main loop                           *)
(* ================================================================== *)

(** X21. [ensureIoTHubMqtt] can be called on every pass: once a call has
    succeeded, a further call, at any time and whatever a connection
    attempt would give, returns [true] and changes nothing. *)
Theorem ensureIoTHubMqtt_idempotent (cfg : config) (now now' : Z)
    (connect_ok connect_ok' : bool) (st : sketch) :
  fst (ensureIoTHubMqtt cfg now connect_ok st) = true ->
  ensureIoTHubMqtt cfg now' connect_ok'
    (snd (ensureIoTHubMqtt cfg now connect_ok st))
  = (true, snd (ensureIoTHubMqtt cfg now connect_ok st)).
Proof.
  intros H. apply ensureIoTHubMqtt_connected.
  unfold ensureIoTHubMqtt in *.
  destruct (connected st) eqn:C; [exact C|].
  cbn [fst snd buildIoTHubSas] in *. cbn [connected set_link]. exact H.
Qed.

Lemma ensureIoTHubMqtt_idempotent_witness :
  ensureIoTHubMqtt sample_config 1700009999 false
    (snd (ensureIoTHubMqtt sample_config 1700000010 true sample_provisioned))
  = (true, snd (ensureIoTHubMqtt sample_config 1700000010 true sample_provisioned)).
Proof.
  apply ensureIoTHubMqtt_idempotent. vm_compute. reflexivity.
Defined.

(** X22. Unlike the provisioning step, [ensureIoTHubMqtt] does not check the
    token: with a device key that does not decode it still attempts the
    connection, with an empty password. *)
Theorem ensureIoTHubMqtt_bad_key (cfg : config) (now : Z) (connect_ok : bool)
    (st : sketch) :
  connected st = false ->
  base64Decode (DPS_DEVICE_KEY_BASE64 cfg) KEY_BUFFER_SIZE = None ->
  fst (ensureIoTHubMqtt cfg now connect_ok st) = connect_ok /\
  requests (snd (ensureIoTHubMqtt cfg now connect_ok st))
  = Connect (assignedHub st) (deviceId st)
      (buildIoTHubUsername (assignedHub st) (deviceId st)) EmptyString
    :: requests st.
Proof.
  intros C K. unfold ensureIoTHubMqtt, buildIoTHubSas. rewrite C.
  cbn [fst snd requests set_link issue set_sasExpiry assignedHub deviceId].
  split; [reflexivity|].
  unfold buildSasToken. now rewrite K.
Qed.

Lemma ensureIoTHubMqtt_bad_key_witness :
  requests (snd (ensureIoTHubMqtt (Config "scope" "dev-1" "not base64!")
                   1700000010 true (boot 5000)))
  = [Connect EmptyString EmptyString
       (buildIoTHubUsername EmptyString EmptyString) EmptyString].
Proof.
  apply (ensureIoTHubMqtt_bad_key (Config "scope" "dev-1" "not base64!")
           1700000010 true (boot 5000)); vm_compute; reflexivity.
Defined.

Section LoopFacts.

Variable snprintf_telemetry : float32 -> float32 -> float32 -> Z -> string.
Variable cfg : config.

(** X23. A pass of [loop()] that finds the link down and cannot reconnect
    backs off: it issues the one connection attempt, with a token that
    expires one hour after the time of the pass, waits 2000 ms, and neither
    services the client nor reads a sensor nor publishes. *)
Theorem loop_backs_off (t : tick) (st : sketch) :
  (connected st = false \/ tick_link_lost t = true) ->
  tick_connect_ok t = false ->
  fst (loop snprintf_telemetry cfg t st) = BackedOff /\
  clock (snd (loop snprintf_telemetry cfg t st)) = clock st + 2000 /\
  lastSend (snd (loop snprintf_telemetry cfg t st)) = lastSend st /\
  connected (snd (loop snprintf_telemetry cfg t st)) = false /\
  requests (snd (loop snprintf_telemetry cfg t st))
  = Connect (assignedHub st) (deviceId st)
      (buildIoTHubUsername (assignedHub st) (deviceId st))
      (buildSasToken (assignedHub st ++ "/devices/" ++ deviceId st)
         (DPS_DEVICE_KEY_BASE64 cfg) (tick_time t + SAS_TTL_SECS))
    :: requests st.
Proof.
  intros D F. unfold loop.
  set (st0 := if tick_link_lost t then set_link false (callback_set st) st else st).
  assert (C0 : connected st0 = false).
  { subst st0. destruct (tick_link_lost t); [reflexivity|].
    destruct D as [D|D]; [exact D | discriminate]. }
  assert (S0 : clock st0 = clock st /\ lastSend st0 = lastSend st /\
               requests st0 = requests st /\ assignedHub st0 = assignedHub st /\
               deviceId st0 = deviceId st)
    by (subst st0; destruct (tick_link_lost t); repeat split).
  destruct S0 as (Sc & Sl & Sq & Sh & Sd).
  unfold ensureIoTHubMqtt, buildIoTHubSas. rewrite C0, F.
  cbn [negb fst snd clock delay set_clock lastSend connected requests set_link issue
       set_sasExpiry assignedHub deviceId sasExpiry].
  rewrite Sc, Sl, Sq, Sh, Sd. repeat split.
Qed.

(** X24. When the interval has elapsed and the DHT sensor returns NaN for
    the humidity or the temperature, the pass publishes nothing, yet it has
    already restarted the interval: the skipped reading is not retried
    before another full interval. *)
Theorem loop_skips_invalid_reading (t : tick) (st : sketch) :
  connected st = true -> tick_link_lost t = false ->
  SEND_INTERVAL_MS
  <= (millis (mqtt_loop (tick_service t) st) - lastSend st) mod 2 ^ 32 ->
  f32_isnan (tick_humidity t) || f32_isnan (tick_temperature t) = true ->
  fst (loop snprintf_telemetry cfg t st) = ServicedSkipped /\
  lastSend (snd (loop snprintf_telemetry cfg t st))
  = millis (mqtt_loop (tick_service t) st) /\
  requests (snd (loop snprintf_telemetry cfg t st)) = requests st.
Proof.
  intros C L I N. unfold loop. rewrite L.
  rewrite (ensureIoTHubMqtt_connected _ _ _ _ C). cbn [negb].
  assert (Il : lastSend (mqtt_loop (tick_service t) st) = lastSend st).
  { unfold mqtt_loop. destruct (incoming _); [|reflexivity].
    now destruct (callback_set _). }
  rewrite Il, (proj2 (Z.leb_le _ _) I), N.
  cbn [fst snd lastSend set_lastSend requests].
  split; [reflexivity|]. split; [reflexivity|].
  unfold mqtt_loop. destruct (incoming _); [|reflexivity].
  now destruct (callback_set _).
Qed.

(** X25. The interval test is safe across the wrap of the 32-bit
    millisecond counter: with [e] the true time since the last sending
    (below [2^32] ms) and valid readings, the pass publishes exactly one
    telemetry message when [e] is at least 5000 ms, and nothing
    otherwise. *)
Theorem loop_interval_wrap_safe (t : tick) (st : sketch) (c0 e : Z) :
  connected st = true -> tick_link_lost t = false ->
  lastSend st = c0 mod 2 ^ 32 ->
  clock st + took (tick_service t) = c0 + e ->
  0 <= e < 2 ^ 32 ->
  f32_isnan (tick_humidity t) || f32_isnan (tick_temperature t) = false ->
  (e < 5000 ->
   fst (loop snprintf_telemetry cfg t st) = Serviced /\
   lastSend (snd (loop snprintf_telemetry cfg t st)) = lastSend st /\
   requests (snd (loop snprintf_telemetry cfg t st)) = requests st) /\
  (5000 <= e ->
   fst (loop snprintf_telemetry cfg t st) = ServicedPublished /\
   lastSend (snd (loop snprintf_telemetry cfg t st)) = (c0 + e) mod 2 ^ 32 /\
   requests (snd (loop snprintf_telemetry cfg t st))
   = Publish (telemetry_topic st)
       (snprintf_telemetry (tick_temperature t) (tick_humidity t)
          (soilRawToPercent (tick_soil_raw t)) (WString.to_ulong (tick_time t)))
     :: requests st).
Proof.
  intros C L Ls Ck He N. unfold loop. rewrite L.
  rewrite (ensureIoTHubMqtt_connected _ _ _ _ C). cbn [negb].
  set (st1 := mqtt_loop (tick_service t) st).
  assert (K1 : clock st1 = c0 + e /\ lastSend st1 = lastSend st /\
               requests st1 = requests st /\
               iothubPublishTopic st1 = iothubPublishTopic st /\
               deviceId st1 = deviceId st).
  { subst st1. unfold mqtt_loop. destruct (incoming _);
      [destruct (callback_set _)|]; repeat split; exact Ck. }
  destruct K1 as (Kc & Kl & Kq & Kt & Kd).
  assert (El : (millis st1 - lastSend st1) mod 2 ^ 32 = e).
  { unfold millis. rewrite Kc, Kl, Ls, <- Zminus_mod.
    replace (c0 + e - c0) with e by lia. now apply Z.mod_small. }
  rewrite El. unfold SEND_INTERVAL_MS. split; intros B.
  - destruct (Z.leb_spec 5000 e); [lia|].
    cbn [fst snd]. repeat split; assumption.
  - destruct (Z.leb_spec 5000 e); [|lia].
    rewrite N. cbn [fst snd].
    split; [reflexivity|]. split.
    + unfold publishTelemetry.
      destruct (String.length _ =? 0)%nat; cbn [lastSend issue set_publish_topic set_lastSend];
        unfold millis; now rewrite Kc.
    + unfold publishTelemetry, telemetry_topic.
      cbn [iothubPublishTopic set_lastSend deviceId].
      rewrite Kt, Kd.
      destruct (String.length (iothubPublishTopic st) =? 0)%nat;
        cbn [requests issue set_publish_topic set_lastSend iothubPublishTopic];
        now rewrite ?Kq, ?Kt.
Qed.

Lemma telemetry_topic_fresh (d : string) :
  (String.length ("devices/" ++ d ++ "/messages/events/") =? 0)%nat = false.
Proof. reflexivity. Qed.

(** One pass issues hub requests only, all publications to the same topic,
    and leaves that topic in force. *)
Lemma loop_requests (t : tick) (st : sketch) :
  exists new : list request,
    requests (snd (loop snprintf_telemetry cfg t st)) = (new ++ requests st)%list /\
    Forall (hub_request (telemetry_topic st)) new /\
    telemetry_topic (snd (loop snprintf_telemetry cfg t st)) = telemetry_topic st.
Proof.
  unfold loop.
  set (st0 := if tick_link_lost t then set_link false (callback_set st) st else st).
  assert (S0 : requests st0 = requests st /\ telemetry_topic st0 = telemetry_topic st)
    by (subst st0; destruct (tick_link_lost t); split; reflexivity).
  destruct S0 as [Q0 T0].
  assert (E : exists new1,
             requests (snd (ensureIoTHubMqtt cfg (tick_time t) (tick_connect_ok t) st0))
             = (new1 ++ requests st)%list /\
             Forall (hub_request (telemetry_topic st)) new1 /\
             telemetry_topic
               (snd (ensureIoTHubMqtt cfg (tick_time t) (tick_connect_ok t) st0))
             = telemetry_topic st).
  { unfold ensureIoTHubMqtt, buildIoTHubSas. destruct (connected st0).
    - exists []. cbn [snd app]. repeat split; [exact Q0 | constructor | exact T0].
    - eexists [_].
      cbn [snd requests set_link issue set_sasExpiry app].
      split; [now rewrite Q0|]. split; [repeat constructor | exact T0]. }
  destruct (ensureIoTHubMqtt cfg (tick_time t) (tick_connect_ok t) st0)
    as [ok st1].
  cbn [snd] in E. destruct E as (new1 & Q1 & F1 & T1).
  destruct ok; cbn [negb].
  2:{ exists new1. cbn [snd]. repeat split; assumption. }
  set (st2 := mqtt_loop (tick_service t) st1).
  assert (S2 : requests st2 = requests st1 /\ telemetry_topic st2 = telemetry_topic st1).
  { subst st2. unfold mqtt_loop. destruct (incoming _); [|split; reflexivity].
    destruct (callback_set (set_clock _ st1)); split; reflexivity. }
  destruct S2 as [Q2 T2].
  destruct (SEND_INTERVAL_MS <=? _).
  2:{ exists new1. cbn [snd]. repeat split; congruence. }
  destruct (f32_isnan _ || f32_isnan _).
  { exists new1. cbn [snd].
    change (telemetry_topic (set_lastSend (millis st2) st2)) with (telemetry_topic st2).
    change (requests (set_lastSend (millis st2) st2)) with (requests st2).
    repeat split; [|assumption|]; congruence. }
  cbn [snd]. unfold publishTelemetry.
  set (st3 := set_lastSend (millis st2) st2).
  assert (S3 : requests st3 = requests st2 /\ telemetry_topic st3 = telemetry_topic st2)
    by (split; reflexivity).
  destruct S3 as [Q3 T3].
  assert (TT : telemetry_topic st3 = telemetry_topic st) by congruence.
  unfold telemetry_topic in TT |- *.
  destruct (String.length (iothubPublishTopic st3) =? 0)%nat eqn:Z0.
  - eexists (_ :: new1).
    cbn [requests issue set_publish_topic iothubPublishTopic deviceId app].
    rewrite telemetry_topic_fresh.
    split; [rewrite Q3, Q2, Q1; reflexivity|].
    split; [|exact TT].
    constructor; [cbn; exact TT | exact F1].
  - eexists (_ :: new1).
    cbn [requests issue iothubPublishTopic app]. rewrite Z0.
    split; [rewrite Q3, Q2, Q1; reflexivity|].
    split; [|exact TT].
    constructor; [cbn; exact TT | exact F1].
Qed.

Lemma run_loop_requests (ticks : list tick) :
  forall st : sketch,
    exists new : list request,
      requests (snd (run_loop snprintf_telemetry cfg ticks st))
      = (new ++ requests st)%list /\
      Forall (hub_request (telemetry_topic st)) new.
Proof.
  induction ticks as [|t ticks IH]; intros st.
  - exists []. split; [reflexivity | constructor].
  - cbn [run_loop].
    destruct (loop_requests t st) as (new1 & Q1 & F1 & T1).
    destruct (loop snprintf_telemetry cfg t st) as [r st1].
    cbn [snd] in Q1, T1.
    destruct (IH st1) as (new2 & Q2 & F2).
    destruct (run_loop snprintf_telemetry cfg ticks st1) as [obs st2].
    cbn [snd] in *.
    exists (new2 ++ new1)%list.
    split; [now rewrite Q2, Q1, app_assoc|].
    apply Forall_app. split; [now rewrite <- T1 | exact F1].
Qed.

End LoopFacts.

Lemma loop_backs_off_witness :
  fst (loop sample_snprintf sample_config
         (Tick 1700000010 false false (silent 1) (f32_of_int 40) (f32_of_int 21) 2000)
         (boot 6000))
  = BackedOff.
Proof.
  apply (loop_backs_off sample_snprintf sample_config
           (Tick 1700000010 false false (silent 1) (f32_of_int 40) (f32_of_int 21) 2000)
           (boot 6000)).
  - left. reflexivity.
  - reflexivity.
Defined.

Lemma loop_skips_invalid_reading_witness :
  lastSend
    (snd (loop sample_snprintf sample_config
            (Tick 1700000010 false true (silent 1) S754_nan (f32_of_int 21) 2000)
            (sample_session 6000 0)))
  = 6001.
Proof.
  apply (loop_skips_invalid_reading sample_snprintf sample_config
           (Tick 1700000010 false true (silent 1) S754_nan (f32_of_int 21) 2000)
           (sample_session 6000 0)).
  - reflexivity.
  - reflexivity.
  - vm_compute. discriminate.
  - reflexivity.
Defined.

Lemma loop_interval_wrap_safe_witness :
  fst (loop sample_snprintf sample_config
         (Tick 1700000010 false true (silent 1) (f32_of_int 40) (f32_of_int 21) 2000)
         (sample_session (2 ^ 32 + 4500) (2 ^ 32 - 1000)))
  = ServicedPublished.
Proof.
  apply (loop_interval_wrap_safe sample_snprintf sample_config
           (Tick 1700000010 false true (silent 1) (f32_of_int 40) (f32_of_int 21) 2000)
           (sample_session (2 ^ 32 + 4500) (2 ^ 32 - 1000))
           (2 ^ 32 - 1000) 5501).
  - reflexivity.
  - reflexivity.
  - reflexivity.
  - reflexivity.
  - lia.
  - vm_compute. reflexivity.
  - lia.
Defined.

(** X26. Through any run of the main loop the sketch issues connection
    attempts and telemetry publications only, and every publication goes to
    one and the same topic: the cached one, or, if none is cached yet,
    [devices/<deviceId>/messages/events/] with the device id the run starts
    with.  It never subscribes and never disconnects. *)
Theorem run_loop_single_topic
    (snprintf_telemetry : float32 -> float32 -> float32 -> Z -> string)
    (cfg : config) (ticks : list tick) (st : sketch) :
  exists new : list request,
    requests (snd (run_loop snprintf_telemetry cfg ticks st))
    = (new ++ requests st)%list /\
    Forall (hub_request (telemetry_topic st)) new /\
    (iothubPublishTopic st = EmptyString ->
     telemetry_topic st = "devices/" ++ deviceId st ++ "/messages/events/").
Proof.
  destruct (run_loop_requests snprintf_telemetry cfg ticks st) as (new & Q & F).
  exists new. split; [exact Q|]. split; [exact F|].
  intros E. unfold telemetry_topic. now rewrite E.
Qed.

(* ================================================================== *)
(** ** Start-up                                                        *)
(* ================================================================== *)

Lemma set_clock_after (a b : Z) (st : sketch) :
  set_clock (clock (delay a st) + b) (delay a st) = set_clock (clock st + (a + b)) st.
Proof.
  unfold delay. rewrite set_clock_twice. cbn [clock set_clock].
  now rewrite Z.add_assoc.
Qed.

(** With [left] rounds to go before the counter passes 60, the wait either
    finds the link up within them or restarts the board after them. *)
Lemma connectWiFi_wait_bounded (statuses : list bool) :
  forall (left : nat) (st : sketch),
    (1 <= left <= 61)%nat -> (left <= List.length statuses)%nat ->
    (exists k : nat,
        (k < left)%nat /\
        firstn k statuses = repeat false k /\
        nth_error statuses k = Some true /\
        connectWiFi_wait statuses (61 - Z.of_nat left) st
        = Some (WiFiUp, set_clock (clock st + 500 * Z.of_nat k) st)) \/
    (firstn left statuses = repeat false left /\
     connectWiFi_wait statuses (61 - Z.of_nat left) st
     = Some (WiFiRestart, set_clock (clock st + 500 * Z.of_nat left) st)).
Proof.
  induction statuses as [|up statuses IH]; intros left st B L.
  - cbn [List.length] in L. lia.
  - cbn [connectWiFi_wait]. destruct up.
    + left. exists 0%nat. repeat split; [lia|].
      replace (clock st + 500 * Z.of_nat 0) with (clock st) by lia.
      now rewrite set_clock_same.
    + cbv zeta.
      assert (T : (61 - Z.of_nat left + 1) mod 2 ^ 8 = 62 - Z.of_nat left)
        by (rewrite Z.mod_small; lia).
      rewrite T.
      destruct (Z.gtb_spec (62 - Z.of_nat left) 60) as [G|G].
      * right. assert (left = 1%nat) by lia. subst left.
        split; [reflexivity|]. unfold delay. do 2 f_equal.
      * destruct left as [|left]; [lia|].
        cbn [List.length] in L.
        replace (62 - Z.of_nat (S left)) with (61 - Z.of_nat left) by lia.
        destruct (IH left (delay 500 st)) as [(k & K & F & N & E)|(F & E)];
          [lia | lia | |].
        -- left. exists (S k). split; [lia|].
           split; [cbn [firstn repeat]; now rewrite F|].
           split; [exact N|].
           rewrite E, set_clock_after. do 3 f_equal. lia.
        -- right. split; [cbn [firstn repeat]; now rewrite F|].
           rewrite E, set_clock_after. do 3 f_equal. lia.
Qed.

(** X27. [connectWiFi] never waits for ever: given what the calls of
    [WiFi.status()] find, it returns as soon as one of the first 61 finds
    the link up, after one 500 ms delay for each call before it (30 s at
    most), and otherwise restarts the board after 61 delays, that is
    30.5 s.  Nothing but the clock changes. *)
Theorem connectWiFi_bounded (statuses : list bool) (st : sketch) :
  (61 <= List.length statuses)%nat ->
  (exists k : nat,
      (k <= 60)%nat /\
      firstn k statuses = repeat false k /\
      nth_error statuses k = Some true /\
      connectWiFi statuses st
      = Some (WiFiUp, set_clock (clock st + 500 * Z.of_nat k) st)) \/
  (firstn 61 statuses = repeat false 61 /\
   connectWiFi statuses st
   = Some (WiFiRestart, set_clock (clock st + 30500) st)).
Proof.
  intros L. unfold connectWiFi.
  destruct (connectWiFi_wait_bounded statuses 61 st) as [(k & K & F & N & E)|(F & E)];
    [lia | exact L | |].
  - left. exists k. repeat split; [lia | exact F | exact N | exact E].
  - right. split; [exact F | exact E].
Qed.

Lemma connectWiFi_bounded_witness :
  (exists k : nat,
      (k <= 60)%nat /\
      firstn k (repeat false 60 ++ [true])%list = repeat false k /\
      nth_error (repeat false 60 ++ [true])%list k = Some true /\
      connectWiFi (repeat false 60 ++ [true])%list (boot 200)
      = Some (WiFiUp, set_clock (clock (boot 200) + 500 * Z.of_nat k) (boot 200))) \/
  (firstn 61 (repeat false 60 ++ [true])%list = repeat false 61 /\
   connectWiFi (repeat false 60 ++ [true])%list (boot 200)
   = Some (WiFiRestart, set_clock (clock (boot 200) + 30500) (boot 200))).
Proof.
  apply connectWiFi_bounded. cbn. lia.
Defined.

Lemma syncTime_loop_bounded (time : Z -> Z) (todo : nat) :
  forall (now : Z) (st : sketch),
    exists k : nat,
      (k <= todo)%nat /\
      syncTime_loop todo time now st
      = ((if (k =? 0)%nat then now else time (clock st + 500 * Z.of_nat k)),
         set_clock (clock st + 500 * Z.of_nat k) st) /\
      (forall j : nat, (1 <= j < k)%nat ->
                       time (clock st + 500 * Z.of_nat j) < 1700000000) /\
      ((0 < k)%nat -> now < 1700000000) /\
      (fst (syncTime_loop todo time now st) < 1700000000 -> k = todo).
Proof.
  induction todo as [|todo IH]; intros now st.
  - exists 0%nat. cbn [syncTime_loop Nat.eqb fst].
    replace (clock st + 500 * Z.of_nat 0) with (clock st) by lia.
    rewrite set_clock_same. repeat split; lia.
  - cbn [syncTime_loop]. destruct (Z.ltb_spec now 1700000000) as [B|B].
    + cbv zeta.
      destruct (IH (time (clock (delay 500 st))) (delay 500 st))
        as (k & K & E & J & P & Q).
      exists (S k). split; [lia|].
      split.
      { rewrite E, set_clock_after. cbn [Nat.eqb].
        replace (clock st + (500 + 500 * Z.of_nat k))
          with (clock st + 500 * Z.of_nat (S k)) by lia.
        f_equal. destruct k as [|k]; cbn [Nat.eqb].
        - cbn [delay clock set_clock]. apply f_equal. lia.
        - cbn [delay clock set_clock]. apply f_equal. lia. }
      split.
      { intros j Hj. destruct (Nat.eq_dec j 1) as [->|Hn].
        - specialize (P ltac:(lia)). cbn [delay clock set_clock] in P.
          replace (clock st + 500 * Z.of_nat 1) with (clock st + 500) by lia.
          exact P.
        - specialize (J (j - 1)%nat ltac:(lia)).
          cbn [delay clock set_clock] in J.
          replace (clock st + 500 * Z.of_nat j)
            with (clock st + 500 + 500 * Z.of_nat (j - 1)) by lia.
          exact J. }
      split; [intros _; exact B|].
      intros R. f_equal. apply Q. exact R.
    + exists 0%nat. cbn [Nat.eqb fst].
      replace (clock st + 500 * Z.of_nat 0) with (clock st) by lia.
      rewrite set_clock_same. repeat split; lia.
Qed.

(** X28. [syncTime] reads the time at least once and at most 60 times,
    500 ms apart, stops at the first reading that is not below 1700000000,
    and changes nothing but the clock.  A time that never gets there does
    not stop the sketch: after 60 readings, 30 s, the function returns all
    the same. *)
Theorem syncTime_bounded (time : Z -> Z) (st : sketch) :
  exists k : nat,
    (1 <= k <= 60)%nat /\
    syncTime time st
    = (time (clock st + 500 * Z.of_nat k),
       set_clock (clock st + 500 * Z.of_nat k) st) /\
    (forall j : nat, (1 <= j < k)%nat ->
                     time (clock st + 500 * Z.of_nat j) < 1700000000) /\
    (time (clock st + 500 * Z.of_nat k) < 1700000000 -> k = 60%nat).
Proof.
  unfold syncTime.
  destruct (syncTime_loop_bounded time 60 0 st) as (k & K & E & J & _ & Q).
  assert (K1 : (1 <= k)%nat).
  { destruct k as [|k]; [|lia]. rewrite E in Q. cbn [Nat.eqb fst] in Q.
    specialize (Q ltac:(lia)). discriminate. }
  exists k. split; [lia|].
  rewrite E in Q |- *. cbn [fst] in Q.
  destruct k as [|k]; [lia|]. cbn [Nat.eqb] in Q |- *.
  split; [reflexivity|]. split; [exact J | exact Q].
Qed.

Lemma handshake_true_link_down (cfg : config) (now : Z)
    (connect_ok : bool) (script rest : list event) (st st' : sketch) :
  dpsRegisterAndGetHub cfg now connect_ok script st = (true, rest, st') ->
  connected st' = false.
Proof.
  unfold dpsRegisterAndGetHub. cbv zeta.
  destruct (String.eqb _ EmptyString); [discriminate|].
  destruct connect_ok; [|discriminate]. cbn [negb].
  match goal with
  | |- context [register_wait script ?t ?s] =>
      destruct (register_wait script t s) as [[x script'] st1] eqn:W
  end.
  destruct x as [|operationId].
  - intros H. injection H as _ <-.
    exact (proj1 (register_wait_true_closed _ _ _ _ _ W)).
  - destruct (String.eqb operationId EmptyString); [discriminate|].
    intros H. exact (proj1 (poll_loop_true_closed _ _ _ _ _ _ H)).
Qed.

(** A pass that starts with the link down first asks for a connection to
    the hub and the device that the globals name. *)
Lemma loop_first_connect
    (snprintf_telemetry : float32 -> float32 -> float32 -> Z -> string)
    (cfg : config) (t : tick) (st : sketch) :
  connected st = false ->
  exists new : list request,
    requests (snd (loop snprintf_telemetry cfg t st))
    = (new ++
       Connect (assignedHub st) (deviceId st)
         (buildIoTHubUsername (assignedHub st) (deviceId st))
         (buildSasToken (assignedHub st ++ "/devices/" ++ deviceId st)
            (DPS_DEVICE_KEY_BASE64 cfg) (tick_time t + SAS_TTL_SECS))
       :: requests st)%list.
Proof.
  intros C. unfold loop.
  set (st0 := if tick_link_lost t then set_link false (callback_set st) st else st).
  assert (C0 : connected st0 = false)
    by (subst st0; destruct (tick_link_lost t); [reflexivity | exact C]).
  assert (S0 : requests st0 = requests st /\ assignedHub st0 = assignedHub st /\
               deviceId st0 = deviceId st)
    by (subst st0; destruct (tick_link_lost t); repeat split).
  destruct S0 as (Sq & Sh & Sd).
  unfold ensureIoTHubMqtt, buildIoTHubSas. rewrite C0.
  cbn [set_link set_sasExpiry assignedHub deviceId sasExpiry issue requests].
  rewrite Sh, Sd.
  destruct (tick_connect_ok t); cbn [negb].
  2:{ exists []. cbn [snd delay set_clock set_link issue set_sasExpiry requests app].
      now rewrite Sq. }
  match goal with |- context [mqtt_loop ?e ?s] => set (st2 := mqtt_loop e s) end.
  assert (Q2 : requests st2
               = Connect (assignedHub st) (deviceId st)
                   (buildIoTHubUsername (assignedHub st) (deviceId st))
                   (buildSasToken (assignedHub st ++ "/devices/" ++ deviceId st)
                      (DPS_DEVICE_KEY_BASE64 cfg) (tick_time t + SAS_TTL_SECS))
                 :: requests st).
  { rewrite <- Sq. subst st2. unfold mqtt_loop.
    destruct (incoming _); [|reflexivity].
    match goal with |- context [if ?b then _ else _] => destruct b end; reflexivity. }
  destruct (SEND_INTERVAL_MS <=? _); [|exists []; exact Q2].
  destruct (f32_isnan _ || f32_isnan _); [exists []; exact Q2|].
  cbn [snd]. unfold publishTelemetry.
  destruct (String.length _ =? 0)%nat; eexists [_];
    cbn [requests issue set_publish_topic set_lastSend app]; now rewrite Q2.
Qed.

(** X29. Given what the first 61 calls of [WiFi.status()] find, [setup]
    either restarts the board or returns, and it returns only when
    provisioned: both [assignedHub] and [deviceId] are then non-empty, the
    provisioning connection is closed, and the first pass of [loop()]
    begins by asking for a connection to that hub under that device id,
    with a token signed for [<assignedHub>/devices/<deviceId>]. *)
Theorem setup_provisions_or_restarts
    (snprintf_telemetry : float32 -> float32 -> float32 -> Z -> string)
    (cfg : config) (statuses : list bool) (time : Z -> Z) (connect_ok : bool)
    (script : list event) (st : sketch) (t : tick) :
  (61 <= List.length statuses)%nat ->
  exists (e : setup_exit) (rest : list event) (st' : sketch),
    setup cfg statuses time connect_ok script st = Some (e, rest, st') /\
    (e = SetupDone ->
     nonempty (assignedHub st') && nonempty (deviceId st') = true /\
     connected st' = false /\
     exists new : list request,
       requests (snd (loop snprintf_telemetry cfg t st'))
       = (new ++
          Connect (assignedHub st') (deviceId st')
            (buildIoTHubUsername (assignedHub st') (deviceId st'))
            (buildSasToken (assignedHub st' ++ "/devices/" ++ deviceId st')
               (DPS_DEVICE_KEY_BASE64 cfg) (tick_time t + SAS_TTL_SECS))
          :: requests st')%list).
Proof.
  intros L. unfold setup. cbv zeta.
  destruct (connectWiFi_wait_bounded statuses 61 (delay 200 st))
    as [(k & _ & _ & _ & E)|(_ & E)]; [lia | exact L | |];
    change (61 - Z.of_nat 61) with 0 in E; unfold connectWiFi; rewrite E.
  2:{ do 3 eexists. split; [reflexivity | discriminate]. }
  match goal with
  | |- context [dpsRegisterAndGetHub ?c ?n ?o ?s ?x] =>
      destruct (dpsRegisterAndGetHub c n o s x) as [[ok rest] st'] eqn:D
  end.
  destruct ok.
  2:{ do 3 eexists. split; [reflexivity | discriminate]. }
  exists SetupDone, rest, st'. split; [reflexivity|]. intros _.
  split; [exact (handshake_true_filled _ _ _ _ _ _ _ D)|].
  pose proof (handshake_true_link_down _ _ _ _ _ _ _ D) as C.
  split; [exact C|].
  exact (loop_first_connect snprintf_telemetry cfg t st' C).
Qed.

Lemma setup_provisions_or_restarts_witness :
  exists (e : setup_exit) (rest : list event) (st' : sketch),
    setup sample_config (repeat false 3 ++ repeat true 58)%list sample_time true
      [Event 3 (Some response_assigned)] (boot 0) = Some (e, rest, st') /\
    (e = SetupDone ->
     nonempty (assignedHub st') && nonempty (deviceId st') = true /\
     connected st' = false /\
     exists new : list request,
       requests (snd (loop sample_snprintf sample_config (steady_tick 1700000010) st'))
       = (new ++
          Connect (assignedHub st') (deviceId st')
            (buildIoTHubUsername (assignedHub st') (deviceId st'))
            (buildSasToken (assignedHub st' ++ "/devices/" ++ deviceId st')
               (DPS_DEVICE_KEY_BASE64 sample_config)
               (tick_time (steady_tick 1700000010) + SAS_TTL_SECS))
          :: requests st')%list).
Proof.
  apply setup_provisions_or_restarts. cbn. lia.
Defined.

(* ================================================================== *)
(** ** Base64: decoding what was encoded                               *)
(* ================================================================== *)

Section Base64.

#[local] Arguments Z.land : simpl never.
#[local] Arguments Z.lor : simpl never.
#[local] Arguments Z.shiftl : simpl never.
#[local] Arguments Z.shiftr : simpl never.
#[local] Arguments Z.modulo : simpl never.
#[local] Arguments Z.div : simpl never.
#[local] Arguments Z.mul : simpl never.
#[local] Arguments Z.add : simpl never.

Lemma land_disjoint (p q k : Z) :
  0 <= k -> 0 <= q < 2 ^ k -> Z.land (p * 2 ^ k) q = 0.
Proof.
  intros Hk Hq. apply Z.bits_inj'. intros n Hn.
  rewrite Z.land_spec, Z.bits_0.
  destruct (Z.lt_ge_cases n k) as [L|G].
  - now rewrite Z.mul_pow2_bits_low.
  - destruct (Z.eq_dec q 0) as [->|NZ]; [now rewrite Z.bits_0, andb_false_r|].
    rewrite (Z.bits_above_log2 q n), andb_false_r; [reflexivity | lia|].
    apply Z.lt_le_trans with k; [|exact G].
    apply Z.log2_lt_pow2; lia.
Qed.

Lemma lor_disjoint (p q k : Z) :
  0 <= k -> 0 <= q < 2 ^ k -> Z.lor (p * 2 ^ k) q = p * 2 ^ k + q.
Proof.
  intros Hk Hq. rewrite <- Z.add_lor_land, land_disjoint by assumption. lia.
Qed.

(** One step of the accumulator of the decoder. *)
Lemma accumulate_digit (x v : Z) :
  0 <= v < 64 ->
  Z.lor (Z.land (Z.shiftl x 6) 0xFFFFFFFF) v = (x mod 2 ^ 26) * 64 + v.
Proof.
  intros Hv. change 0xFFFFFFFF with (Z.ones 32).
  rewrite Z.land_ones, Z.shiftl_mul_pow2 by lia.
  change (2 ^ 32) with (2 ^ 26 * 2 ^ 6).
  rewrite Z.mul_mod_distr_r by lia.
  now apply lor_disjoint.
Qed.

Lemma accumulate_pad (x : Z) :
  Z.land (Z.shiftl x 6) 0xFFFFFFFF = (x mod 2 ^ 26) * 64.
Proof.
  change 0xFFFFFFFF with (Z.ones 32).
  rewrite Z.land_ones, Z.shiftl_mul_pow2 by lia.
  change (2 ^ 32) with (2 ^ 26 * 2 ^ 6).
  now rewrite Z.mul_mod_distr_r by lia.
Qed.

Lemma base64_digit_facts (v : Z) :
  base64_value (base64_digit v) = Some (v mod 64) /\
  Ascii.eqb (base64_digit v) " " = false /\
  Ascii.eqb (base64_digit v) "010" = false /\
  Ascii.eqb (base64_digit v) "013" = false /\
  Ascii.eqb (base64_digit v) "=" = false.
Proof.
  unfold base64_digit. change 63 with (Z.ones 6).
  rewrite Z.land_ones by lia. change (2 ^ 6) with 64.
  pose proof (Z.mod_pos_bound v 64 ltac:(lia)) as B.
  rewrite <- (Z2Nat.id (v mod 64)) at 2 by lia.
  assert (L : (Z.to_nat (v mod 64) < 64)%nat) by lia.
  generalize dependent (Z.to_nat (v mod 64)). intros n L.
  do 64 (destruct n as [|n]; [repeat split; reflexivity|]). lia.
Qed.


Lemma need_formula (j : nat) :
  (6 * (4 * j / 8) + (6 * ((4 * j) mod 8) + 7) / 8 = 3 * j)%nat.
Proof.
  pose proof (Nat.div_mod_eq (4 * j) 8) as E.
  pose proof (Nat.mod_upper_bound (4 * j) 8 ltac:(lia)) as B.
  assert (M : ((4 * j) mod 8 = 0 \/ (4 * j) mod 8 = 4)%nat) by lia.
  destruct M as [M|M]; rewrite M in *.
  - replace ((6 * 0 + 7) / 8)%nat with 0%nat by reflexivity. lia.
  - replace ((6 * 4 + 7) / 8)%nat with 3%nat by reflexivity. lia.
Qed.

(** Induction on a list of bytes in groups of three, as the encoder
    consumes it. *)
Lemma groups_of_three (P : bytes -> Prop) :
  P [] -> (forall a, P [a]) -> (forall a b, P [a; b]) ->
  (forall a b c r, P r -> P (a :: b :: c :: r)) ->
  forall bs, P bs.
Proof.
  intros H0 H1 H2 H3.
  assert (A : forall bs, P bs /\ (forall a, P (a :: bs)) /\
                         (forall a b, P (a :: b :: bs))).
  { induction bs as [|c bs (I0 & I1 & I2)].
    - repeat split; auto.
    - split; [apply I1|]. split; [intros a; apply I2|].
      intros a b. apply H3, I0. }
  intros bs. apply A.
Qed.

(** The first pass of the decoder over a digit and over a padding sign. *)
Lemma base64_scan_digit (v : Z) (r : string) (n : nat) :
  base64_scan (String (base64_digit v) r) n 0 false
  = base64_scan r (S n) 0 false.
Proof.
  destruct (base64_digit_facts v) as (V & S0 & S1 & S2 & S3).
  cbn [base64_scan]. rewrite S0, S1, S2, S3, V. reflexivity.
Qed.

Lemma base64_scan_pad (r : string) (n e : nat) :
  (e < 2)%nat ->
  base64_scan (String "=" r) n e false = base64_scan r (S n) (S e) false.
Proof.
  intros L. cbn [base64_scan].
  change (Ascii.eqb "=" " ") with false.
  change (Ascii.eqb "=" "010") with false.
  change (Ascii.eqb "=" "013") with false.
  change (Ascii.eqb "=" "=") with true. cbn [andb].
  destruct (Nat.ltb_spec 2 (S e)); [lia | reflexivity].
Qed.

Lemma base64_scan_encode (bs : bytes) :
  forall n : nat,
    exists j e : nat,
      base64_scan (mbedtls_base64_encode bs) n 0 false = Some ((n + 4 * j)%nat, e) /\
      (3 * j = List.length bs + e)%nat.
Proof.
  induction bs as [|a|a b|a b c r IH] using groups_of_three; intros n.
  - exists 0%nat, 0%nat. cbn [mbedtls_base64_encode base64_scan List.length].
    split; [f_equal; f_equal; lia | lia].
  - exists 1%nat, 2%nat. cbn [mbedtls_base64_encode List.length].
    rewrite !base64_scan_digit, !base64_scan_pad by lia.
    cbn [base64_scan]. split; [f_equal; f_equal; lia | lia].
  - exists 1%nat, 1%nat. cbn [mbedtls_base64_encode List.length].
    rewrite !base64_scan_digit, !base64_scan_pad by lia.
    cbn [base64_scan]. split; [f_equal; f_equal; lia | lia].
  - cbn [mbedtls_base64_encode]. rewrite !base64_scan_digit.
    destruct (IH (S (S (S (S n))))) as (j & e & -> & R).
    exists (S j), e. cbn [List.length]. split; [f_equal; f_equal; lia | lia].
Qed.

(** The second pass over a digit and over a padding sign. *)
Lemma base64_emit_digit (v x : Z) (r : string) (digits equals : nat) :
  base64_emit (String (base64_digit v) r) x digits equals
  = if (S digits =? 4)%nat then
      ((Z.land (Z.shiftr ((x mod 2 ^ 26) * 64 + v mod 64) 16) 255 ::
        (if (equals <=? 1)%nat
         then [Z.land (Z.shiftr ((x mod 2 ^ 26) * 64 + v mod 64) 8) 255]
         else []) ++
        (if (equals <=? 0)%nat
         then [Z.land ((x mod 2 ^ 26) * 64 + v mod 64) 255]
         else [])) ++
       base64_emit r ((x mod 2 ^ 26) * 64 + v mod 64) 0 equals)%list
    else base64_emit r ((x mod 2 ^ 26) * 64 + v mod 64) (S digits) equals.
Proof.
  destruct (base64_digit_facts v) as (V & S0 & S1 & S2 & S3).
  cbn [base64_emit]. rewrite S0, S1, S2, S3, V. cbn [orb]. cbv zeta.
  rewrite (accumulate_digit x (v mod 64))
    by (apply Z.mod_pos_bound; lia).
  reflexivity.
Qed.

Lemma base64_emit_pad (x : Z) (r : string) (digits equals : nat) :
  base64_emit (String "=" r) x digits equals
  = if (S digits =? 4)%nat then
      ((Z.land (Z.shiftr ((x mod 2 ^ 26) * 64) 16) 255 ::
        (if (S equals <=? 1)%nat
         then [Z.land (Z.shiftr ((x mod 2 ^ 26) * 64) 8) 255]
         else []) ++
        (if (S equals <=? 0)%nat
         then [Z.land ((x mod 2 ^ 26) * 64) 255]
         else [])) ++
       base64_emit r ((x mod 2 ^ 26) * 64) 0 (S equals))%list
    else base64_emit r ((x mod 2 ^ 26) * 64) (S digits) (S equals).
Proof.
  cbn [base64_emit].
  change (Ascii.eqb "=" "013") with false.
  change (Ascii.eqb "=" "010") with false.
  change (Ascii.eqb "=" " ") with false.
  change (Ascii.eqb "=" "=") with true.
  change (base64_value "=") with (@None Z).
  cbn [orb]. cbv zeta. rewrite accumulate_pad. reflexivity.
Qed.

Lemma low_bits (y : Z) : Z.land y 255 = y mod 256.
Proof. change 255 with (Z.ones 8). now rewrite Z.land_ones by lia. Qed.

Lemma encoded_pair (hi lo k m : Z) :
  0 <= k -> 0 <= lo < 2 ^ (k + m) -> 0 <= m ->
  Z.lor (Z.shiftl hi k) (Z.shiftr lo m) = hi * 2 ^ k + lo / 2 ^ m.
Proof.
  intros Hk Hlo Hm. rewrite Z.shiftl_mul_pow2, Z.shiftr_div_pow2 by lia.
  apply lor_disjoint; [exact Hk|].
  split; [apply Z.div_pos; lia|].
  apply Z.div_lt_upper_bound; [lia|].
  rewrite <- Z.pow_add_r by lia. now rewrite Z.add_comm.
Qed.

Ltac to_arith :=
  rewrite ?low_bits, ?Z.shiftr_div_pow2, ?Z.shiftl_mul_pow2 by lia;
  change (2 ^ 26) with 67108864; change (2 ^ 16) with 65536;
  change (2 ^ 8) with 256; change (2 ^ 6) with 64; change (2 ^ 4) with 16;
  change (2 ^ 2) with 4.

Lemma base64_emit_encode (bs : bytes) :
  Forall is_byte bs ->
  forall x : Z, base64_emit (mbedtls_base64_encode bs) x 0 0 = bs.
Proof.
  induction bs as [|a|a b|a b c r IH] using groups_of_three; intros B x.
  - reflexivity.
  - inversion_clear B as [|? ? Ha _]. unfold is_byte in Ha.
    cbn [mbedtls_base64_encode].
    rewrite !base64_emit_digit, !base64_emit_pad.
    cbn [Nat.eqb Nat.leb app base64_emit].
    change 3 with (Z.ones 2). rewrite Z.land_ones by lia.
    to_arith. f_equal.
    Z.to_euclidean_division_equations; lia.
  - inversion_clear B as [|? ? Ha B']. inversion_clear B' as [|? ? Hb _].
    unfold is_byte in Ha, Hb.
    cbn [mbedtls_base64_encode].
    rewrite !base64_emit_digit, !base64_emit_pad.
    cbn [Nat.eqb Nat.leb app base64_emit].
    change 3 with (Z.ones 2). change 15 with (Z.ones 4).
    rewrite (encoded_pair (Z.land a (Z.ones 2)) b 4 4) by lia.
    rewrite !Z.land_ones by lia.
    to_arith. f_equal; [|f_equal];
      Z.to_euclidean_division_equations; lia.
  - inversion_clear B as [|? ? Ha B']. inversion_clear B' as [|? ? Hb B].
    inversion_clear B as [|? ? Hc Br].
    unfold is_byte in Ha, Hb, Hc.
    cbn [mbedtls_base64_encode].
    rewrite !base64_emit_digit.
    cbn [Nat.eqb Nat.leb app].
    rewrite (IH Br).
    change 3 with (Z.ones 2). change 15 with (Z.ones 4).
    rewrite (encoded_pair (Z.land a (Z.ones 2)) b 4 4) by lia.
    rewrite (encoded_pair (Z.land b (Z.ones 4)) c 2 6) by lia.
    rewrite !Z.land_ones by lia.
    to_arith. f_equal; [|f_equal; [|f_equal]];
      Z.to_euclidean_division_equations; lia.
Qed.

(** Decoding what the encoder wrote gives the bytes back, into any buffer
    that is large enough for them. *)
Lemma base64_decode_encode (bs : bytes) (dlen : nat) :
  Forall is_byte bs -> (List.length bs <= dlen)%nat ->
  mbedtls_base64_decode dlen (mbedtls_base64_encode bs) = Some bs.
Proof.
  intros B L. unfold mbedtls_base64_decode.
  destruct (base64_scan_encode bs 0) as (j & e & -> & R).
  destruct j as [|j].
  - cbn [Nat.add Nat.mul]. destruct bs; [reflexivity | cbn [List.length] in R; lia].
  - replace (0 + 4 * S j)%nat with (S (4 * j + 3)) by lia.
    replace (S (4 * j + 3)) with (4 * S j)%nat at 1 2 by lia.
    rewrite need_formula.
    destruct (Nat.ltb_spec dlen (3 * S j - e)); [lia|].
    now rewrite base64_emit_encode.
Qed.

(** A buffer that is too small for them makes the decoder fail. *)
Lemma base64_decode_encode_short (bs : bytes) (dlen : nat) :
  (dlen < List.length bs)%nat ->
  mbedtls_base64_decode dlen (mbedtls_base64_encode bs) = None.
Proof.
  intros L. unfold mbedtls_base64_decode.
  destruct (base64_scan_encode bs 0) as (j & e & -> & R).
  destruct j as [|j]; [lia|].
  replace (0 + 4 * S j)%nat with (S (4 * j + 3)) by lia.
  replace (S (4 * j + 3)) with (4 * S j)%nat at 1 2 by lia.
  rewrite need_formula.
  destruct (Nat.ltb_spec dlen (3 * S j - e)); [reflexivity | lia].
Qed.

Lemma sha256_bytes (msg : bytes) : Forall is_byte (SHA256.hash msg).
Proof.
  unfold SHA256.hash, SHA256.digest_of, SHA256.bytes_of_word. cbn [app].
  repeat constructor; rewrite low_bits; apply Z.mod_pos_bound; lia.
Qed.

Lemma hmac_sha256_bytes (key msg : bytes) :
  Forall is_byte (hmac_sha256 key msg).
Proof. unfold hmac_sha256. apply sha256_bytes. Qed.

End Base64.

(* ================================================================== *)
(** ** The form of the token                                           *)
(* ================================================================== *)

(** [tolower] and [toLowerCase] agree with the lower-casing by the place in
    the alphabet. *)
Lemma tolower_lowercase_letter (c : ascii) :
  WString.tolower c = lowercase_letter c.
Proof. destruct c as [[] [] [] [] [] [] [] []]; vm_compute; reflexivity. Qed.

Lemma toLowerCase_lowercased (s : string) :
  WString.toLowerCase s = lowercased s.
Proof.
  induction s as [|c s IH]; [reflexivity|].
  cbn [WString.toLowerCase lowercased].
  now rewrite tolower_lowercase_letter, IH.
Qed.

Lemma digit_value_ultoa (d : Z) :
  0 <= d < 10 -> digit_value (ascii_of_nat (48 + Z.to_nat d)) = Some d.
Proof.
  intros H.
  assert (E : d = 0 \/ d = 1 \/ d = 2 \/ d = 3 \/ d = 4 \/
              d = 5 \/ d = 6 \/ d = 7 \/ d = 8 \/ d = 9) by lia.
  repeat (destruct E as [-> | E]; [reflexivity|]). now subst.
Qed.

Lemma numeral_ultoa (fuel : nat) :
  forall (n : Z) (acc : string),
    0 <= n < 10 ^ Z.of_nat fuel ->
    numeral_value (WString.ultoa_digits fuel n acc) 0 = numeral_value acc n.
Proof.
  induction fuel as [|fuel IH]; intros n acc H.
  - simpl in *. now replace n with 0 by lia.
  - rewrite Nat2Z.inj_succ, Z.pow_succ_r in H by lia.
    cbn [WString.ultoa_digits].
    pose proof (Z.mod_pos_bound n 10 ltac:(lia)) as Hd.
    pose proof (Z.div_mod n 10 ltac:(lia)) as Hn.
    destruct (Z.eqb_spec (n / 10) 0) as [Z0|NZ].
    + cbn [numeral_value]. rewrite digit_value_ultoa by exact Hd.
      f_equal. lia.
    + rewrite IH.
      * cbn [numeral_value]. rewrite digit_value_ultoa by exact Hd.
        f_equal. lia.
      * split; [apply Z.div_pos; lia|].
        apply Z.div_lt_upper_bound; lia.
Qed.

(** The numeral of a positive number starts with a digit other than zero. *)
Lemma ultoa_leading (fuel : nat) :
  forall (n : Z) (acc : string),
    0 < n < 10 ^ Z.of_nat fuel ->
    exists d r, 1 <= d < 10 /\
      WString.ultoa_digits fuel n acc
      = String (ascii_of_nat (48 + Z.to_nat d)) r.
Proof.
  induction fuel as [|fuel IH]; intros n acc H.
  - simpl in H. lia.
  - rewrite Nat2Z.inj_succ, Z.pow_succ_r in H by lia.
    cbn [WString.ultoa_digits].
    pose proof (Z.mod_pos_bound n 10 ltac:(lia)) as Hd.
    pose proof (Z.div_mod n 10 ltac:(lia)) as Hn.
    destruct (Z.eqb_spec (n / 10) 0) as [Z0|NZ].
    + exists (n mod 10), acc. split; [lia | reflexivity].
    + apply IH. split.
      * pose proof (Z.div_pos n 10 ltac:(lia) ltac:(lia)). lia.
      * apply Z.div_lt_upper_bound; lia.
Qed.

Lemma is_decimal_of_ulong (n : Z) :
  0 <= n < 2 ^ 32 -> is_decimal_of n (WString.of_ulong n) = true.
Proof.
  intros H. destruct (Z.eq_dec n 0) as [->|NZ]; [reflexivity|].
  assert (B : 0 < n < 10 ^ Z.of_nat 10)
    by (change (10 ^ Z.of_nat 10) with 10000000000;
        change (2 ^ 32) with 4294967296 in H; lia).
  unfold WString.of_ulong.
  destruct (ultoa_leading 10 n EmptyString B) as (d & r & Hd & E).
  pose proof (numeral_ultoa 10 n EmptyString ltac:(lia)) as V.
  rewrite E in V |- *. unfold is_decimal_of. rewrite V.
  cbn [numeral_value]. rewrite Z.eqb_refl, andb_true_r.
  assert (D : d = 1 \/ d = 2 \/ d = 3 \/ d = 4 \/ d = 5 \/
              d = 6 \/ d = 7 \/ d = 8 \/ d = 9) by lia.
  repeat (destruct D as [-> | D]; [reflexivity|]). now subst.
Qed.

Lemma urlEncode_rule_safe (s : string) :
  all_chars url_safe (urlEncode_rule s) = true.
Proof.
  induction s as [|a s IH]; [reflexivity|].
  cbn [urlEncode_rule]. now rewrite all_chars_append, encode_byte_safe, IH.
Qed.

(** A separator is first found right after a text that does not hold its
    first character. *)
Lemma index_separator (c : ascii) (sep body post : string) :
  occurs (String c EmptyString) body = false ->
  String.index 0 (String c sep) (body ++ String c sep ++ post)
  = Some (String.length body).
Proof.
  induction body as [|b body IH]; intros H.
  - exact (index_here (String c sep) post).
  - apply occurs_char_cons in H as [E O].
    change (String b body ++ String c sep ++ post)
      with (String b (body ++ String c sep ++ post)).
    cbn [String.index].
    assert (P : String.prefix (String c sep)
                  (String b (body ++ String c sep ++ post)) = false).
    { simpl. destruct (ascii_dec c b) as [->|_]; [|reflexivity].
      now rewrite Ascii.eqb_refl in E. }
    rewrite P, (IH O). reflexivity.
Qed.

Lemma split_once_separator (c : ascii) (sep body post : string) :
  occurs (String c EmptyString) body = false ->
  split_once (String c sep) (body ++ String c sep ++ post) = Some (body, post).
Proof.
  intros H. unfold split_once. rewrite (index_separator c sep body post H).
  rewrite substring_prefix.
  rewrite <- (length_append body (String c sep)), <- append_assoc.
  now rewrite substring_tail.
Qed.

Lemma token_fields_form (sr sig se : string) :
  occurs "&" sr = false -> occurs "&" sig = false ->
  token_fields ("SharedAccessSignature sr=" ++ sr ++ "&sig=" ++ sig ++ "&se=" ++ se)
  = Some (sr, sig, se).
Proof.
  intros Hr Hs. unfold token_fields. rewrite prefix_append.
  change 25%nat with (String.length "SharedAccessSignature sr=").
  rewrite substring_tail.
  rewrite (split_once_separator "&" "sig=" sr _ Hr).
  now rewrite (split_once_separator "&" "se=" sig se Hs).
Qed.




(* ================================================================== *)
(** ** The handshake on scripted responses                             *)
(* ================================================================== *)

Section Responses.

#[local] Arguments topicStatusCode : simpl never.
#[local] Arguments jsonGet : simpl never.
#[local] Arguments jsonGetNested : simpl never.
#[local] Arguments buildSasToken : simpl never.
#[local] Arguments String.substring : simpl never.
#[local] Arguments String.eqb : simpl never.
#[local] Arguments Z.modulo : simpl never.
#[local] Arguments Z.pow : simpl never.
#[local] Arguments Z.add : simpl never.
#[local] Arguments Z.sub : simpl never.
#[local] Arguments Z.mul : simpl never.
#[local] Arguments Z.ltb : simpl never.
#[local] Arguments Z.eqb : simpl never.

(** *** What the sketch reads from a response that is described *)

Lemma occurs_char_append (c : ascii) (a b : string) :
  occurs (String c EmptyString) (a ++ b)
  = occurs (String c EmptyString) a || occurs (String c EmptyString) b.
Proof.
  induction a as [|x a IH].
  - cbn [append occurs]. destruct b; reflexivity.
  - change (String x a ++ b) with (String x (a ++ b)).
    cbn [occurs]. rewrite !prefix_char, IH.
    now destruct (ascii_dec c x).
Qed.

Lemma c_string_append (a b : string) :
  occurs NUL a = false -> c_string (a ++ b) = a ++ c_string b.
Proof.
  induction a as [|x a IH]; intros H; [reflexivity|].
  unfold NUL in *. apply occurs_char_cons in H as [E H].
  change (String x a ++ b) with (String x (a ++ b)).
  cbn [c_string]. rewrite E, (IH H). reflexivity.
Qed.

Lemma seen_payload_whole (m : message) :
  whole m = true -> seen_payload m = msg_payload m.
Proof.
  unfold whole. intros H. apply andb_true_iff in H as [L N].
  apply Nat.leb_le in L. apply negb_true_iff in N.
  unfold seen_payload.
  destruct (Nat.ltb_spec 2000 (String.length (msg_payload m))); [lia|].
  rewrite substring_all by lia. now apply c_string_clean.
Qed.

(** The status code is read from a topic of the documented form. *)
Lemma response_code_status (digits : string) (m : message) :
  String.length digits = 3%nat ->
  occurs NUL digits = false ->
  status_topic digits m = true ->
  response_code m = WString.toInt digits.
Proof.
  intros L N H. unfold status_topic in H.
  apply prefix_split in H as [post E].
  unfold response_code, seen_topic. rewrite E.
  rewrite !append_assoc.
  rewrite (c_string_append "$dps/registrations/res/" _ eq_refl).
  rewrite (c_string_append digits _ N).
  rewrite (c_string_append "/" _ eq_refl).
  change ("$dps/registrations/res/" ++ digits ++ "/" ++ c_string post)
    with ("$dps/registrations" ++ "/res/" ++ digits ++ String "/" (c_string post)).
  unfold topicStatusCode.
  assert (I : String.index 0 "/res/"
                ("$dps/registrations" ++ "/res/" ++ digits ++
                 String "/" (c_string post))
              = Some (String.length "$dps/registrations"))
    by (cbn; rewrite prefix_empty; reflexivity).
  rewrite (indexOf_first "$dps/registrations" "/res/" _ I)
    by (cbn; lia).
  change (Z.of_nat (String.length "$dps/registrations")) with 18.
  change (18 <? 0) with false. cbv iota.
  unfold WString.len.
  destruct (Z.ltb_spec
              (Z.of_nat (String.length
                 ("$dps/registrations" ++ "/res/" ++ digits ++
                  String "/" (c_string post))))
              (18 + 9)) as [B|_].
  { rewrite !length_append, L in B. cbn [String.length] in B. lia. }
  f_equal.
  change ("$dps/registrations" ++ "/res/" ++ digits ++ String "/" (c_string post))
    with ("$dps/registrations/res/" ++ digits ++ String "/" (c_string post)).
  change (18 + 5) with (Z.of_nat (String.length "$dps/registrations/res/")).
  replace (18 + 8)
    with (Z.of_nat (String.length "$dps/registrations/res/" + String.length digits))
    by (rewrite L; reflexivity).
  apply substring_after. cbn [String.length]. lia.
Qed.

Lemma holds_field_read (text key value : string) :
  holds_field text key value -> jsonGet text key = value.
Proof.
  intros (pre & post & -> & I & Q). now apply jsonGet_value.
Qed.

Lemma holds_nested_field_read (text parentKey childKey value : string) :
  holds_nested_field text parentKey childKey value ->
  jsonGetNested text parentKey childKey = value.
Proof.
  intros (pre & before & after & post & H). cbv zeta in H.
  destruct H as (-> & Ip & Hb & Ic & Q).
  rewrite (jsonGetNested_closed _ _ _ _ _ Ip Hb).
  rewrite !append_assoc in *.
  now apply jsonGet_value.
Qed.

Lemma announces_read (m : message) (hub dev : string) :
  announces m hub dev ->
  response_code m = 200 /\
  response_hub m = hub /\ response_deviceId m = dev /\
  nonempty (response_hub m) && nonempty (response_deviceId m) = true.
Proof.
  intros (T & W & Hh & Hd & Nh & Nd).
  assert (Eh : response_hub m = hub).
  { unfold response_hub. rewrite (seen_payload_whole m W).
    now apply holds_nested_field_read. }
  assert (Ed : response_deviceId m = dev).
  { unfold response_deviceId. rewrite (seen_payload_whole m W).
    now apply holds_nested_field_read. }
  split; [exact (response_code_status "200" m eq_refl eq_refl T)|].
  split; [exact Eh|]. split; [exact Ed|].
  rewrite Eh, Ed. destruct hub; [now destruct Nh|].
  destruct dev; [now destruct Nd | reflexivity].
Qed.

Lemma announces_assigned_read (m : message) (hub dev : string) :
  announces_assigned m hub dev -> is_assigned_reply m = true.
Proof.
  intros [A S]. destruct (announces_read m hub dev A) as (C & _).
  destruct A as (_ & W & _).
  unfold is_assigned_reply, response_status.
  rewrite C, (seen_payload_whole m W), (holds_field_read _ _ _ S).
  reflexivity.
Qed.

Lemma accepts_read (m : message) (operationId : string) :
  accepts m operationId ->
  response_code m = 202 /\
  response_operationId m = operationId /\
  nonempty (response_operationId m) = true.
Proof.
  intros (T & W & O & N).
  assert (E : response_operationId m = operationId).
  { unfold response_operationId. rewrite (seen_payload_whole m W).
    now apply holds_field_read. }
  split; [exact (response_code_status "202" m eq_refl eq_refl T)|].
  split; [exact E|]. rewrite E. destruct operationId; [now destruct N | reflexivity].
Qed.

Lemma not_yet_read (m : message) :
  not_yet m -> is_assigned_reply m = false.
Proof.
  unfold is_assigned_reply.
  intros [T|(T & W & status & S & N)].
  - now rewrite (response_code_status "202" m eq_refl eq_refl T).
  - rewrite (response_code_status "200" m eq_refl eq_refl T).
    unfold response_status.
    rewrite (seen_payload_whole m W), (holds_field_read _ _ _ S).
    cbn [andb]. change (WString.toInt "200" =? 200) with true. cbn [andb].
    now apply String.eqb_neq.
Qed.

Lemma not_yet_replies (polls : list arrival) :
  Forall (fun a => timely 5000 a = true /\ not_yet (what a)) polls ->
  forallb (timely 5000) polls = true /\
  forallb (fun a => negb (is_assigned_reply (what a))) polls = true.
Proof.
  induction 1 as [|a polls [T N] _ [IHt IHn]]; [split; reflexivity|].
  cbn [forallb]. rewrite T, IHt, IHn, (not_yet_read _ N). split; reflexivity.
Qed.

(** *** Waits in which nothing arrives *)

Lemma within_cons (D d : Z) (ds : list Z) :
  within D (d :: ds) = true -> 0 <= d <= D /\ within D ds = true.
Proof.
  unfold within. cbn [forallb]. intros H.
  apply andb_true_iff in H as [B H]. apply andb_true_iff in B as [B0 B1].
  apply Z.leb_le in B0, B1. auto.
Qed.

Lemma within_skipn (D : Z) (k : nat) :
  forall ds : list Z, within D ds = true -> within D (skipn k ds) = true.
Proof.
  induction k as [|k IH]; intros [|d ds] H; try exact H.
  cbn [skipn]. apply IH. now apply within_cons in H.
Qed.

(** A script that is used up stands for one last call of [mqtt.loop()]
    that lasts for the rest of the wait and delivers nothing. *)
Lemma register_wait_last_call (t0 : Z) (st : sketch) :
  elapsed_since t0 st < 20000 ->
  register_wait [] t0 st
  = register_wait [silent (20000 - elapsed_since t0 st)] t0 st.
Proof.
  intros L.
  assert (X : forall s : sketch,
             clock s = clock st + (20000 - elapsed_since t0 st) ->
             register_wait [] t0 s = (RegisterLeaves EmptyString, [], s)).
  { intros s C. apply register_wait_expired.
    unfold elapsed_since, millis in *. rewrite C.
    rewrite Zminus_mod_idemp_l.
    replace (clock st + (20000 - (clock st mod 2 ^ 32 - t0) mod 2 ^ 32) - t0)
      with (20000 + ((clock st - t0) - (clock st mod 2 ^ 32 - t0) mod 2 ^ 32))
      by lia.
    rewrite Zminus_mod_idemp_l.
    rewrite <- Zplus_mod_idemp_r, Zminus_mod_idemp_r, Z.sub_diag.
    change ((20000 + 0 mod 2 ^ 32) mod 2 ^ 32) with 20000. lia. }
  rewrite register_wait_nil, register_wait_cons, (proj2 (Z.ltb_lt _ _) L).
  cbn [negb]. cbv zeta.
  change (mqtt_loop (silent (20000 - elapsed_since t0 st)) st)
    with (delay (20000 - elapsed_since t0 st) st).
  destruct (dpsMsgArrived (delay (20000 - elapsed_since t0 st) st));
    [|symmetry; now apply X].
  match goal with |- context [?c =? 202] => destruct (c =? 202) end;
    [reflexivity|].
  match goal with |- context [?c =? 200] => destruct (c =? 200) end;
    [|symmetry; now apply X].
  match goal with |- context [nonempty ?a && nonempty ?b] =>
    destruct (nonempty a && nonempty b) end;
    [reflexivity | symmetry; now apply X].
Qed.

Lemma poll_wait_last_call (t1 : Z) (st : sketch) :
  elapsed_since t1 st < 5000 ->
  poll_wait [] t1 st = poll_wait [silent (5000 - elapsed_since t1 st)] t1 st.
Proof.
  intros L.
  assert (X : forall s : sketch,
             clock s = clock st + (5000 - elapsed_since t1 st) ->
             poll_wait [] t1 s = (PollGoesOn, [], s)).
  { intros s C. apply poll_wait_expired.
    unfold elapsed_since, millis in *. rewrite C.
    rewrite Zminus_mod_idemp_l.
    replace (clock st + (5000 - (clock st mod 2 ^ 32 - t1) mod 2 ^ 32) - t1)
      with (5000 + ((clock st - t1) - (clock st mod 2 ^ 32 - t1) mod 2 ^ 32))
      by lia.
    rewrite Zminus_mod_idemp_l.
    rewrite <- Zplus_mod_idemp_r, Zminus_mod_idemp_r, Z.sub_diag.
    change ((5000 + 0 mod 2 ^ 32) mod 2 ^ 32) with 5000. lia. }
  rewrite poll_wait_nil, poll_wait_cons, (proj2 (Z.ltb_lt _ _) L).
  cbn [negb]. cbv zeta.
  change (mqtt_loop (silent (5000 - elapsed_since t1 st)) st)
    with (delay (5000 - elapsed_since t1 st) st).
  destruct (dpsMsgArrived (delay (5000 - elapsed_since t1 st) st));
    [|symmetry; now apply X].
  match goal with |- context [?c =? 200] => destruct (c =? 200) end;
    [|reflexivity].
  match goal with |- context [String.eqb ?x ?y] => destruct (String.eqb x y) end;
    reflexivity.
Qed.

(** Calls that deliver nothing: the first wait ends with the call during
    which the twenty seconds run out, or, if the script ends before, when
    they have run out. *)
Lemma register_wait_silent (D : Z) (ds : list Z) :
  forall (rest : list event) (c0 : Z) (st : sketch),
    dpsMsgArrived st = false ->
    within D ds = true -> 0 <= D -> 20000 + D < 2 ^ 32 ->
    0 <= clock st - c0 < 20000 ->
    rest = [] \/ 20000 <= clock st - c0 + total ds ->
    exists (k : nat) (e : Z),
      register_wait (map silent ds ++ rest)%list (c0 mod 2 ^ 32) st
      = (RegisterLeaves EmptyString, (map silent (skipn k ds) ++ rest)%list,
         set_clock (c0 + e) st) /\
      20000 <= e <= 20000 + D.
Proof.
  induction ds as [|d ds IH]; intros rest c0 st F W D0 DB E R.
  - destruct R as [->|R]; [|cbn [total fold_right] in R; lia].
    cbn [map app].
    pose proof (elapsed_small c0 st 20000 E ltac:(lia)) as Es.
    rewrite register_wait_nil_quiet by (exact F || (rewrite Es; lia)).
    exists 0%nat, 20000. split; [|lia].
    cbn [skipn map app]. unfold delay. rewrite Es. do 2 f_equal. lia.
  - apply within_cons in W as [Bd W].
    change (total (d :: ds)) with (d + total ds) in R.
    cbn [map app].
    rewrite register_wait_silent_step;
      [|rewrite (elapsed_small c0 st 20000); lia | exact F].
    destruct (Z.lt_ge_cases (clock st + d - c0) 20000) as [Lt|Ge].
    + assert (R' : rest = [] \/
                   20000 <= clock (set_clock (clock st + d) st) - c0 + total ds)
        by (destruct R as [->|R]; [now left | right; cbn [clock set_clock]; lia]).
      destruct (IH rest c0 (set_clock (clock st + d) st) F W D0 DB)
        as (k & e & Eq & Be); [cbn [clock set_clock]; lia | exact R'|].
      exists (S k), e. split; [|exact Be].
      rewrite Eq, set_clock_twice. reflexivity.
    + rewrite register_wait_expired.
      * exists 1%nat, (clock st + d - c0). split; [|lia].
        cbn [skipn]. do 2 f_equal. lia.
      * rewrite (elapsed_small c0 _ (2 ^ 32)); cbn [clock set_clock]; lia.
Qed.

Lemma poll_wait_silent (D : Z) (ds : list Z) :
  forall (c0 : Z) (st : sketch),
    dpsMsgArrived st = false ->
    within D ds = true -> 0 <= D -> 5000 + D < 2 ^ 32 ->
    0 <= clock st - c0 < 5000 ->
    exists (k : nat) (e : Z),
      poll_wait (map silent ds) (c0 mod 2 ^ 32) st
      = (PollGoesOn, map silent (skipn k ds), set_clock (c0 + e) st) /\
      5000 <= e <= 5000 + D.
Proof.
  induction ds as [|d ds IH]; intros c0 st F W D0 DB E.
  - cbn [map].
    pose proof (elapsed_small c0 st 5000 E ltac:(lia)) as Es.
    rewrite poll_wait_nil_quiet by (exact F || (rewrite Es; lia)).
    exists 0%nat, 5000. split; [|lia].
    cbn [skipn map]. unfold delay. rewrite Es. do 2 f_equal. lia.
  - apply within_cons in W as [Bd W].
    cbn [map].
    rewrite poll_wait_silent_step;
      [|rewrite (elapsed_small c0 st 5000); lia | exact F].
    destruct (Z.lt_ge_cases (clock st + d - c0) 5000) as [Lt|Ge].
    + destruct (IH c0 (set_clock (clock st + d) st) F W D0 DB)
        as (k & e & Eq & Be); [cbn [clock set_clock]; lia|].
      exists (S k), e. split; [|exact Be].
      rewrite Eq, set_clock_twice. reflexivity.
    + rewrite poll_wait_expired.
      * exists 1%nat, (clock st + d - c0). split; [|lia].
        cbn [skipn]. do 2 f_equal. lia.
      * rewrite (elapsed_small c0 _ (2 ^ 32)); cbn [clock set_clock]; lia.
Qed.

(** Polls that are never answered: every attempt waits for its five
    seconds, to the end of the call during which they run out, then pauses
    for 1500 ms, and the loop gives up after the last one. *)
Lemma poll_loop_silent (D : Z) (todo : nat) :
  forall (operationId : string) (ds : list Z) (st : sketch),
    dpsMsgArrived st = false ->
    within D ds = true -> 0 <= D -> 5000 + D < 2 ^ 32 ->
    exists (k : nat) (st' : sketch),
      poll_loop todo operationId (map silent ds) st
      = (false, map silent (skipn k ds), st') /\
      polls_issued st' = (polls_issued st + todo)%nat /\
      clock st + Z.of_nat todo * 6500 <= clock st'
      <= clock st + Z.of_nat todo * (6500 + D).
Proof.
  induction todo as [|todo IH]; intros operationId ds st F W D0 DB.
  - exists 0%nat, st. cbn [poll_loop skipn]. repeat split; lia.
  - rewrite poll_loop_step. cbv zeta.
    set (st1 := next_rid _).
    assert (P1 : polls_issued st1 = S (polls_issued st)).
    { subst st1. unfold polls_issued. cbn [requests next_rid set_rid issue filter].
      rewrite is_poll_poll_topic. reflexivity. }
    assert (C1 : clock st1 = clock st) by reflexivity.
    assert (F1 : dpsMsgArrived st1 = false) by exact F.
    unfold millis.
    destruct (poll_wait_silent D ds (clock st1) st1 F1 W D0 DB ltac:(lia))
      as (k & e & -> & Be).
    destruct (IH operationId (skipn k ds)
                (delay 1500 (set_clock (clock st1 + e) st1)) F1
                (within_skipn D k ds W) D0 DB)
      as (k' & st' & -> & P & C).
    exists (k' + k)%nat, st'. rewrite skipn_skipn.
    split; [reflexivity|].
    change (polls_issued (delay 1500 (set_clock (clock st1 + e) st1)))
      with (polls_issued st1) in P.
    change (clock (delay 1500 (set_clock (clock st1 + e) st1)))
      with (clock st1 + e + 1500) in C.
    split; [lia|]. rewrite C1 in C. lia.
Qed.

End Responses.


(** The sample responses are of the described kinds. *)
Lemma response_assigned_announces :
  announces_assigned response_assigned "hub1.azure-devices.net" "dev-1".
Proof.
  split; [split; [reflexivity|split; [reflexivity|split; [|split; [|split]]]]|].
  - exists (json "{'operationId':'4.abc','status':'assigned',"),
           (json "'registrationId':'dev-1',"),
           (json ",'deviceId':'dev-1','status':'assigned'"),
           "}".
    cbv zeta. repeat split; vm_compute; reflexivity.
  - exists (json "{'operationId':'4.abc','status':'assigned',"),
           (json "'registrationId':'dev-1','assignedHub':'hub1.azure-devices.net',"),
           (json ",'status':'assigned'"),
           "}".
    cbv zeta. repeat split; vm_compute; reflexivity.
  - discriminate.
  - discriminate.
  - exists (json "{'operationId':'4.abc',"),
           (json ",'registrationState':{'registrationId':'dev-1','assignedHub':'hub1.azure-devices.net','deviceId':'dev-1','status':'assigned'}}").
    repeat split; vm_compute; reflexivity.
Qed.

Lemma response_accepted_accepts : accepts response_accepted "4.abc".
Proof.
  split; [reflexivity|]. split; [reflexivity|]. split; [|discriminate].
  exists "{", (json ",'status':'assigning'}").
  repeat split; vm_compute; reflexivity.
Qed.


